(** * LockerRentalApp: the client-side rules, embedded and checked

    A shallow embedding of the logic of the locker-rental client:
    the map viewport framing of [BusinessMap.tsx], the cancellation
    rules of the two booking screens, the list selection of
    [SearchScreen.tsx], the three Redux slices (auth, business,
    booking), the response interceptor of [services/api.ts] and the
    location service.

    Numbers.  A JavaScript [number] is an IEEE 754 binary64 value.
    Coordinates, spans and radii are embedded as such: they are
    primitive floats ([float]), whose [+], [-], [*] and [/] round to
    nearest, ties to even, after every operation, as JavaScript's do,
    and which have the two zeros, the infinities and NaN.  Facts for
    all doubles are proved through the specification of these
    operations ([SpecFloat]).  Counts, prices and the quotient of a
    millisecond difference, which the code only copies, floors or
    compares with a whole number, are rationals [Q].  Timestamps
    ([Date.getTime()]) are integers [Z], milliseconds since the epoch.

    The haversine distance of the location service is not embedded:
    it is computed with [Math.sin], [Math.cos] and [Math.atan2], whose
    results the language leaves to the implementation. *)

Set Warnings "-inexact-float".
From Stdlib Require Import Floats ZArith QArith Qround Psatz.
From stdpp Require Import gmap strings list pretty.

(** ** Part I: the model *)

(** *** JavaScript numbers *)

Module JSNumber.
Local Open Scope float_scope.

(** [Math.abs] *)
Definition Math_abs (x : float) : float := abs x.

(** [Math.max] of two numbers: NaN if one of them is NaN; [+0] counts
    as larger than [-0]; otherwise the first argument unless the
    second is greater. *)
Definition Math_max (x y : float) : float :=
  if is_nan x || is_nan y then nan
  else if is_zero y && negb (get_sign y) && is_zero x && get_sign x then y
  else if x <? y then y else x.

(** [Number.isFinite] *)
Definition isFinite (x : float) : bool := is_finite x.

(** The exact value of a finite double, [None] for an infinity and
    for NaN. *)
Definition exact (x : float) : option Q :=
  match Prim2SF x with
  | S754_zero _ => Some 0%Q
  | S754_finite s m e =>
      Some ((if s then - inject_Z (Zpos m) else inject_Z (Zpos m)) * 2 ^ e)%Q
  | S754_infinity _ | S754_nan => None
  end.

(** The specification values that stand for finite doubles. *)
Definition SFfinite (x : spec_float) : Prop :=
  match x with
  | S754_zero _ | S754_finite _ _ _ => True
  | S754_infinity _ | S754_nan => False
  end.
End JSNumber.

(** *** [src/types/index.ts] *)

Module BookingStatus.
Inductive t := pending | confirmed | active | completed | cancelled | expired.
#[global] Instance eq_dec : EqDecision t.
Proof. solve_decision. Defined.
End BookingStatus.

Module PaymentStatus.
Inductive t := pending | processing | completed | failed | refunded.
#[global] Instance eq_dec : EqDecision t.
Proof. solve_decision. Defined.
End PaymentStatus.

Module BusinessType.
Inductive t := restaurant | grocery | cafe | other.
End BusinessType.

Module User.
Record t := mk {
  _id : string;
  firstName : string;
  lastName : string;
  email : string;
  phoneNumber : string;
  role : string;
  isActive : bool;
  lastLoginAt : option Z;
  createdAt : Z;
  updatedAt : Z
}.
End User.

Module Business.
Record Address := mkAddress {
  street : string;
  city : string;
  state : string;
  zipCode : string
}.

(** [coordinates: [number, number]] is the GeoJSON pair
    [[longitude, latitude]]: index 0 is the first component. *)
Record GeoPoint := mkGeoPoint {
  type : string;
  coordinates : float * float
}.

(** The field [operatingHours: any] carries no structure the client
    reads and is left out. *)
Record t := mk {
  _id : string;
  name : string;
  description : string;
  businessType : BusinessType.t;
  address : Address;
  location : GeoPoint;
  phoneNumber : string;
  email : option string;
  website : option string;
  images : list string;
  totalLockers : Q;
  availableLockers : Q;
  pricePerHour : Q;
  amenities : list string;
  ownerId : string;
  isActive : bool;
  isVerified : bool;
  rating : Q;
  reviewCount : Q;
  createdAt : Z;
  updatedAt : Z
}.

(** [business.location.coordinates[0]] and [...[1]]. *)
Definition coordinates0 (b : t) : float := fst (coordinates (location b)).
Definition coordinates1 (b : t) : float := snd (coordinates (location b)).
End Business.

Module Booking.
Record t := mk {
  _id : string;
  userId : string;
  businessId : string;
  business : option Business.t;
  lockerNumber : string;
  startTime : Z;
  endTime : Z;
  durationHours : Q;
  totalAmount : Q;
  status : BookingStatus.t;
  paymentId : option string;
  paymentStatus : PaymentStatus.t;
  accessCode : option string;
  specialInstructions : option string;
  cancellationReason : option string;
  checkedInAt : option Z;
  checkedOutAt : option Z;
  cancelledAt : option Z;
  createdAt : Z;
  updatedAt : Z
}.

(** [{ ...b, status: s }] *)
Definition with_status (s : BookingStatus.t) (b : t) : t :=
  mk (_id b) (userId b) (businessId b) (business b) (lockerNumber b)
     (startTime b) (endTime b) (durationHours b) (totalAmount b) s
     (paymentId b) (paymentStatus b) (accessCode b)
     (specialInstructions b) (cancellationReason b) (checkedInAt b)
     (checkedOutAt b) (cancelledAt b) (createdAt b) (updatedAt b).
End Booking.

Record AuthResponse := mkAuthResponse {
  auth_user : User.t;
  auth_token : string
}.

(** *** [src/components/BusinessMap.tsx] *)

Module LatLng.
(** The prop [userLocation?: { latitude: number; longitude: number }]. *)
Record t := mk { latitude : float; longitude : float }.
End LatLng.

Module Region.
(** [Region] of react-native-maps: a centre and two spans. *)
Record t := mk {
  latitude : float;
  longitude : float;
  latitudeDelta : float;
  longitudeDelta : float
}.
End Region.

Module BusinessMap.
Local Open Scope float_scope.
Import JSNumber.

Definition atlantaRegion : Region.t :=
  {| Region.latitude := 33.7490;
     Region.longitude := -84.3880;
     Region.latitudeDelta := 0.0922;
     Region.longitudeDelta := 0.0421 |}.

Definition calculateOptimalRegion
    (userLoc : LatLng.t) (nearestBusiness : Business.t) : Region.t :=
  let businessLat := Business.coordinates1 nearestBusiness in
  let businessLng := Business.coordinates0 nearestBusiness in
  let centerLat := (LatLng.latitude userLoc + businessLat) / 2 in
  let centerLng := (LatLng.longitude userLoc + businessLng) / 2 in
  let latDiff := Math_abs (LatLng.latitude userLoc - businessLat) in
  let lngDiff := Math_abs (LatLng.longitude userLoc - businessLng) in
  let paddingFactor := 2.5 in
  let minDelta := 0.05 in
  let latitudeDelta := Math_max (latDiff * paddingFactor) minDelta in
  let longitudeDelta := Math_max (lngDiff * paddingFactor) minDelta in
  {| Region.latitude := centerLat;
     Region.longitude := centerLng;
     Region.latitudeDelta := latitudeDelta;
     Region.longitudeDelta := longitudeDelta |}.

(** What one run of the [useEffect] body does: the region handed to
    [setRegion], and the region scheduled for [animateToRegion]
    (only the first rule animates). *)
Record Effect := mkEffect {
  setRegion : Region.t;
  animateToRegion : option Region.t
}.

(** The body of the [useEffect].  The two boolean props are
    dependencies of the effect but are not read by it. *)
Definition regionEffect
    (userLocation : option LatLng.t) (businesses : list Business.t)
    (centerOnNearestBusiness showUserAndNearestBusiness : bool) : Effect :=
  match userLocation, businesses with
  | Some userLocation, nearestBusiness :: _ =>
      let optimalRegion := calculateOptimalRegion userLocation nearestBusiness in
      mkEffect optimalRegion (Some optimalRegion)
  | Some userLocation, [] =>
      let newRegion :=
        {| Region.latitude := LatLng.latitude userLocation;
           Region.longitude := LatLng.longitude userLocation;
           Region.latitudeDelta := 0.0922;
           Region.longitudeDelta := 0.0421 |} in
      mkEffect newRegion None
  | None, firstBusiness :: _ =>
      let businessLat := Business.coordinates1 firstBusiness in
      let businessLng := Business.coordinates0 firstBusiness in
      let newRegion :=
        {| Region.latitude := businessLat;
           Region.longitude := businessLng;
           Region.latitudeDelta := 0.0922;
           Region.longitudeDelta := 0.0421 |} in
      mkEffect newRegion None
  | None, [] => mkEffect atlantaRegion None
  end.

(** The region state after the effect has run. *)
Definition region
    (userLocation : option LatLng.t) (businesses : list Business.t)
    (centerOnNearestBusiness showUserAndNearestBusiness : bool) : Region.t :=
  setRegion (regionEffect userLocation businesses
               centerOnNearestBusiness showUserAndNearestBusiness).
End BusinessMap.

(** *** The bookings list screen (second half of [components/LoadingSpinner.tsx]) *)

Module BookingsScreen.
(** [canCancelBooking]; [now] is the value of [new Date().getTime()]
    and [Booking.startTime] that of [new Date(booking.startTime).getTime()]. *)
Definition canCancelBooking (now : Z) (booking : Booking.t) : bool :=
  if bool_decide (Booking.status booking = BookingStatus.completed)
     || bool_decide (Booking.status booking = BookingStatus.cancelled)
  then false
  else
    let startTime := Booking.startTime booking in
    let timeDifference := (startTime - now)%Z in
    let hoursUntilStart :=
      (inject_Z timeDifference / inject_Z (1000 * 60 * 60))%Q in
    Qle_bool 1 hoursUntilStart.
End BookingsScreen.

(** *** [src/screens/BookingDetailsScreen.tsx] *)

Module BookingDetailsScreen.
Definition canCancel (booking : Booking.t) : bool :=
  bool_decide (Booking.status booking = BookingStatus.confirmed)
  || bool_decide (Booking.status booking = BookingStatus.active).
End BookingDetailsScreen.

(** *** [src/screens/SearchScreen.tsx] *)

Module SearchScreen.
Definition displayBusinesses
    (businesses nearbyBusinesses : list Business.t) : list Business.t :=
  if (0 <? length businesses)%nat then businesses
  else if (0 <? length nearbyBusinesses)%nat then nearbyBusinesses
  else [].
End SearchScreen.

(** *** The auth slice ([store/authSlice.ts]) *)

Module AuthSlice.
Record AuthState := mkState {
  user : option User.t;
  token : option string;
  isLoading : bool;
  isAuthenticated : bool;
  error : option string
}.

Definition initialState : AuthState :=
  {| user := None; token := None; isLoading := false;
     isAuthenticated := false; error := None |}.

(** Assignments to one field of the draft state. *)
Definition set_user v (s : AuthState) :=
  mkState v (token s) (isLoading s) (isAuthenticated s) (error s).
Definition set_token v (s : AuthState) :=
  mkState (user s) v (isLoading s) (isAuthenticated s) (error s).
Definition set_isLoading v (s : AuthState) :=
  mkState (user s) (token s) v (isAuthenticated s) (error s).
Definition set_isAuthenticated v (s : AuthState) :=
  mkState (user s) (token s) (isLoading s) v (error s).
Definition set_error v (s : AuthState) :=
  mkState (user s) (token s) (isLoading s) (isAuthenticated s) v.

Inductive Thunk :=
  loginUser | updateProfile | registerUser | loadStoredAuth | logoutUser.

(** The actions the slice can see.  A rejected action carries the
    value given to [rejectWithValue], which every thunk of the slice
    passes as a string. *)
Inductive Action :=
| clearError
| setUser (payload : User.t)
| pending (t : Thunk)
| rejected (t : Thunk) (payload : string)
| loginUser_fulfilled (payload : AuthResponse)
| registerUser_fulfilled (payload : AuthResponse)
| loadStoredAuth_fulfilled (payload : AuthResponse)
| logoutUser_fulfilled
| updateProfile_fulfilled (payload : User.t).

(** The slice reducer: [reducers] and [extraReducers], one branch per
    [addCase]; an action without a case leaves the state as it is. *)
Definition reducer (state : AuthState) (action : Action) : AuthState :=
  match action with
  | clearError => set_error None state
  | setUser payload => set_user (Some payload) state
  (* Login *)
  | pending loginUser =>
      let state := set_isLoading true state in
      set_error None state
  | loginUser_fulfilled payload =>
      let state := set_isLoading false state in
      let state := set_user (Some (auth_user payload)) state in
      let state := set_token (Some (auth_token payload)) state in
      let state := set_isAuthenticated true state in
      set_error None state
  | rejected loginUser payload =>
      let state := set_isLoading false state in
      let state := set_error (Some payload) state in
      set_isAuthenticated false state
  (* Register *)
  | pending registerUser =>
      let state := set_isLoading true state in
      set_error None state
  | registerUser_fulfilled payload =>
      let state := set_isLoading false state in
      let state := set_user (Some (auth_user payload)) state in
      let state := set_token (Some (auth_token payload)) state in
      let state := set_isAuthenticated true state in
      set_error None state
  | rejected registerUser payload =>
      let state := set_isLoading false state in
      let state := set_error (Some payload) state in
      set_isAuthenticated false state
  (* Load stored auth *)
  | pending loadStoredAuth => set_isLoading true state
  | loadStoredAuth_fulfilled payload =>
      let state := set_isLoading false state in
      let state := set_user (Some (auth_user payload)) state in
      let state := set_token (Some (auth_token payload)) state in
      set_isAuthenticated true state
  | rejected loadStoredAuth _ =>
      let state := set_isLoading false state in
      set_isAuthenticated false state
  (* Logout *)
  | logoutUser_fulfilled =>
      let state := set_user None state in
      let state := set_token None state in
      let state := set_isAuthenticated false state in
      set_error None state
  (* no case for a pending or a rejected logout *)
  | pending logoutUser => state
  | rejected logoutUser _ => state
  (* Update profile *)
  | pending updateProfile =>
      let state := set_isLoading true state in
      set_error None state
  | updateProfile_fulfilled payload =>
      let state := set_isLoading false state in
      let state := set_user (Some payload) state in
      set_error None state
  | rejected updateProfile payload =>
      let state := set_isLoading false state in
      set_error (Some payload) state
  end.
End AuthSlice.

(** *** The business slice ([store/businessSlice.ts]) *)

Module BusinessSlice.
Record SearchBusinessesRequest := mkRequest {
  req_latitude : option Q;
  req_longitude : option Q;
  req_radius : option Q;
  req_zipCode : option string;
  req_businessType : option string;
  req_name : option string;
  req_page : option Q;
  req_limit : option Q
}.

Record BusinessState := mkState {
  businesses : list Business.t;
  selectedBusiness : option Business.t;
  nearbyBusinesses : list Business.t;
  isLoading : bool;
  error : option string;
  searchParams : option SearchBusinessesRequest
}.

Definition initialState : BusinessState :=
  {| businesses := []; selectedBusiness := None; nearbyBusinesses := [];
     isLoading := false; error := None; searchParams := None |}.

Definition set_businesses v (s : BusinessState) :=
  mkState v (selectedBusiness s) (nearbyBusinesses s) (isLoading s) (error s) (searchParams s).
Definition set_selectedBusiness v (s : BusinessState) :=
  mkState (businesses s) v (nearbyBusinesses s) (isLoading s) (error s) (searchParams s).
Definition set_nearbyBusinesses v (s : BusinessState) :=
  mkState (businesses s) (selectedBusiness s) v (isLoading s) (error s) (searchParams s).
Definition set_isLoading v (s : BusinessState) :=
  mkState (businesses s) (selectedBusiness s) (nearbyBusinesses s) v (error s) (searchParams s).
Definition set_error v (s : BusinessState) :=
  mkState (businesses s) (selectedBusiness s) (nearbyBusinesses s) (isLoading s) v (searchParams s).
Definition set_searchParams v (s : BusinessState) :=
  mkState (businesses s) (selectedBusiness s) (nearbyBusinesses s) (isLoading s) (error s) v.

Inductive Thunk := searchBusinesses | fetchNearbyBusinesses | fetchBusinessById.

Inductive Action :=
| clearError
| setSelectedBusiness (payload : option Business.t)
| clearBusinesses
| pending (t : Thunk)
| rejected (t : Thunk) (payload : string)
| searchBusinesses_fulfilled
    (payload_businesses : list Business.t) (payload_params : SearchBusinessesRequest)
| fetchNearbyBusinesses_fulfilled (payload : list Business.t)
| fetchBusinessById_fulfilled (payload : Business.t).

Definition reducer (state : BusinessState) (action : Action) : BusinessState :=
  match action with
  | clearError => set_error None state
  | setSelectedBusiness payload => set_selectedBusiness payload state
  | clearBusinesses =>
      let state := set_businesses [] state in
      let state := set_nearbyBusinesses [] state in
      let state := set_selectedBusiness None state in
      set_searchParams None state
  (* the three thunks share their pending and rejected cases *)
  | pending _ =>
      let state := set_isLoading true state in
      set_error None state
  | rejected _ payload =>
      let state := set_isLoading false state in
      set_error (Some payload) state
  | searchBusinesses_fulfilled payload_businesses payload_params =>
      let state := set_isLoading false state in
      let state := set_businesses payload_businesses state in
      let state := set_searchParams (Some payload_params) state in
      set_error None state
  | fetchNearbyBusinesses_fulfilled payload =>
      let state := set_isLoading false state in
      let state := set_nearbyBusinesses payload state in
      set_error None state
  | fetchBusinessById_fulfilled payload =>
      let state := set_isLoading false state in
      let state := set_selectedBusiness (Some payload) state in
      set_error None state
  end.
End BusinessSlice.

(** *** Array operations of the reducers *)

(** [Array.prototype.findIndex]: the index of the first element that
    satisfies [p]; [None] stands for the result [-1]. *)
Fixpoint findIndex {A : Type} (p : A -> bool) (l : list A) : option nat :=
  match l with
  | [] => None
  | x :: l' => if p x then Some 0%nat else S <$> findIndex p l'
  end.

(** [arr.unshift(x)], [arr.push(x)], [arr[i] = x] for an index that
    [findIndex] returned, and [arr.splice(i, 1)]. *)
Definition unshift {A : Type} (x : A) (arr : list A) : list A := x :: arr.
Definition push {A : Type} (x : A) (arr : list A) : list A := arr ++ [x].
Definition assign {A : Type} (i : nat) (x : A) (arr : list A) : list A := <[i := x]> arr.
Definition splice1 {A : Type} (i : nat) (arr : list A) : list A := delete i arr.

(** *** The booking slice ([store/bookingSlice.ts]) *)

Module BookingSlice.
Record BookingState := mkState {
  bookings : list Booking.t;
  activeBookings : list Booking.t;
  selectedBooking : option Booking.t;
  isLoading : bool;
  error : option string
}.

Definition initialState : BookingState :=
  {| bookings := []; activeBookings := []; selectedBooking := None;
     isLoading := false; error := None |}.

Definition set_bookings v (s : BookingState) :=
  mkState v (activeBookings s) (selectedBooking s) (isLoading s) (error s).
Definition set_activeBookings v (s : BookingState) :=
  mkState (bookings s) v (selectedBooking s) (isLoading s) (error s).
Definition set_selectedBooking v (s : BookingState) :=
  mkState (bookings s) (activeBookings s) v (isLoading s) (error s).
Definition set_isLoading v (s : BookingState) :=
  mkState (bookings s) (activeBookings s) (selectedBooking s) v (error s).
Definition set_error v (s : BookingState) :=
  mkState (bookings s) (activeBookings s) (selectedBooking s) (isLoading s) v.

Inductive Thunk :=
| createBooking | fetchUserBookings | fetchActiveBookings
| updateBookingStatus | cancelBooking | checkInToLocker | checkOutFromLocker.

Inductive Action :=
| clearError
| setSelectedBooking (payload : option Booking.t)
| clearBookings
| pending (t : Thunk)
| rejected (t : Thunk) (payload : string)
| createBooking_fulfilled (payload : Booking.t)
| fetchUserBookings_fulfilled (payload : list Booking.t)
| fetchActiveBookings_fulfilled (payload : list Booking.t)
| updateBookingStatus_fulfilled (payload : Booking.t)
| cancelBooking_fulfilled (payload : Booking.t)
| checkInToLocker_fulfilled (payload : Booking.t)
| checkOutFromLocker_fulfilled (payload : Booking.t).

(** [b => b._id === action.payload._id] *)
Definition same_id (payload : Booking.t) (b : Booking.t) : bool :=
  bool_decide (Booking._id b = Booking._id payload).

(** [const index = state.bookings.findIndex(...);
     if (index !== -1) state.bookings[index] = action.payload;] *)
Definition replace_in_bookings (payload : Booking.t) (state : BookingState) : BookingState :=
  match findIndex (same_id payload) (bookings state) with
  | Some index => set_bookings (assign index payload (bookings state)) state
  | None => state
  end.

(** [if (state.selectedBooking?._id === action.payload._id)
      state.selectedBooking = action.payload;] *)
Definition replace_selected (payload : Booking.t) (state : BookingState) : BookingState :=
  match selectedBooking state with
  | Some b => if same_id payload b then set_selectedBooking (Some payload) state else state
  | None => state
  end.

(** [if (activeIndex !== -1) state.activeBookings.splice(activeIndex, 1);] *)
Definition remove_from_active (payload : Booking.t) (state : BookingState) : BookingState :=
  match findIndex (same_id payload) (activeBookings state) with
  | Some activeIndex =>
      set_activeBookings (splice1 activeIndex (activeBookings state)) state
  | None => state
  end.

Definition is_active (b : Booking.t) : bool :=
  bool_decide (Booking.status b = BookingStatus.active).

Definition reducer (state : BookingState) (action : Action) : BookingState :=
  match action with
  | clearError => set_error None state
  | setSelectedBooking payload => set_selectedBooking payload state
  | clearBookings =>
      let state := set_bookings [] state in
      let state := set_activeBookings [] state in
      set_selectedBooking None state
  (* Create booking *)
  | pending createBooking =>
      let state := set_isLoading true state in
      set_error None state
  | createBooking_fulfilled payload =>
      let state := set_isLoading false state in
      let state := set_bookings (unshift payload (bookings state)) state in
      let state :=
        if is_active payload
        then set_activeBookings (unshift payload (activeBookings state)) state
        else state in
      set_error None state
  | rejected createBooking payload =>
      let state := set_isLoading false state in
      set_error (Some payload) state
  (* Fetch user bookings *)
  | pending fetchUserBookings =>
      let state := set_isLoading true state in
      set_error None state
  | fetchUserBookings_fulfilled payload =>
      let state := set_isLoading false state in
      let state := set_bookings payload state in
      set_error None state
  | rejected fetchUserBookings payload =>
      let state := set_isLoading false state in
      set_error (Some payload) state
  (* Fetch active bookings *)
  | fetchActiveBookings_fulfilled payload => set_activeBookings payload state
  (* Update booking status *)
  | updateBookingStatus_fulfilled payload =>
      let state := replace_in_bookings payload state in
      let activeIndex := findIndex (same_id payload) (activeBookings state) in
      let state :=
        match is_active payload, activeIndex with
        | true, None =>
            set_activeBookings (push payload (activeBookings state)) state
        | false, Some activeIndex =>
            set_activeBookings (splice1 activeIndex (activeBookings state)) state
        | true, Some activeIndex =>
            set_activeBookings (assign activeIndex payload (activeBookings state)) state
        | false, None => state
        end in
      replace_selected payload state
  (* Cancel booking *)
  | pending cancelBooking =>
      let state := set_isLoading true state in
      set_error None state
  | cancelBooking_fulfilled payload =>
      let state := set_isLoading false state in
      let state := replace_in_bookings payload state in
      let state := remove_from_active payload state in
      let state := replace_selected payload state in
      set_error None state
  | rejected cancelBooking payload =>
      let state := set_isLoading false state in
      set_error (Some payload) state
  (* Check in / out *)
  | checkInToLocker_fulfilled payload =>
      let state := replace_in_bookings payload state in
      let state :=
        match findIndex (same_id payload) (activeBookings state) with
        | Some activeIndex =>
            set_activeBookings (assign activeIndex payload (activeBookings state)) state
        | None => state
        end in
      replace_selected payload state
  | checkOutFromLocker_fulfilled payload =>
      let state := replace_in_bookings payload state in
      let state := remove_from_active payload state in
      replace_selected payload state
  (* no case for the remaining pending and rejected actions *)
  | pending _ => state
  | rejected _ _ => state
  end.
End BookingSlice.

(** *** [AsyncStorage] and the API client ([services/api.ts]) *)

Module AsyncStorage.
(** The persisted key-value store. *)
Abbreviation t := (gmap string string).
Definition getItem (key : string) (store : t) : option string := store !! key.
Definition setItem (key value : string) (store : t) : t := <[key := value]> store.
Definition removeItem (key : string) (store : t) : t := delete key store.
End AsyncStorage.

Module ApiService.
Record AxiosResponse := mkResponse {
  status : Z;
  data : string
}.

(** The error object axios rejects with; [response] is absent when
    no reply reached the client (network failure, timeout). *)
Record AxiosError := mkError {
  message : string;
  response : option AxiosResponse
}.

(** One method per endpoint; all of them go through [this.api]. *)
Inductive Endpoint :=
| login | register | getProfile
| searchBusinesses | getBusinessById | getNearbyBusinesses
| createBooking | getUserBookings | getBookingById
| updateBookingStatus | cancelBooking
| checkInToLocker | checkOutFromLocker
| updateUserProfile.

(** Request interceptor: the [Authorization] header it adds, if any
    ([if (token)] is false for a missing and for an empty token). *)
Definition requestInterceptor (store : AsyncStorage.t) : option string :=
  match AsyncStorage.getItem "auth_token" store with
  | Some token => if bool_decide (token = EmptyString) then None else Some ("Bearer " +:+ token)
  | None => None
  end.

(** Response interceptor, first handler: [(response) => response]. *)
Definition onFulfilled (response : AxiosResponse) (store : AsyncStorage.t)
    : AsyncStorage.t * AxiosResponse :=
  (store, response).

(** Response interceptor, second handler: clears the session on a
    401 and rejects with the same error. *)
Definition onRejected (error : AxiosError) (store : AsyncStorage.t)
    : AsyncStorage.t * AxiosError :=
  let store :=
    match response error with
    | Some r =>
        if bool_decide (status r = 401%Z)
        then
          let store := AsyncStorage.removeItem "auth_token" store in
          AsyncStorage.removeItem "user_data" store
        else store
    | None => store
    end in
  (store, error).

(** What came back from the network for a request. *)
Inductive Reply :=
| HttpReply (r : AxiosResponse)
| NoReply (message : string).

(** The default [validateStatus] of axios: a reply resolves the
    request when its status is 2xx and rejects it otherwise. *)
Definition validateStatus (status : Z) : bool :=
  ((200 <=? status) && (status <? 300))%Z.

(** One call of an endpoint method: the reply is settled by axios and
    passed through the response interceptor.  The result is the
    store afterwards and either the error thrown to the caller or
    the response whose [data] the method returns. *)
Definition call (endpoint : Endpoint) (reply : Reply) (store : AsyncStorage.t)
    : AsyncStorage.t * (AxiosError + AxiosResponse) :=
  match reply with
  | HttpReply r =>
      if validateStatus (status r)
      then let '(store, r) := onFulfilled r store in (store, inr r)
      else
        let '(store, e) :=
          onRejected
            (mkError ("Request failed with status code " +:+ pretty (status r)) (Some r))
            store in
        (store, inl e)
  | NoReply message =>
      let '(store, e) := onRejected (mkError message None) store in
      (store, inl e)
  end.
End ApiService.

(** *** Sample data *)

Module Sample.
(** A business at the GeoJSON point [[lng, lat]]. *)
Definition business (id : string) (lng lat : float) : Business.t :=
  {| Business._id := id;
     Business.name := "Locker Stop";
     Business.description := "Lockers by the hour";
     Business.businessType := BusinessType.cafe;
     Business.address := Business.mkAddress "1 Peachtree St" "Atlanta" "GA" "30308";
     Business.location := Business.mkGeoPoint "Point" (lng, lat);
     Business.phoneNumber := "4045550199";
     Business.email := None;
     Business.website := None;
     Business.images := [];
     Business.totalLockers := 10;
     Business.availableLockers := 4;
     Business.pricePerHour := 5;
     Business.amenities := [];
     Business.ownerId := "owner";
     Business.isActive := true;
     Business.isVerified := true;
     Business.rating := 4.5;
     Business.reviewCount := 12;
     Business.createdAt := 0;
     Business.updatedAt := 0 |}.

(** A one-hour booking with the given id, status and start time. *)
Definition booking (id : string) (st : BookingStatus.t) (start : Z) : Booking.t :=
  {| Booking._id := id;
     Booking.userId := "user";
     Booking.businessId := "business";
     Booking.business := None;
     Booking.lockerNumber := "A1";
     Booking.startTime := start;
     Booking.endTime := start + 3600000;
     Booking.durationHours := 1;
     Booking.totalAmount := 5;
     Booking.status := st;
     Booking.paymentId := None;
     Booking.paymentStatus := PaymentStatus.completed;
     Booking.accessCode := None;
     Booking.specialInstructions := None;
     Booking.cancellationReason := None;
     Booking.checkedInAt := None;
     Booking.checkedOutAt := None;
     Booking.cancelledAt := None;
     Booking.createdAt := 0;
     Booking.updatedAt := 0 |}.

Definition user : User.t :=
  {| User._id := "user";
     User.firstName := "Ada";
     User.lastName := "Lovelace";
     User.email := "ada@example.com";
     User.phoneNumber := "4045550100";
     User.role := "customer";
     User.isActive := true;
     User.lastLoginAt := None;
     User.createdAt := 0;
     User.updatedAt := 0 |}.
(** A user and a business that both sit on downtown Atlanta. *)
Definition downtown_user : LatLng.t := LatLng.mk 33.7490 (-84.3880).
Definition downtown_business : Business.t := business "b1" (-84.3880) 33.7490.
End Sample.

(** *** Vocabulary of the viewport properties *)

Module Viewport.
Local Open Scope float_scope.

(** Two points of the plane, as (latitude, longitude), are the same
    when their coordinates are equal numbers ([===]). *)
Definition same_point (p q : float * float) : Prop :=
  (fst p =? fst q) = true /\ (snd p =? snd q) = true.

(** [c] lies on the segment from [p] to [q], end points excluded:
    in exact arithmetic [c = p + t (q - p)] for some [0 < t < 1], and
    [c] is neither [p] nor [q]. *)
Definition strictly_between (p q c : float * float) : Prop :=
  (exists t p1 p2 q1 q2 c1 c2 : Q,
     JSNumber.exact (fst p) = Some p1 /\ JSNumber.exact (snd p) = Some p2 /\
     JSNumber.exact (fst q) = Some q1 /\ JSNumber.exact (snd q) = Some q2 /\
     JSNumber.exact (fst c) = Some c1 /\ JSNumber.exact (snd c) = Some c2 /\
     (0 < t /\ t < 1 /\
      c1 == p1 + t * (q1 - p1) /\
      c2 == p2 + t * (q2 - p2))%Q)
  /\ ~ same_point c p /\ ~ same_point c q.

Definition user_point (u : LatLng.t) : float * float :=
  (LatLng.latitude u, LatLng.longitude u).
Definition business_point (b : Business.t) : float * float :=
  (Business.coordinates1 b, Business.coordinates0 b).
Definition center (r : Region.t) : float * float :=
  (Region.latitude r, Region.longitude r).
End Viewport.

(** *** Vocabulary of the booking-list properties *)

Module Merge.
(** A booking with the id of [payload] is in the list. *)
Definition present (payload : Booking.t) (l : list Booking.t) : Prop :=
  exists b, b ∈ l /\ Booking._id b = Booking._id payload.

(** No two bookings of the list share an id. *)
Definition unique_ids (l : list Booking.t) : Prop :=
  NoDup (Booking._id <$> l).

(** [l'] is [l] with the element at index [i] replaced by [x]. *)
Definition replaced_at {A : Type} (i : nat) (x : A) (l l' : list A) : Prop :=
  length l' = length l /\ l' !! i = Some x /\
  forall j, j <> i -> l' !! j = l !! j.

(** [i] is the first index of [l] that holds a booking with the id of
    [payload]. *)
Definition first_match (payload : Booking.t) (l : list Booking.t) (i : nat) : Prop :=
  (exists b, l !! i = Some b /\ Booking._id b = Booking._id payload) /\
  forall j b, (j < i)%nat -> l !! j = Some b -> Booking._id b <> Booking._id payload.
End Merge.

(** *** The location service: permission and position (first half of the [LocationService] class) *)

Module Location.
(** [interface Location { latitude; longitude; accuracy? }] *)
Record t := mk { latitude : float; longitude : float; accuracy : option float }.

(** A [Location] handed to a prop of type [{ latitude; longitude }]. *)
Definition toLatLng (l : t) : LatLng.t := LatLng.mk (latitude l) (longitude l).
End Location.

Module LocationError.
Record t := mk { code : Z; message : string }.
End LocationError.

Module Geolocation.
(** [Platform.OS]: Android asks at run time, every other platform does not. *)
Inductive Platform := android | other_platform.

(** How [PermissionsAndroid.request] ended: with one of its three
    results, or by throwing. *)
Inductive PermissionOutcome := GRANTED | DENIED | NEVER_ASK_AGAIN | request_threw.

(** What the device answers to [Geolocation.getCurrentPosition]: the
    success callback with [position.coords], or the error callback. *)
Inductive PositionOutcome :=
| position (latitude longitude accuracy : float)
| position_error (code : Z).

Definition requestLocationPermission (os : Platform) (outcome : PermissionOutcome) : bool :=
  match os with
  | android =>
      match outcome with
      | GRANTED => true
      | DENIED | NEVER_ASK_AGAIN => false
      | request_threw => false
      end
  | other_platform => true
  end.

Definition getLocationErrorMessage (code : Z) : string :=
  if (code =? 1)%Z then
    "Location access denied. Please enable location permissions in settings."
  else if (code =? 2)%Z then
    "Unable to determine location. Please check your GPS/network connection."
  else if (code =? 3)%Z then
    "Location request timed out. Please try again."
  else "An unknown location error occurred.".

(** [getCurrentLocation]; [dev] is [__DEV__]; [inl] is a rejected and
    [inr] a resolved promise. *)
Definition getCurrentLocation (dev : bool) (outcome : PositionOutcome)
    : LocationError.t + Location.t :=
  if dev then
    match outcome with
    | position latitude longitude accuracy =>
        inr (Location.mk latitude longitude (Some accuracy))
    | position_error _ =>
        let fallbackLocation := Location.mk 33.7490 (-84.3880) (Some 100%float) in
        inr fallbackLocation
    end
  else
    match outcome with
    | position latitude longitude accuracy =>
        inr (Location.mk latitude longitude (Some accuracy))
    | position_error code =>
        inl (LocationError.mk code (getLocationErrorMessage code))
    end.

(** What [getLocationWithPermission] can fail with: the [Error] it
    throws itself, or the rejection of [getCurrentLocation]. *)
Inductive Failure :=
| thrown (message : string)
| rejected_with (e : LocationError.t).

Definition getLocationWithPermission
    (dev : bool) (os : Platform) (permission : PermissionOutcome)
    (outcome : PositionOutcome) : Failure + Location.t :=
  let hasPermission := requestLocationPermission os permission in
  if negb hasPermission then inl (thrown "Location permission denied")
  else
    match getCurrentLocation dev outcome with
    | inl e => inl (rejected_with e)
    | inr l => inr l
    end.
End Geolocation.

(** *** [src/utils/helpers.ts] *)

Module Helpers.
(** [truncateText]: [text.length] counts code units, [substring(0, n)]
    treats a negative [n] as 0. *)
Definition truncateText (text : string) (maxLength : Z) : string :=
  if (Z.of_nat (String.length text) <=? maxLength)%Z then text
  else String.substring 0 (Z.to_nat maxLength) text +:+ "...".

(** [getTimeRemaining]; [now] is [new Date().getTime()], [endTime] the
    time value of the argument.  [Math.floor] is applied to quotients
    of a positive [diff] only; a whole number prints in decimal. *)
Definition getTimeRemaining (now endTime : Z) : string :=
  let diff := (endTime - now)%Z in
  if (diff <=? 0)%Z then "Expired"
  else
    let hours := (diff / (1000 * 60 * 60))%Z in
    let minutes := ((diff mod (1000 * 60 * 60)) / (1000 * 60))%Z in
    if (0 <? hours)%Z
    then pretty hours +:+ "h " +:+ pretty minutes +:+ "m remaining"
    else pretty minutes +:+ "m remaining".

(** [isBookingExpired]: [new Date() > end]. *)
Definition isBookingExpired (now endTime : Z) : bool := (endTime <? now)%Z.
End Helpers.

(** *** More of [BookingDetailsScreen.tsx] *)

Module BookingDetails.
(** [getRemainingTime]; the screen state [booking] may be [null]. *)
Definition getRemainingTime (now : Z) (booking : option Booking.t) : option string :=
  match booking with
  | None => None
  | Some booking =>
      if negb (bool_decide (Booking.status booking = BookingStatus.active)) then None
      else
        let remaining := (Booking.endTime booking - now)%Z in
        if (remaining <=? 0)%Z then Some "Expired"
        else
          let hours := (remaining / (1000 * 60 * 60))%Z in
          let minutes := ((remaining mod (1000 * 60 * 60)) / (1000 * 60))%Z in
          Some (pretty hours +:+ "h " +:+ pretty minutes +:+ "m remaining")
  end.
End BookingDetails.

(** *** More of the bookings list screen *)

Module BookingsList.
(** The screen's own [type BookingStatus], the keys of its filter bar. *)
Inductive StatusFilter := all | active | confirmed | completed | cancelled.

(** [booking.status === key] for a key other than ['all']. *)
Definition has_status (key : StatusFilter) (b : Booking.t) : bool :=
  match key, Booking.status b with
  | active, BookingStatus.active => true
  | confirmed, BookingStatus.confirmed => true
  | completed, BookingStatus.completed => true
  | cancelled, BookingStatus.cancelled => true
  | _, _ => false
  end.

Definition getFilteredBookings (selectedStatus : StatusFilter) (bookings : list Booking.t)
    : list Booking.t :=
  match selectedStatus with
  | all => bookings
  | _ => List.filter (has_status selectedStatus) bookings
  end.

(** The [count] of an entry of [statusOptions] in [renderStatusFilter]. *)
Definition count (key : StatusFilter) (bookings : list Booking.t) : nat :=
  match key with
  | all => length bookings
  | _ => length (List.filter (has_status key) bookings)
  end.
End BookingsList.

(** *** [src/screens/HomeScreen.tsx] and [src/screens/ProfileScreen.tsx]: booking summaries *)

Module HomeScreen.
Definition getActiveBookings (bookings : list Booking.t) : list Booking.t :=
  List.filter
    (fun booking =>
       bool_decide (Booking.status booking = BookingStatus.active)
       || bool_decide (Booking.status booking = BookingStatus.confirmed))
    bookings.

(** [getUpcomingBookings]; [slice(0, 3)] keeps the first three. *)
Definition getUpcomingBookings (now : Z) (bookings : list Booking.t) : list Booking.t :=
  take 3
    (List.filter
       (fun booking =>
          bool_decide (Booking.status booking = BookingStatus.confirmed)
          && (now <? Booking.startTime booking)%Z)
       bookings).
End HomeScreen.

Module ProfileScreen.
Record BookingStats := mkStats {
  totalBookings : nat;
  activeBookings : nat;
  completedBookings : nat;
  cancelledBookings : nat
}.

(** [getBookingStats], for a bookings list that is present. *)
Definition getBookingStats (bookings : list Booking.t) : BookingStats :=
  {| totalBookings := length bookings;
     activeBookings :=
       length (List.filter (fun b => bool_decide (Booking.status b = BookingStatus.active)) bookings);
     completedBookings :=
       length (List.filter (fun b => bool_decide (Booking.status b = BookingStatus.completed)) bookings);
     cancelledBookings :=
       length (List.filter (fun b => bool_decide (Booking.status b = BookingStatus.cancelled)) bookings) |}.
End ProfileScreen.

(** *** [src/navigation/AppNavigator.tsx] *)

Module AppNavigator.
Inductive Route := Login | Register | MainTabs | BookingDetails | BusinessDetails.

(** The screens of the stack: chosen by [user], not by [isAuthenticated]. *)
Definition routes (auth : AuthSlice.AuthState) : list Route :=
  match AuthSlice.user auth with
  | Some _ => [MainTabs; BookingDetails; BusinessDetails]
  | None => [Login; Register]
  end.
End AppNavigator.

(** *** [src/screens/BusinessDetailsScreen.tsx]: checking a time window *)

Module BusinessDetails.
(** What [checkAvailability] does: nothing (no business selected), an
    alert, or a new list of available lockers (with the selected
    locker reset to [null]). *)
Inductive Outcome :=
| nothing
| alert (title message : string)
| lockers (available : list nat).

(** [Array.from({ length: n }, (_, i) => i + 1)] for a number [n]: the
    length is [n] rounded down, and 0 for a negative [n]. *)
Definition lockerNumbers (n : Q) : list nat :=
  (fun i => i + 1)%nat <$> seq 0 (Z.to_nat (Qfloor n)).

(** [checkAvailability].  [bookingStartTime] and [bookingEndTime] are the
    time values of the two dates combined from the pickers, [now] that
    of [new Date()]; [random i] is the result of the [i]-th call of
    [Math.random()]: call number 0 feeds a variable that is not used,
    and the filter then draws once per locker, in order, so that call
    number [n] decides locker [n]. *)
Definition checkAvailability
    (selectedBusiness : option Business.t)
    (now bookingStartTime bookingEndTime : Z) (random : nat -> Q) : Outcome :=
  match selectedBusiness with
  | None => nothing
  | Some selectedBusiness =>
      if (bookingEndTime <=? bookingStartTime)%Z
      then alert "Invalid Time" "End time must be after start time"
      else
        let duration :=
          (inject_Z (bookingEndTime - bookingStartTime) / inject_Z (1000 * 60 * 60))%Q in
        if Qlt_le_dec 10 duration
        then alert "Duration Limit" "Maximum rental duration is 10 hours"
        else if (bookingStartTime <? now)%Z
        then alert "Invalid Time" "Start time cannot be in the past"
        else
          let totalLockers :=
            if Qeq_bool (Business.totalLockers selectedBusiness) 0
            then 20%Q else Business.totalLockers selectedBusiness in
          let available :=
            List.filter (fun n => negb (Qle_bool (random n) 0.2))
              (lockerNumbers totalLockers) in
          lockers available
  end.
End BusinessDetails.

(** *** Vocabulary of the session properties *)

Module Session.
(** An authenticated state holds a token, and a state with a token holds a user. *)
Definition consistent (s : AuthSlice.AuthState) : Prop :=
  (AuthSlice.isAuthenticated s = true -> is_Some (AuthSlice.token s)) /\
  (is_Some (AuthSlice.token s) -> is_Some (AuthSlice.user s)).
End Session.

(** *** The thunks of the auth slice (first half of [store/authSlice.ts]) *)

(** [value || fallback] on an optional string: a missing and an empty
    [value] both give the fallback. *)
Definition or_default (value : option string) (fallback : string) : string :=
  match value with
  | Some v => if bool_decide (v = EmptyString) then fallback else v
  | None => fallback
  end.

(** The truth value of a string. *)
Definition truthy (s : string) : bool := negb (bool_decide (s = EmptyString)).

Module AuthThunks.
Section Codec.
(** The JSON the thunks rely on: the body of a response read as the
    type its endpoint is declared to return, the [message] field of an
    error body if it has one, [JSON.stringify] on a user and
    [JSON.parse] on stored text ([None] when it throws). *)
Variable decodeAuthResponse : string -> AuthResponse.
Variable decodeUser : string -> User.t.
Variable decodeMessage : string -> option string.
Variable stringify : User.t -> string.
Variable parse : string -> option User.t.

(** [error.response?.data?.message || fallback] *)
Definition rejectValue (error : ApiService.AxiosError) (fallback : string) : string :=
  or_default
    (match ApiService.response error with
     | Some r => decodeMessage (ApiService.data r)
     | None => None
     end)
    fallback.

(** [loginUser]: the store afterwards and the action the thunk ends in. *)
Definition loginUser (reply : ApiService.Reply) (store : AsyncStorage.t)
    : AsyncStorage.t * AuthSlice.Action :=
  match ApiService.call ApiService.login reply store with
  | (store, inr response) =>
      let response := decodeAuthResponse (ApiService.data response) in
      let store := AsyncStorage.setItem "auth_token" (auth_token response) store in
      let store := AsyncStorage.setItem "user_data" (stringify (auth_user response)) store in
      (store, AuthSlice.loginUser_fulfilled response)
  | (store, inl error) =>
      (store, AuthSlice.rejected AuthSlice.loginUser (rejectValue error "Login failed"))
  end.

Definition registerUser (reply : ApiService.Reply) (store : AsyncStorage.t)
    : AsyncStorage.t * AuthSlice.Action :=
  match ApiService.call ApiService.register reply store with
  | (store, inr response) =>
      let response := decodeAuthResponse (ApiService.data response) in
      let store := AsyncStorage.setItem "auth_token" (auth_token response) store in
      let store := AsyncStorage.setItem "user_data" (stringify (auth_user response)) store in
      (store, AuthSlice.registerUser_fulfilled response)
  | (store, inl error) =>
      (store, AuthSlice.rejected AuthSlice.registerUser
                (rejectValue error "Registration failed"))
  end.

(** [updateProfile]; [auth] is [getState().auth].  Without a user no
    request is made. *)
Definition updateProfile
    (auth : AuthSlice.AuthState) (reply : ApiService.Reply) (store : AsyncStorage.t)
    : AsyncStorage.t * AuthSlice.Action :=
  match AuthSlice.user auth with
  | None => (store, AuthSlice.rejected AuthSlice.updateProfile "User not authenticated")
  | Some _ =>
      match ApiService.call ApiService.updateUserProfile reply store with
      | (store, inr response) =>
          let response := decodeUser (ApiService.data response) in
          let store := AsyncStorage.setItem "user_data" (stringify response) store in
          (store, AuthSlice.updateProfile_fulfilled response)
      | (store, inl error) =>
          (store, AuthSlice.rejected AuthSlice.updateProfile
                    (rejectValue error "Profile update failed"))
      end
  end.

(** [loadStoredAuth]: reads the store, never writes it. *)
Definition loadStoredAuth (store : AsyncStorage.t) : AuthSlice.Action :=
  let token := AsyncStorage.getItem "auth_token" store in
  let userData := AsyncStorage.getItem "user_data" store in
  match token, userData with
  | Some token, Some userData =>
      if truthy token && truthy userData then
        match parse userData with
        | Some user => AuthSlice.loadStoredAuth_fulfilled (mkAuthResponse user token)
        | None => AuthSlice.rejected AuthSlice.loadStoredAuth "Failed to load stored auth data"
        end
      else AuthSlice.rejected AuthSlice.loadStoredAuth "No stored auth data"
  | _, _ => AuthSlice.rejected AuthSlice.loadStoredAuth "No stored auth data"
  end.

Definition logoutUser (store : AsyncStorage.t) : AsyncStorage.t * AuthSlice.Action :=
  let store := AsyncStorage.removeItem "auth_token" store in
  let store := AsyncStorage.removeItem "user_data" store in
  (store, AuthSlice.logoutUser_fulfilled).
End Codec.
End AuthThunks.

(** *** Error texts of the booking and business thunks *)

Module BookingThunks.
(** The fallback of each thunk's [rejectWithValue]. *)
Definition fallback (t : BookingSlice.Thunk) : string :=
  match t with
  | BookingSlice.createBooking => "Failed to create booking"
  | BookingSlice.fetchUserBookings => "Failed to fetch bookings"
  | BookingSlice.fetchActiveBookings => "Failed to fetch active bookings"
  | BookingSlice.updateBookingStatus => "Failed to update booking"
  | BookingSlice.cancelBooking => "Failed to cancel booking"
  | BookingSlice.checkInToLocker => "Failed to check in"
  | BookingSlice.checkOutFromLocker => "Failed to check out"
  end.

(** The rejected action a thunk ends in when its request fails. *)
Definition rejection (decodeMessage : string -> option string)
    (t : BookingSlice.Thunk) (error : ApiService.AxiosError) : BookingSlice.Action :=
  BookingSlice.rejected t (AuthThunks.rejectValue decodeMessage error (fallback t)).
End BookingThunks.

Module BusinessThunks.
(** The [catch] block of [fetchNearbyBusinesses]. *)
Definition nearbyErrorMessage (decodeMessage : string -> option string)
    (error : ApiService.AxiosError) : string :=
  match ApiService.response error with
  | None => "Network connection failed. Check if backend is running."
  | Some r =>
      if bool_decide (ApiService.status r = 500%Z)
      then "Server error occurred. Check backend logs."
      else
        match decodeMessage (ApiService.data r) with
        | Some m => if truthy m then m else "Failed to fetch nearby businesses"
        | None => "Failed to fetch nearby businesses"
        end
  end.

(** [haystack.includes(needle)] *)
Fixpoint includes (needle haystack : string) : bool :=
  String.prefix needle haystack
  || match haystack with
     | EmptyString => false
     | String _ rest => includes needle rest
     end.

(** The [catch] block of [searchBusinesses]; [code] is [error.code]. *)
Definition searchErrorMessage (decodeMessage : string -> option string)
    (code : option string) (error : ApiService.AxiosError) : string :=
  if bool_decide (code = Some "NETWORK_ERROR")
     || includes "Network Error" (ApiService.message error)
  then "Network connection failed. Check if backend is running."
  else
    match ApiService.response error with
    | Some r =>
        if bool_decide (ApiService.status r = 500%Z)
        then "Server error occurred. Check backend logs."
        else
          match decodeMessage (ApiService.data r) with
          | Some m => if truthy m then m else "Search failed"
          | None => "Search failed"
          end
    | None => "Search failed"
    end.
End BusinessThunks.

(** *** Vocabulary of the booking-state invariants *)

Module Merged.
(** Every booking of the list has the status 'active'. *)
Definition only_active (l : list Booking.t) : Prop :=
  Forall (fun b => Booking.status b = BookingStatus.active) l.

(** The list with its first booking of the id of [p] replaced by [p]. *)
Definition replaced (p : Booking.t) (l : list Booking.t) : list Booking.t :=
  match findIndex (BookingSlice.same_id p) l with
  | Some index => assign index p l
  | None => l
  end.

(** The list without its first booking of the id of [p]. *)
Definition removed (p : Booking.t) (l : list Booking.t) : list Booking.t :=
  match findIndex (BookingSlice.same_id p) l with
  | Some index => splice1 index l
  | None => l
  end.

(** The active list after a status update answered with [p]. *)
Definition updated (p : Booking.t) (l : list Booking.t) : list Booking.t :=
  match BookingSlice.is_active p, findIndex (BookingSlice.same_id p) l with
  | true, None => push p l
  | false, Some index => splice1 index l
  | true, Some index => assign index p l
  | false, None => l
  end.

(** The selected booking, refreshed when it has the id of [p]. *)
Definition reselected (p : Booking.t) (selected : option Booking.t) : option Booking.t :=
  match selected with
  | Some b => if BookingSlice.same_id p b then Some p else Some b
  | None => None
  end.
End Merged.

(** *** [src/utils/debugHelper.ts] *)

Module DebugHelper.
(** [DEBUG_COORDINATES], an object used as a table from ZIP code to
    coordinates. *)
Definition DEBUG_COORDINATES : list (string * LatLng.t) :=
  [ ("30068", LatLng.mk 33.9427 (-84.4407));
    ("30308", LatLng.mk 33.7729 (-84.3627));
    ("30307", LatLng.mk 33.7632 (-84.3330));
    ("30339", LatLng.mk 33.8781 (-84.4680));
    ("73000", LatLng.mk 35.2226 (-97.4395)) ].

(** [DEBUG_COORDINATES[zipCode] || null], for the keys the search
    screen passes: strings of five digits, which name no inherited
    property of the object. *)
Definition getDebugCoordinates (zipCode : string) : option LatLng.t :=
  snd <$> List.find (fun entry => String.eqb (fst entry) zipCode) DEBUG_COORDINATES.
End DebugHelper.

(** *** The handlers of [SearchScreen.tsx] *)

Module SearchHandlers.
(** [config.APP_CONFIG.SEARCH_RADIUS_KM], the same in both configurations. *)
Definition SEARCH_RADIUS_KM : float := 40.

(** The screen state [searchType]. *)
Inductive SearchType := location | search.

(** Text is a sequence of code units below 256.  Of these
    [String.prototype.trim] removes the white space 9, 11, 12, 32, 160
    and the line terminators 10 and 13. *)
Definition isWhiteSpace (c : Ascii.ascii) : bool :=
  let n := Ascii.nat_of_ascii c in
  ((9 <=? n) && (n <=? 13) || (n =? 32) || (n =? 160))%nat.

Fixpoint trimStart (s : string) : string :=
  match s with
  | EmptyString => EmptyString
  | String c rest => if isWhiteSpace c then trimStart rest else s
  end.

Fixpoint trimEnd (s : string) : string :=
  match s with
  | EmptyString => EmptyString
  | String c rest =>
      match trimEnd rest with
      | EmptyString => if isWhiteSpace c then EmptyString else String c EmptyString
      | kept => String c kept
      end
  end.

Definition trim (s : string) : string := trimEnd (trimStart s).

(** A text that [trim] empties. *)
Fixpoint blank (s : string) : bool :=
  match s with
  | EmptyString => true
  | String c rest => isWhiteSpace c && blank rest
  end.

(** The class [\d] of a regular expression without the [u] flag. *)
Definition isDigit (c : Ascii.ascii) : bool :=
  let n := Ascii.nat_of_ascii c in ((48 <=? n) && (n <=? 57))%nat.

Fixpoint all_digits (s : string) : bool :=
  match s with
  | EmptyString => true
  | String c rest => isDigit c && all_digits rest
  end.

(** [/^\d{5}$/.test(s)] *)
Definition zipRegex_test (s : string) : bool :=
  (String.length s =? 5)%nat && all_digits s.

(** What a handler does, in program order: [Alert.alert], a plain
    action given to [dispatch], one of the two thunks given to
    [dispatch], and the setters of the screen state. *)
Inductive Command :=
| alert (title : string) (message : option string)
| dispatch (action : BusinessSlice.Action)
| dispatch_fetchNearbyBusinesses (latitude longitude radius : float)
| dispatch_searchBusinesses (params : BusinessSlice.SearchBusinessesRequest)
| setSearchQuery (value : string)
| setSearchType (value : SearchType)
| setLocation (value : Location.t)
| setIsLoadingLocation (value : bool)
| setShowMap (value : bool).

(** The request objects [{ zipCode }] and [{ name }]. *)
Definition by_zipCode (zipCode : string) : BusinessSlice.SearchBusinessesRequest :=
  BusinessSlice.mkRequest None None None (Some zipCode) None None None None.
Definition by_name (name : string) : BusinessSlice.SearchBusinessesRequest :=
  BusinessSlice.mkRequest None None None None None (Some name) None None.

(** [handleSearch].  Nothing inside its [try] throws, a dispatched
    thunk reports failure through the store, so the [catch] is not
    reached. *)
Definition handleSearch (searchQuery : string) (searchType : SearchType)
    (isZipCodeSearch : bool) : list Command :=
  if negb (truthy (trim searchQuery)) then
    [alert "Please enter a search term" None]
  else
    [dispatch BusinessSlice.clearBusinesses; dispatch BusinessSlice.clearError]
    ++ match searchType with
       | search =>
           let trimmedQuery := trim searchQuery in
           if isZipCodeSearch && zipRegex_test trimmedQuery then
             match DebugHelper.getDebugCoordinates trimmedQuery with
             | Some debugCoords =>
                 [dispatch_fetchNearbyBusinesses
                    (LatLng.latitude debugCoords) (LatLng.longitude debugCoords)
                    SEARCH_RADIUS_KM]
             | None => [dispatch_searchBusinesses (by_zipCode trimmedQuery)]
             end
           else if isZipCodeSearch && negb (zipRegex_test trimmedQuery) then
             [alert "Invalid ZIP Code" (Some "Please enter a valid 5-digit ZIP code")]
           else [dispatch_searchBusinesses (by_name trimmedQuery)]
       | location => []
       end.

(** [clearSearch] *)
Definition clearSearch : list Command :=
  [setSearchQuery EmptyString; dispatch BusinessSlice.clearBusinesses;
   dispatch BusinessSlice.clearError; setShowMap false].

(** [handleFindNearby]; [userLocation] is how the promise of
    [LocationService.getCurrentLocation()] ended. *)
Definition handleFindNearby (userLocation : LocationError.t + Location.t) : list Command :=
  [setIsLoadingLocation true]
  ++ match userLocation with
     | inr userLocation =>
         [setLocation userLocation;
          dispatch_fetchNearbyBusinesses
            (Location.latitude userLocation) (Location.longitude userLocation)
            SEARCH_RADIUS_KM]
     | inl _ =>
         [alert "Location Error" (Some "Unable to get your location for nearby search")]
     end
  ++ [setIsLoadingLocation false].

(** The [onPress] of the two tabs of [renderSearchHeader]. *)
Definition pressNearMe : list Command :=
  [setSearchType location; setSearchQuery EmptyString; dispatch BusinessSlice.clearError].
Definition pressSearch : list Command :=
  [setSearchType search; dispatch BusinessSlice.clearBusinesses;
   dispatch BusinessSlice.clearError].

(** The [onPress] of the button Try Again of the error panel. *)
Definition pressTryAgain (searchQuery : string) (searchType : SearchType)
    (isZipCodeSearch : bool) (userLocation : LocationError.t + Location.t) : list Command :=
  dispatch BusinessSlice.clearError
  :: match searchType with
     | search =>
         if truthy (trim searchQuery)
         then handleSearch searchQuery searchType isZipCodeSearch
         else []
     | location => handleFindNearby userLocation
     end.

(** What a command does to the business slice of the store.  A thunk
    made by [createAsyncThunk] dispatches its [pending] action when it
    is dispatched; its [fulfilled] or [rejected] action follows when its
    body has finished. *)
Definition store_step (state : BusinessSlice.BusinessState) (c : Command)
    : BusinessSlice.BusinessState :=
  match c with
  | dispatch action => BusinessSlice.reducer state action
  | dispatch_fetchNearbyBusinesses _ _ _ =>
      BusinessSlice.reducer state (BusinessSlice.pending BusinessSlice.fetchNearbyBusinesses)
  | dispatch_searchBusinesses _ =>
      BusinessSlice.reducer state (BusinessSlice.pending BusinessSlice.searchBusinesses)
  | _ => state
  end.

Definition run (state : BusinessSlice.BusinessState) (cs : list Command)
    : BusinessSlice.BusinessState :=
  fold_left store_step cs state.

(** The requests a handler sends. *)
Definition is_request (c : Command) : bool :=
  match c with
  | dispatch_fetchNearbyBusinesses _ _ _ | dispatch_searchBusinesses _ => true
  | _ => false
  end.

Definition is_alert (c : Command) : bool :=
  match c with
  | alert _ _ => true
  | _ => false
  end.

(** The action with which the request started by a command ends when
    the server answers with [businesses]. *)
Definition fulfilled (c : Command) (businesses : list Business.t)
    : option BusinessSlice.Action :=
  match c with
  | dispatch_fetchNearbyBusinesses _ _ _ =>
      Some (BusinessSlice.fetchNearbyBusinesses_fulfilled businesses)
  | dispatch_searchBusinesses params =>
      Some (BusinessSlice.searchBusinesses_fulfilled businesses params)
  | _ => None
  end.

(** The actions with which a thunk of the business slice ends. *)
Definition is_answer (action : BusinessSlice.Action) : bool :=
  match action with
  | BusinessSlice.rejected _ _
  | BusinessSlice.searchBusinesses_fulfilled _ _
  | BusinessSlice.fetchNearbyBusinesses_fulfilled _
  | BusinessSlice.fetchBusinessById_fulfilled _ => true
  | _ => false
  end.

(** The list the screen shows for a state of the store. *)
Definition displayed (state : BusinessSlice.BusinessState) : list Business.t :=
  SearchScreen.displayBusinesses
    (BusinessSlice.businesses state) (BusinessSlice.nearbyBusinesses state).

(** [renderContent]: the four things the body of the screen can be. *)
Inductive Content :=
| loading_panel
| error_panel (errorText : string)
| empty_panel (emptyText : string)
| results_panel (withMap : bool) (resultsHeader : string) (cards : list Business.t).

Definition renderContent (state : BusinessSlice.BusinessState)
    (searchType : SearchType) (showMap : bool) : Content :=
  let count := length (displayed state) in
  let found :=
    if (count =? 0)%nat then
      empty_panel
        match searchType with
        | location =>
            "No lockers found in your area. Try expanding your search radius or search by ZIP code."
        | search => "No lockers found for this ZIP code. Try a different area."
        end
    else
      results_panel showMap
        (pretty count +:+ " location"
           +:+ (if negb (count =? 1)%nat then "s" else EmptyString) +:+ " found")
        (displayed state) in
  if BusinessSlice.isLoading state then loading_panel
  else
    match BusinessSlice.error state with
    | Some error => if truthy error then error_panel error else found
    | None => found
    end.
End SearchHandlers.

(** ** Part II: properties *)

(** *** Doubles: comparison and the operations that cannot give NaN *)

Section NumberFacts.
Local Open Scope float_scope.
Import JSNumber.

Lemma is_nan_Prim2SF (x : float) : is_nan x = true <-> Prim2SF x = S754_nan.
Proof.
  unfold Prim2SF. destruct (is_nan x); [split; reflexivity |].
  split; [discriminate |].
  destruct (is_zero x); [discriminate |].
  destruct (is_infinity x); [discriminate |].
  destruct (Z.frexp x) as [r e].
  destruct (shr_fexp _ _ _ _ _) as [s e'].
  destruct (shr_m s); discriminate.
Qed.

Lemma not_nan_Prim2SF (x : float) : Prim2SF x <> S754_nan -> is_nan x = false.
Proof.
  intros H. destruct (is_nan x) eqn:E; [| reflexivity].
  apply is_nan_Prim2SF in E. contradiction.
Qed.

Lemma is_finite_Prim2SF (x : float) : is_finite x = true -> SFfinite (Prim2SF x).
Proof.
  unfold is_finite, Prim2SF. destruct (is_nan x); [discriminate |].
  cbn [orb negb]. destruct (is_infinity x); [discriminate |]. intros _.
  destruct (is_zero x); [exact I |].
  destruct (Z.frexp x) as [r e].
  destruct (shr_fexp _ _ _ _ _) as [s e'].
  destruct (shr_m s); exact I.
Qed.

Lemma is_zero_Prim2SF (x : float) :
  is_nan x = false -> is_zero x = true -> exists s, Prim2SF x = S754_zero s.
Proof.
  intros Hn Hz. unfold Prim2SF. rewrite Hn, Hz. eexists. reflexivity.
Qed.

(** Shifting a mantissa to the right keeps it non-negative, so that
    rounding never reaches the NaN of its last case. *)
Lemma shr_1_nonneg (mrs : shr_record) : (0 <= shr_m mrs)%Z -> (0 <= shr_m (shr_1 mrs))%Z.
Proof.
  destruct mrs as [m r s]. cbn [shr_m]. intros H.
  destruct m as [| [p | p |] | p]; cbn; lia.
Qed.

Lemma iter_shr_1_nonneg (p : positive) (mrs : shr_record) :
  (0 <= shr_m mrs)%Z -> (0 <= shr_m (SpecFloat.iter_pos shr_1 p mrs))%Z.
Proof.
  revert mrs. induction p as [p IH | p IH |]; intros mrs H; cbn [SpecFloat.iter_pos].
  - apply IH, IH, shr_1_nonneg, H.
  - apply IH, IH, H.
  - apply shr_1_nonneg, H.
Qed.

Lemma shr_fexp_nonneg (m e : Z) (l : location) :
  (0 <= m)%Z -> (0 <= shr_m (fst (shr_fexp prec emax m e l)))%Z.
Proof.
  intros H. unfold shr_fexp, shr.
  assert (H0 : (0 <= shr_m (shr_record_of_loc m l))%Z).
  { destruct l as [| []]; exact H. }
  destruct (_ - e)%Z; cbn [fst]; [exact H0 | apply iter_shr_1_nonneg, H0 | exact H0].
Qed.

Lemma round_nearest_even_nonneg (m : Z) (l : location) :
  (0 <= m)%Z -> (0 <= round_nearest_even m l)%Z.
Proof.
  intros H. destruct l as [| []]; cbn; [lia | | lia | lia].
  destruct (Z.even m); lia.
Qed.

Lemma binary_round_aux_not_nan (s : bool) (m e : Z) (l : location) :
  (0 <= m)%Z -> binary_round_aux prec emax s m e l <> S754_nan.
Proof.
  intros H. unfold binary_round_aux.
  pose proof (shr_fexp_nonneg m e l H) as H1.
  destruct (shr_fexp prec emax m e l) as [mrs' e']. cbn [fst] in H1.
  pose proof (shr_fexp_nonneg _ e' loc_Exact
                (round_nearest_even_nonneg _ (loc_of_shr_record mrs') H1)) as H2.
  destruct (shr_fexp prec emax _ e' loc_Exact) as [mrs'' e'']. cbn [fst] in H2.
  destruct (shr_m mrs''); [discriminate | | lia].
  destruct (_ <=? _)%Z; discriminate.
Qed.

Lemma binary_normalize_not_nan (m e : Z) (szero : bool) :
  binary_normalize prec emax m e szero <> S754_nan.
Proof.
  destruct m; cbn [binary_normalize]; [discriminate | |];
    unfold binary_round; destruct (shl_align _ _ _);
    apply binary_round_aux_not_nan; lia.
Qed.

(** The difference of two finite doubles is a double or an infinity. *)
Lemma SFsub_finite_not_nan (x y : spec_float) :
  SFfinite x -> SFfinite y -> SF64sub x y <> S754_nan.
Proof.
  destruct x as [sx | | | sx mx ex], y as [sy | | | sy my ey]; cbn; try contradiction;
    intros _ _; try discriminate.
  - destruct sx, sy; discriminate.
  - apply binary_normalize_not_nan.
Qed.

Lemma SFmul_finite_not_nan (x y : spec_float) :
  x <> S754_nan -> (exists s m e, y = S754_finite s m e) -> SF64mul x y <> S754_nan.
Proof.
  intros Hx (sy & my & ey & ->).
  destruct x as [sx | sx | | sx mx ex]; cbn; try discriminate; [congruence |].
  apply binary_round_aux_not_nan. lia.
Qed.

Lemma SFabs_not_nan (x : spec_float) : x <> S754_nan -> SFabs x <> S754_nan.
Proof. destruct x; cbn; congruence. Qed.

(** The order of doubles is total away from NaN. *)
Lemma SFleb_of_not_ltb (x y : spec_float) :
  x <> S754_nan -> y <> S754_nan -> SFltb x y = false -> SFleb y x = true.
Proof.
  unfold SFltb, SFleb.
  destruct x as [sx | sx | | sx mx ex], y as [sy | sy | | sy my ey];
    try congruence; intros _ _; cbn;
    try (destruct sx; try destruct sy; cbn; congruence);
    try (destruct sy; cbn; congruence).
  change (Pos.compare_cont Eq mx my) with (Pos.compare mx my).
  change (Pos.compare_cont Eq my mx) with (Pos.compare my mx).
  rewrite (Z.compare_antisym ex ey), (Pos.compare_antisym mx my).
  destruct sx, sy; cbn; try congruence;
    destruct (ex ?= ey)%Z; cbn; try congruence;
    destruct (mx ?= my)%positive; cbn; congruence.
Qed.

Lemma SFleb_of_ltb (x y : spec_float) : SFltb x y = true -> SFleb x y = true.
Proof. unfold SFltb, SFleb. destruct (SFcompare x y) as [[] |]; congruence. Qed.

Lemma SFleb_refl (x : spec_float) : x <> S754_nan -> SFleb x x = true.
Proof.
  unfold SFleb. destruct x as [s | s | | s m e]; try congruence; intros _; cbn.
  - reflexivity.
  - destruct s; reflexivity.
  - destruct s; rewrite Z.compare_refl, Pos.compare_cont_refl; reflexivity.
Qed.

(** Equal finite doubles have the difference zero. *)
Lemma SFsub_of_eqb (x y : spec_float) :
  SFfinite x -> SFfinite y -> SFeqb x y = true -> exists s, SF64sub x y = S754_zero s.
Proof.
  unfold SFeqb.
  destruct x as [sx | | | sx mx ex], y as [sy | | | sy my ey]; cbn; try contradiction;
    intros _ _ H.
  - destruct sx, sy; eexists; reflexivity.
  - destruct sy; discriminate.
  - destruct sx; discriminate.
  - change (Pos.compare_cont Eq mx my) with (Pos.compare mx my) in H.
    assert (E : sx = sy /\ ex = ey /\ mx = my).
    { destruct sx, sy; try discriminate;
        destruct (ex ?= ey)%Z eqn:He; try discriminate;
        destruct (mx ?= my)%positive eqn:Hm; try discriminate;
        apply Z.compare_eq in He; apply Pos.compare_eq in Hm; auto. }
    destruct E as (-> & -> & ->).
    rewrite Z.sub_diag. eexists. reflexivity.
Qed.

Lemma leb_refl (x : float) : is_nan x = false -> (x <=? x) = true.
Proof.
  intros H. rewrite FloatAxioms.leb_spec. apply SFleb_refl.
  intros E. apply is_nan_Prim2SF in E. congruence.
Qed.

(** [Math.max] of two numbers that are not NaN is the larger of them. *)
Lemma Math_max_larger (x y : float) :
  is_nan x = false -> is_nan y = false ->
  (x <=? Math_max x y) = true /\ (y <=? Math_max x y) = true /\
  (Math_max x y = x \/ Math_max x y = y).
Proof.
  intros Hx Hy. unfold Math_max. rewrite Hx, Hy. cbn [orb].
  assert (Nx : Prim2SF x <> S754_nan).
  { intros E. apply is_nan_Prim2SF in E. congruence. }
  assert (Ny : Prim2SF y <> S754_nan).
  { intros E. apply is_nan_Prim2SF in E. congruence. }
  destruct (is_zero y && negb (get_sign y) && is_zero x && get_sign x) eqn:Hz.
  - apply andb_true_iff in Hz as [Hz _]. apply andb_true_iff in Hz as [Hz Hzx].
    apply andb_true_iff in Hz as [Hzy _].
    destruct (is_zero_Prim2SF x Hx Hzx) as [sx Ex].
    destruct (is_zero_Prim2SF y Hy Hzy) as [sy Ey].
    split; [| split; [apply leb_refl, Hy | right; reflexivity]].
    rewrite FloatAxioms.leb_spec, Ex, Ey. reflexivity.
  - destruct (x <? y) eqn:Hlt.
    + split; [| split; [apply leb_refl, Hy | right; reflexivity]].
      rewrite FloatAxioms.leb_spec. rewrite FloatAxioms.ltb_spec in Hlt. apply SFleb_of_ltb, Hlt.
    + split; [apply leb_refl, Hx | split; [| left; reflexivity]].
      rewrite FloatAxioms.leb_spec. rewrite FloatAxioms.ltb_spec in Hlt. apply SFleb_of_not_ltb; assumption.
Qed.
End NumberFacts.

(** *** Viewport framing *)

Section ViewportFacts.
Local Open Scope float_scope.
Import JSNumber BusinessMap Viewport.

(** The padded span of two finite coordinates is a number. *)
Lemma span_not_nan (x y : float) :
  is_finite x = true -> is_finite y = true -> is_nan (Math_abs (x - y) * 2.5) = false.
Proof.
  intros Hx Hy. apply not_nan_Prim2SF. unfold Math_abs.
  rewrite FloatAxioms.mul_spec, FloatAxioms.abs_spec, FloatAxioms.sub_spec.
  apply SFmul_finite_not_nan.
  - apply SFabs_not_nan, SFsub_finite_not_nan; apply is_finite_Prim2SF; assumption.
  - eexists _, _, _. vm_compute. reflexivity.
Qed.

(** The delta of one axis: never below the floor, never below the
    padded span, and one of the two. *)
Lemma delta_larger (x y : float) :
  is_finite x = true -> is_finite y = true ->
  let span := Math_abs (x - y) * 2.5 in
  (span <=? Math_max span 0.05) = true /\ (0.05 <=? Math_max span 0.05) = true /\
  (Math_max span 0.05 = span \/ Math_max span 0.05 = 0.05).
Proof.
  intros Hx Hy span. apply Math_max_larger; [apply span_not_nan; assumption | reflexivity].
Qed.

(** The delta of an axis on which the two coordinates are equal. *)
Lemma delta_coincident (x y : float) :
  is_finite x = true -> is_finite y = true -> (x =? y) = true ->
  Math_max (Math_abs (x - y) * 2.5) 0.05 = 0.05.
Proof.
  intros Hx Hy E. rewrite FloatAxioms.eqb_spec in E.
  destruct (SFsub_of_eqb _ _ (is_finite_Prim2SF x Hx) (is_finite_Prim2SF y Hy) E) as [s Hs].
  assert (H0 : Math_abs (x - y) = 0).
  { apply Prim2SF_inj. unfold Math_abs. rewrite FloatAxioms.abs_spec, FloatAxioms.sub_spec, Hs. reflexivity. }
  rewrite H0. reflexivity.
Qed.

(** The effect never reads its two boolean props. *)
Lemma regionEffect_flags u bs f1 f2 g1 g2 :
  regionEffect u bs f1 f2 = regionEffect u bs g1 g2.
Proof. reflexivity. Qed.

(** Rule 1 animates to the very region it sets; the other rules do
    not animate. *)
Lemma regionEffect_animates u b bs f1 f2 :
  animateToRegion (regionEffect (Some u) (b :: bs) f1 f2)
  = Some (setRegion (regionEffect (Some u) (b :: bs) f1 f2)).
Proof. reflexivity. Qed.

Lemma regionEffect_no_animation u bs f1 f2 :
  (u = None \/ bs = []) -> animateToRegion (regionEffect u bs f1 f2) = None.
Proof. intros [-> | ->]; [destruct bs | destruct u]; reflexivity. Qed.

(** The scenario of the specification: user at (33.9427, -84.4407),
    nearest business at (33.7729, -84.3627).  The doubles the code
    computes, and how close they are to the decimal values the
    specification gives. *)
Example region_scenario :
  let r := region (Some (LatLng.mk 33.9427 (-84.4407)))
                  [Sample.business "b1" (-84.3627) 33.7729] false false in
  r = Region.mk 33.8578 (-84.4017) 0.42450000000000543 0.19500000000000739 /\
  Region.latitudeDelta r <> 0.4245 /\ Region.longitudeDelta r <> 0.195 /\
  (Math_abs (Region.latitudeDelta r - 0.4245) <? 1e-12) = true /\
  (Math_abs (Region.longitudeDelta r - 0.195) <? 1e-12) = true.
Proof.
  cbn zeta. split; [reflexivity |].
  split; [| split; [| split; reflexivity]];
    intros H; apply Leibniz.eqb_spec in H; vm_compute in H; discriminate.
Qed.

(** C1.  With a user location [u] and a non-empty business list, the
    region the effect sets has, for [b] the first business of the
    list: centre the coordinate-wise midpoint of [u] and [b] (the
    latitude of [b] being [coordinates[1]] and its longitude
    [coordinates[0]]), [latitudeDelta = max (|u.lat - b.lat| * 2.5,
    0.05)] and [longitudeDelta = max (|u.lon - b.lon| * 2.5, 0.05)],
    every operation being the one of double arithmetic.  For finite
    coordinates each delta is the larger of the padded span and the
    floor. *)
Theorem C1_region_of_user_and_business
    (u : LatLng.t) (b : Business.t) (bs : list Business.t) (f1 f2 : bool) :
  let r := region (Some u) (b :: bs) f1 f2 in
  let bLat := snd (Business.coordinates (Business.location b)) in
  let bLng := fst (Business.coordinates (Business.location b)) in
  let latSpan := Math_abs (LatLng.latitude u - bLat) * 2.5 in
  let lngSpan := Math_abs (LatLng.longitude u - bLng) * 2.5 in
  (Region.latitude r = (LatLng.latitude u + bLat) / 2 /\
   Region.longitude r = (LatLng.longitude u + bLng) / 2 /\
   Region.latitudeDelta r = Math_max latSpan 0.05 /\
   Region.longitudeDelta r = Math_max lngSpan 0.05) /\
  (isFinite (LatLng.latitude u) = true -> isFinite bLat = true ->
   (latSpan <=? Region.latitudeDelta r) = true /\
   (0.05 <=? Region.latitudeDelta r) = true /\
   (Region.latitudeDelta r = latSpan \/ Region.latitudeDelta r = 0.05)) /\
  (isFinite (LatLng.longitude u) = true -> isFinite bLng = true ->
   (lngSpan <=? Region.longitudeDelta r) = true /\
   (0.05 <=? Region.longitudeDelta r) = true /\
   (Region.longitudeDelta r = lngSpan \/ Region.longitudeDelta r = 0.05)).
Proof.
  cbn zeta. cbn [region regionEffect setRegion calculateOptimalRegion
                 Region.latitude Region.longitude
                 Region.latitudeDelta Region.longitudeDelta].
  unfold Business.coordinates1, Business.coordinates0, isFinite.
  split; [repeat split |].
  split; intros Hu Hb; apply delta_larger; assumption.
Qed.

Lemma C1_region_of_user_and_business_witness :
  let r := region (Some (LatLng.mk 33.9427 (-84.4407)))
                  [Sample.business "b1" (-84.3627) 33.7729] false false in
  (0.05 <=? Region.latitudeDelta r) = true.
Proof.
  cbn zeta.
  refine (proj1 (proj2 (proj1 (proj2 (C1_region_of_user_and_business
            (LatLng.mk 33.9427 (-84.4407))
            (Sample.business "b1" (-84.3627) 33.7729) [] false false)) _ _)));
    reflexivity.
Defined.

(** C3, refuted as stated: for a user standing at a business located
    at (33.7490, -84.3880) the centre of the region is not strictly
    between the two points, and it is the default (Atlanta) centre. *)
Lemma C3_coincident_points_refute :
  let r := region (Some Sample.downtown_user) [Sample.downtown_business] false false in
  ~ strictly_between (user_point Sample.downtown_user)
                     (business_point Sample.downtown_business) (center r) /\
  same_point (center r) (center atlantaRegion).
Proof.
  cbn zeta. split.
  - intros (_ & Hne & _). apply Hne. split; reflexivity.
  - split; reflexivity.
Qed.

(** Distinct points do not help the last part: two points placed
    symmetrically around the default centre frame it exactly. *)
Example symmetric_points_frame_atlanta :
  let u := LatLng.mk 33.7000 (-84.4000) in
  let b := Sample.business "b1" (-84.3760) 33.7980 in
  ~ same_point (user_point u) (business_point b) /\
  same_point (center (region (Some u) [b] false false)) (center atlantaRegion).
Proof.
  cbn zeta. split.
  - intros [H _]. vm_compute in H. discriminate.
  - split; reflexivity.
Qed.

(** Nor do they help the middle part.  For two latitudes
    that are neighbours among the doubles the centre is one of the two
    points itself. *)
Example neighbouring_points_centre_on_a_point :
  let u := LatLng.mk 33.7490 (-84.3880) in
  let b := Sample.business "b1" (-84.3880) (next_up 33.7490) in
  ~ same_point (user_point u) (business_point b) /\
  same_point (center (region (Some u) [b] false false)) (business_point b) /\
  ~ strictly_between (user_point u) (business_point b)
      (center (region (Some u) [b] false false)).
Proof.
  cbn zeta. split; [| split].
  - intros [H _]. vm_compute in H. discriminate.
  - split; reflexivity.
  - intros (_ & _ & Hne). apply Hne. split; reflexivity.
Qed.

(** Nor does distance: in the scenario of the specification each
    coordinate of the centre is rounded on its own, and the centre is
    not on the segment between the two points. *)
Example scenario_centre_off_the_segment :
  let u := LatLng.mk 33.9427 (-84.4407) in
  let b := Sample.business "b1" (-84.3627) 33.7729 in
  ~ strictly_between (user_point u) (business_point b)
      (center (region (Some u) [b] false false)).
Proof.
  cbn zeta. intros ((t & p1 & p2 & q1 & q2 & c1 & c2 &
                     Hp1 & Hp2 & Hq1 & Hq2 & Hc1 & Hc2 & _ & _ & H1 & H2) & _).
  vm_compute in Hp1, Hp2, Hq1, Hq2, Hc1, Hc2.
  injection Hp1 as <-. injection Hp2 as <-. injection Hq1 as <-.
  injection Hq2 as <-. injection Hc1 as <-. injection Hc2 as <-.
  lra.
Qed.

(** C3, amended.  With a user location and a non-empty business list
    whose coordinates are finite, both deltas are at least 0.05, and
    equal to 0.05 on an axis where the two coordinates are equal. *)
Theorem C3_region_floor
    (u : LatLng.t) (b : Business.t) (bs : list Business.t) (f1 f2 : bool) :
  let r := region (Some u) (b :: bs) f1 f2 in
  isFinite (LatLng.latitude u) = true -> isFinite (LatLng.longitude u) = true ->
  isFinite (Business.coordinates1 b) = true -> isFinite (Business.coordinates0 b) = true ->
  (0.05 <=? Region.latitudeDelta r) = true /\
  (0.05 <=? Region.longitudeDelta r) = true /\
  ((LatLng.latitude u =? Business.coordinates1 b) = true -> Region.latitudeDelta r = 0.05) /\
  ((LatLng.longitude u =? Business.coordinates0 b) = true -> Region.longitudeDelta r = 0.05).
Proof.
  intros r Hu1 Hu2 Hb1 Hb2. subst r. unfold isFinite in *.
  cbn [region regionEffect setRegion calculateOptimalRegion
       Region.latitudeDelta Region.longitudeDelta].
  split; [apply delta_larger; assumption |].
  split; [apply delta_larger; assumption |].
  split; apply delta_coincident; assumption.
Qed.

Lemma C3_region_floor_witness :
  let r := region (Some Sample.downtown_user) [Sample.downtown_business] false false in
  Region.latitudeDelta r = 0.05 /\ Region.longitudeDelta r = 0.05.
Proof.
  cbn zeta.
  pose proof (C3_region_floor Sample.downtown_user Sample.downtown_business [] false false
                eq_refl eq_refl eq_refl eq_refl) as (_ & _ & H1 & H2).
  split; [apply H1 | apply H2]; reflexivity.
Defined.

(** C5.  The fallback rules.  A user location and no business: the
    centre is the user location itself, with deltas 0.0922 and
    0.0421.  No user location and a non-empty list: the centre is the
    first business ([coordinates[1]], [coordinates[0]]) with the same
    deltas.  Neither: the default region, centred on downtown Atlanta
    (33.7490, -84.3880) with the same deltas.  The deltas are 0.09 and
    0.04 to two decimal places. *)
Theorem C5_fallback_regions :
  (forall (u : LatLng.t) (f1 f2 : bool),
      region (Some u) [] f1 f2
      = Region.mk (LatLng.latitude u) (LatLng.longitude u) 0.0922 0.0421) /\
  (forall (b : Business.t) (bs : list Business.t) (f1 f2 : bool),
      region None (b :: bs) f1 f2
      = Region.mk (snd (Business.coordinates (Business.location b)))
                  (fst (Business.coordinates (Business.location b)))
                  0.0922 0.0421) /\
  (forall f1 f2 : bool, region None [] f1 f2 = atlantaRegion) /\
  atlantaRegion = Region.mk 33.7490 (-84.3880) 0.0922 0.0421 /\
  ((Math_abs (0.0922 - 0.09) <? 0.005) = true /\ (Math_abs (0.0421 - 0.04) <? 0.005) = true).
Proof.
  repeat split.
Qed.
End ViewportFacts.



(** *** Cancellation rules of the two booking screens *)

Section CancellationFacts.
Import BookingsScreen BookingDetailsScreen.

(** [d / 3600000 >= 1] on a millisecond difference [d]. *)
Lemma one_hour_threshold (d : Z) :
  Qle_bool 1 (inject_Z d / inject_Z (1000 * 60 * 60)) = true <-> (3600000 <= d)%Z.
Proof.
  rewrite Qle_bool_iff.
  change (1000 * 60 * 60)%Z with 3600000%Z.
  unfold Qle, Qdiv, Qmult, Qinv, inject_Z. cbn. lia.
Qed.

(** What the list screen computes: a booking can be cancelled exactly
    when it is neither completed nor cancelled and starts at least
    3600000 ms after [now]. *)
Lemma canCancelBooking_iff (now : Z) (b : Booking.t) :
  canCancelBooking now b = true <->
  Booking.status b <> BookingStatus.completed /\
  Booking.status b <> BookingStatus.cancelled /\
  (Booking.startTime b - now >= 3600000)%Z.
Proof.
  unfold canCancelBooking.
  destruct (bool_decide (Booking.status b = BookingStatus.completed)) eqn:E1;
  destruct (bool_decide (Booking.status b = BookingStatus.cancelled)) eqn:E2;
  cbn [orb].
  - apply bool_decide_eq_true in E1. split; [discriminate | tauto].
  - apply bool_decide_eq_true in E1. split; [discriminate | tauto].
  - apply bool_decide_eq_true in E2. split; [discriminate | tauto].
  - apply bool_decide_eq_false in E1. apply bool_decide_eq_false in E2.
    rewrite one_hour_threshold. split; [intros H | intros (_ & _ & H)].
    + repeat split; try assumption. lia.
    + lia.
Qed.

Lemma canCancelBooking_finished (now : Z) (b : Booking.t) :
  Booking.status b = BookingStatus.completed \/
  Booking.status b = BookingStatus.cancelled ->
  canCancelBooking now b = false.
Proof.
  intros H. destruct (canCancelBooking now b) eqn:E; [| reflexivity].
  apply canCancelBooking_iff in E. tauto.
Qed.

Lemma canCancelBooking_soon (now : Z) (b : Booking.t) :
  (Booking.startTime b - now < 3600000)%Z -> canCancelBooking now b = false.
Proof.
  intros H. destruct (canCancelBooking now b) eqn:E; [| reflexivity].
  apply canCancelBooking_iff in E. lia.
Qed.

(** The details screen looks at the status only. *)
Lemma canCancel_iff (b : Booking.t) :
  canCancel b = true <->
  Booking.status b = BookingStatus.confirmed \/
  Booking.status b = BookingStatus.active.
Proof.
  unfold canCancel. rewrite orb_true_iff, !bool_decide_eq_true. tauto.
Qed.

(** C2, the code at the inputs where it leaves the rule.  A confirmed
    booking that starts exactly one hour (3600000 ms) after [now] is
    not more than one hour away, yet the list screen lets it be
    cancelled; a confirmed booking that starts in thirty minutes is
    refused by the list screen and accepted by the details screen. *)
Theorem C2_cancel_rule_departures (now : Z) :
  canCancelBooking now (Sample.booking "b1" BookingStatus.confirmed (now + 3600000)) = true /\
  canCancelBooking now (Sample.booking "b1" BookingStatus.confirmed (now + 1800000)) = false /\
  canCancel (Sample.booking "b1" BookingStatus.confirmed (now + 1800000)) = true.
Proof.
  split; [| split].
  - apply canCancelBooking_iff. cbn. repeat split; try discriminate. lia.
  - apply canCancelBooking_soon. cbn. lia.
  - reflexivity.
Qed.

(** The same at a fixed clock, by evaluation. *)
Example cancel_rule_at_noon :
  let now := 1700000000000%Z in
  canCancelBooking now (Sample.booking "b1" BookingStatus.confirmed (now + 3600000)) = true /\
  canCancelBooking now (Sample.booking "b1" BookingStatus.confirmed (now + 3600001)) = true /\
  canCancelBooking now (Sample.booking "b1" BookingStatus.confirmed (now + 3599999)) = false /\
  canCancelBooking now (Sample.booking "b1" BookingStatus.completed (now + 7200000)) = false /\
  canCancelBooking now (Sample.booking "b1" BookingStatus.cancelled (now + 7200000)) = false /\
  canCancelBooking now (Sample.booking "b1" BookingStatus.pending (now + 7200000)) = true /\
  canCancel (Sample.booking "b1" BookingStatus.pending (now + 7200000)) = false.
Proof. vm_compute. repeat split. Qed.
End CancellationFacts.

(** *** The list shown on the search screen *)

Section SearchFacts.
Import SearchScreen.

Lemma length_pos_nonempty {A : Type} (l : list A) :
  (0 <? length l)%nat = true <-> l <> [].
Proof.
  destruct l; cbn; split; intros H; congruence.
Qed.

(** C10.  The displayed list is the search-result list whenever that
    list is non-empty; it is the nearby list when the search-result
    list is empty (so the nearby list is shown only then); and it is
    empty when both are. *)
Theorem C10_search_results_take_precedence
    (businesses nearbyBusinesses : list Business.t) :
  (businesses <> [] -> displayBusinesses businesses nearbyBusinesses = businesses) /\
  (businesses = [] -> displayBusinesses businesses nearbyBusinesses = nearbyBusinesses) /\
  (displayBusinesses businesses nearbyBusinesses <> businesses -> businesses = []) /\
  (businesses = [] -> nearbyBusinesses = [] ->
     displayBusinesses businesses nearbyBusinesses = []).
Proof.
  unfold displayBusinesses.
  destruct businesses as [| b bs]; cbn.
  - destruct nearbyBusinesses; cbn; repeat split; congruence.
  - repeat split; congruence.
Qed.

Lemma C10_search_results_take_precedence_witness :
  displayBusinesses [Sample.business "s" 0 0] [Sample.business "n" 1 1]
  = [Sample.business "s" 0 0] /\
  displayBusinesses [] [Sample.business "n" 1 1] = [Sample.business "n" 1 1].
Proof.
  split.
  - apply (C10_search_results_take_precedence
             [Sample.business "s" 0 0] [Sample.business "n" 1 1]).
    discriminate.
  - apply (C10_search_results_take_precedence [] [Sample.business "n" 1 1]).
    reflexivity.
Defined.
End SearchFacts.

(** *** Failure phases of the three slices *)

Section FailureFacts.

(** Every rejected action leaves the data of the auth slice alone. *)
Lemma auth_rejected_keeps_data (s : AuthSlice.AuthState) t payload :
  AuthSlice.user (AuthSlice.reducer s (AuthSlice.rejected t payload)) = AuthSlice.user s /\
  AuthSlice.token (AuthSlice.reducer s (AuthSlice.rejected t payload)) = AuthSlice.token s.
Proof. destruct t; split; reflexivity. Qed.

Lemma business_rejected (s : BusinessSlice.BusinessState) t payload :
  BusinessSlice.reducer s (BusinessSlice.rejected t payload)
  = BusinessSlice.mkState
      (BusinessSlice.businesses s) (BusinessSlice.selectedBusiness s)
      (BusinessSlice.nearbyBusinesses s) false (Some payload)
      (BusinessSlice.searchParams s).
Proof. destruct t; reflexivity. Qed.

Lemma booking_rejected_keeps_data (s : BookingSlice.BookingState) t payload :
  BookingSlice.bookings (BookingSlice.reducer s (BookingSlice.rejected t payload))
  = BookingSlice.bookings s /\
  BookingSlice.activeBookings (BookingSlice.reducer s (BookingSlice.rejected t payload))
  = BookingSlice.activeBookings s /\
  BookingSlice.selectedBooking (BookingSlice.reducer s (BookingSlice.rejected t payload))
  = BookingSlice.selectedBooking s.
Proof. destruct t; repeat split; reflexivity. Qed.

(** The booking operations without a [rejected] case. *)
Lemma booking_rejected_unhandled (s : BookingSlice.BookingState) t payload :
  t = BookingSlice.fetchActiveBookings \/ t = BookingSlice.updateBookingStatus \/
  t = BookingSlice.checkInToLocker \/ t = BookingSlice.checkOutFromLocker ->
  BookingSlice.reducer s (BookingSlice.rejected t payload) = s.
Proof. intros [-> | [-> | [-> | ->]]]; reflexivity. Qed.

Lemma booking_rejected_handled (s : BookingSlice.BookingState) t payload :
  t = BookingSlice.createBooking \/ t = BookingSlice.fetchUserBookings \/
  t = BookingSlice.cancelBooking ->
  BookingSlice.isLoading (BookingSlice.reducer s (BookingSlice.rejected t payload)) = false /\
  BookingSlice.error (BookingSlice.reducer s (BookingSlice.rejected t payload)) = Some payload.
Proof. intros [-> | [-> | ->]]; split; reflexivity. Qed.

Lemma auth_rejected_handled (s : AuthSlice.AuthState) t payload :
  t = AuthSlice.loginUser \/ t = AuthSlice.registerUser \/ t = AuthSlice.updateProfile ->
  AuthSlice.isLoading (AuthSlice.reducer s (AuthSlice.rejected t payload)) = false /\
  AuthSlice.error (AuthSlice.reducer s (AuthSlice.rejected t payload)) = Some payload.
Proof. intros [-> | [-> | ->]]; split; reflexivity. Qed.

(** C7, refuted as stated: a failed status update on the initial
    booking state stores no error (the slice has no [rejected] case for
    it), and while another operation is pending it leaves the loading
    flag set. *)
Lemma C7_unhandled_failure_refute :
  let s0 := BookingSlice.initialState in
  let s1 := BookingSlice.reducer s0 (BookingSlice.pending BookingSlice.createBooking) in
  let fail := BookingSlice.rejected BookingSlice.updateBookingStatus "Failed to update booking" in
  BookingSlice.error (BookingSlice.reducer s0 fail) <> Some "Failed to update booking" /\
  BookingSlice.isLoading (BookingSlice.reducer s1 fail) <> false.
Proof. split; discriminate. Qed.

(** A failed load of the stored session is handled, but records no
    error either. *)
Example load_stored_auth_failure_keeps_error :
  AuthSlice.error
    (AuthSlice.reducer AuthSlice.initialState
       (AuthSlice.rejected AuthSlice.loadStoredAuth "No stored auth data"))
  = None.
Proof. reflexivity. Qed.

(** C7, amended.  In all three slices a failure leaves the held data
    unchanged (user and token; the business list, the nearby list, the
    selected business and the search parameters; both booking lists
    and the selected booking).  It sets the loading flag to false and
    stores the error string for the operations whose [rejected] case
    does so: login, registration and profile update; the three
    business operations; booking creation, the fetch of the user's
    bookings and cancellation.  A failed load of the stored session
    clears the loading flag and leaves the error as it was; a failed
    logout, fetch of active bookings, status update, check-in or
    check-out leaves the whole state as it was. *)
Theorem C7_failure_phase :
  (forall (s : AuthSlice.AuthState) t payload,
      let s' := AuthSlice.reducer s (AuthSlice.rejected t payload) in
      AuthSlice.user s' = AuthSlice.user s /\
      AuthSlice.token s' = AuthSlice.token s /\
      (t = AuthSlice.loginUser \/ t = AuthSlice.registerUser \/
       t = AuthSlice.updateProfile ->
         AuthSlice.isLoading s' = false /\ AuthSlice.error s' = Some payload) /\
      (t = AuthSlice.loadStoredAuth ->
         AuthSlice.isLoading s' = false /\ AuthSlice.error s' = AuthSlice.error s) /\
      (t = AuthSlice.logoutUser -> s' = s)) /\
  (forall (s : BusinessSlice.BusinessState) t payload,
      let s' := BusinessSlice.reducer s (BusinessSlice.rejected t payload) in
      BusinessSlice.businesses s' = BusinessSlice.businesses s /\
      BusinessSlice.nearbyBusinesses s' = BusinessSlice.nearbyBusinesses s /\
      BusinessSlice.selectedBusiness s' = BusinessSlice.selectedBusiness s /\
      BusinessSlice.searchParams s' = BusinessSlice.searchParams s /\
      BusinessSlice.isLoading s' = false /\
      BusinessSlice.error s' = Some payload) /\
  (forall (s : BookingSlice.BookingState) t payload,
      let s' := BookingSlice.reducer s (BookingSlice.rejected t payload) in
      BookingSlice.bookings s' = BookingSlice.bookings s /\
      BookingSlice.activeBookings s' = BookingSlice.activeBookings s /\
      BookingSlice.selectedBooking s' = BookingSlice.selectedBooking s /\
      (t = BookingSlice.createBooking \/ t = BookingSlice.fetchUserBookings \/
       t = BookingSlice.cancelBooking ->
         BookingSlice.isLoading s' = false /\ BookingSlice.error s' = Some payload) /\
      (t = BookingSlice.fetchActiveBookings \/ t = BookingSlice.updateBookingStatus \/
       t = BookingSlice.checkInToLocker \/ t = BookingSlice.checkOutFromLocker ->
         s' = s)).
Proof.
  split; [| split].
  - intros s t payload s'. subst s'.
    destruct (auth_rejected_keeps_data s t payload) as [Hu Ht].
    split; [exact Hu |]. split; [exact Ht |].
    split; [apply auth_rejected_handled |].
    split; intros ->; [split |]; reflexivity.
  - intros s t payload s'. subst s'. rewrite business_rejected.
    repeat split.
  - intros s t payload s'. subst s'.
    destruct (booking_rejected_keeps_data s t payload) as (Hb & Ha & Hs).
    split; [exact Hb |]. split; [exact Ha |]. split; [exact Hs |].
    split; [apply booking_rejected_handled | apply booking_rejected_unhandled].
Qed.

Lemma C7_failure_phase_witness :
  let s := AuthSlice.reducer AuthSlice.initialState
             (AuthSlice.loginUser_fulfilled (mkAuthResponse Sample.user "tok")) in
  let s' := AuthSlice.reducer s (AuthSlice.rejected AuthSlice.updateProfile "Profile update failed") in
  AuthSlice.user s' = Some Sample.user /\
  AuthSlice.isLoading s' = false /\
  AuthSlice.error s' = Some "Profile update failed".
Proof.
  cbn zeta.
  pose proof (proj1 C7_failure_phase
                (AuthSlice.reducer AuthSlice.initialState
                   (AuthSlice.loginUser_fulfilled (mkAuthResponse Sample.user "tok")))
                AuthSlice.updateProfile "Profile update failed") as H.
  cbn zeta in H. destruct H as (Hu & _ & Hh & _).
  split; [rewrite Hu; reflexivity |].
  apply Hh. right. right. reflexivity.
Defined.

(** C9.  A rejected login and a rejected registration set [isLoading]
    and [isAuthenticated] to false and record the error string; the
    [user] and [token] fields keep their previous values. *)
Theorem C9_rejected_login_keeps_session (s : AuthSlice.AuthState) (payload : string) :
  (let s' := AuthSlice.reducer s (AuthSlice.rejected AuthSlice.loginUser payload) in
   AuthSlice.isLoading s' = false /\
   AuthSlice.isAuthenticated s' = false /\
   AuthSlice.error s' = Some payload /\
   AuthSlice.user s' = AuthSlice.user s /\
   AuthSlice.token s' = AuthSlice.token s) /\
  (let s' := AuthSlice.reducer s (AuthSlice.rejected AuthSlice.registerUser payload) in
   AuthSlice.isLoading s' = false /\
   AuthSlice.isAuthenticated s' = false /\
   AuthSlice.error s' = Some payload /\
   AuthSlice.user s' = AuthSlice.user s /\
   AuthSlice.token s' = AuthSlice.token s).
Proof. repeat split. Qed.

(** A session loaded from storage survives a failed login in the
    state, although the state no longer counts as authenticated. *)
Example failed_login_after_stored_session :
  let s := AuthSlice.reducer AuthSlice.initialState
             (AuthSlice.loadStoredAuth_fulfilled (mkAuthResponse Sample.user "tok")) in
  AuthSlice.reducer s (AuthSlice.rejected AuthSlice.loginUser "Login failed")
  = AuthSlice.mkState (Some Sample.user) (Some "tok") false false (Some "Login failed").
Proof. reflexivity. Qed.
End FailureFacts.

(** *** Session invalidation by the response interceptor *)

Section InterceptorFacts.
Import ApiService.

(** A 401 is never a success for axios, so it reaches [onRejected]. *)
Lemma unauthorized_is_rejected : validateStatus 401 = false.
Proof. reflexivity. Qed.

Lemma onRejected_unauthorized (e : AxiosError) (r : AxiosResponse) (store : AsyncStorage.t) :
  response e = Some r -> status r = 401%Z ->
  fst (onRejected e store) = delete "user_data" (delete "auth_token" store).
Proof.
  intros He Hs. unfold onRejected. rewrite He, Hs. reflexivity.
Qed.

Lemma onRejected_other (e : AxiosError) (store : AsyncStorage.t) :
  (forall r, response e = Some r -> status r <> 401%Z) ->
  fst (onRejected e store) = store.
Proof.
  intros H. unfold onRejected. destruct (response e) as [r |]; [| reflexivity].
  rewrite bool_decide_eq_false_2; [reflexivity |]. apply H. reflexivity.
Qed.

(** Both handlers hand on what they were given. *)
Lemma interceptor_passes_through (e : AxiosError) (r : AxiosResponse) (store : AsyncStorage.t) :
  snd (onRejected e store) = e /\ onFulfilled r store = (store, r).
Proof. split; reflexivity. Qed.

(** The store after a call, by the status of the reply. *)
Lemma call_store (endpoint : Endpoint) (r : AxiosResponse) (store : AsyncStorage.t) :
  fst (call endpoint (HttpReply r) store)
  = if bool_decide (status r = 401%Z)
    then delete "user_data" (delete "auth_token" store)
    else store.
Proof.
  unfold call. destruct (validateStatus (status r)) eqn:Hv.
  - rewrite bool_decide_eq_false_2; [reflexivity |].
    intros E. rewrite E in Hv. discriminate.
  - unfold onRejected. cbn [response]. destruct (bool_decide (status r = 401%Z)); reflexivity.
Qed.

(** After a 401 the next request goes out without a bearer token. *)
Lemma no_bearer_after_unauthorized (endpoint : Endpoint) (r : AxiosResponse) (store : AsyncStorage.t) :
  status r = 401%Z ->
  requestInterceptor (fst (call endpoint (HttpReply r) store)) = None.
Proof.
  intros H. rewrite call_store, bool_decide_eq_true_2 by exact H.
  unfold requestInterceptor, AsyncStorage.getItem.
  rewrite lookup_delete_ne by discriminate. rewrite lookup_delete_eq. reflexivity.
Qed.

(** C8.  Whatever the endpoint, a reply with status 401 leaves the
    store without the session token ([auth_token]) and without the
    cached user ([user_data]), all other keys untouched; a reply with
    any other status, and a request that gets no reply, leave the
    store as it was. *)
Theorem C8_unauthorized_clears_session
    (endpoint : Endpoint) (r : AxiosResponse) (store : AsyncStorage.t) :
  (status r = 401%Z ->
     let store' := fst (call endpoint (HttpReply r) store) in
     AsyncStorage.getItem "auth_token" store' = None /\
     AsyncStorage.getItem "user_data" store' = None /\
     (forall key, key <> "auth_token" -> key <> "user_data" ->
        AsyncStorage.getItem key store' = AsyncStorage.getItem key store)) /\
  (status r <> 401%Z -> fst (call endpoint (HttpReply r) store) = store) /\
  (forall message, fst (call endpoint (NoReply message) store) = store).
Proof.
  rewrite call_store. unfold AsyncStorage.getItem.
  split; [| split].
  - intros H. rewrite bool_decide_eq_true_2 by exact H. cbn zeta.
    split; [| split].
    + rewrite lookup_delete_ne by discriminate. apply lookup_delete_eq.
    + apply lookup_delete_eq.
    + intros key H1 H2. rewrite !lookup_delete_ne by congruence. reflexivity.
  - intros H. rewrite bool_decide_eq_false_2 by exact H. reflexivity.
  - reflexivity.
Qed.

Lemma C8_unauthorized_clears_session_witness :
  let store : AsyncStorage.t :=
    AsyncStorage.setItem "user_data" "{}"
      (AsyncStorage.setItem "auth_token" "tok"
         (AsyncStorage.setItem "theme" "dark" ∅)) in
  let store' := fst (call getProfile (HttpReply (mkResponse 401 "Unauthorized")) store) in
  AsyncStorage.getItem "auth_token" store' = None /\
  AsyncStorage.getItem "user_data" store' = None /\
  AsyncStorage.getItem "theme" store' = Some "dark" /\
  fst (call createBooking (HttpReply (mkResponse 409 "Conflict")) store) = store.
Proof.
  cbn zeta.
  pose proof (C8_unauthorized_clears_session getProfile (mkResponse 401 "Unauthorized")
                (AsyncStorage.setItem "user_data" "{}"
                   (AsyncStorage.setItem "auth_token" "tok"
                      (AsyncStorage.setItem "theme" "dark" ∅)))) as [H401 _].
  specialize (H401 eq_refl). cbn zeta in H401. destruct H401 as (Ht & Hu & Hk).
  split; [exact Ht |]. split; [exact Hu |]. split.
  - rewrite Hk by discriminate. reflexivity.
  - apply (C8_unauthorized_clears_session createBooking (mkResponse 409 "Conflict")).
    discriminate.
Defined.

End InterceptorFacts.

(** *** Merging a booking into the booking state *)

Section MergeFacts.
Import BookingSlice Merge.

Lemma findIndex_Some {A : Type} (p : A -> bool) (l : list A) (i : nat) :
  findIndex p l = Some i ->
  (exists x, l !! i = Some x /\ p x = true) /\
  (forall j y, (j < i)%nat -> l !! j = Some y -> p y = false).
Proof.
  revert i. induction l as [| x l IH]; intros i H; cbn in H; [discriminate |].
  destruct (p x) eqn:Hp.
  - injection H as <-. split; [exists x; split; [reflexivity | exact Hp] |].
    intros j y Hj. lia.
  - destruct (findIndex p l) as [k |] eqn:Hk; [| discriminate].
    injection H as <-. destruct (IH k eq_refl) as [Hx Hlt]. split; [exact Hx |].
    intros [| j] y Hj Hy; cbn in Hy.
    + injection Hy as <-. exact Hp.
    + apply (Hlt j); [lia | exact Hy].
Qed.

Lemma findIndex_None {A : Type} (p : A -> bool) (l : list A) :
  findIndex p l = None <-> forall x, x ∈ l -> p x = false.
Proof.
  induction l as [| x l IH]; cbn.
  - split; [intros _ y Hy; inversion Hy | reflexivity].
  - destruct (p x) eqn:Hp.
    + split; [discriminate |]. intros H.
      specialize (H x (list_elem_of_here x l)). congruence.
    + destruct (findIndex p l) as [k |]; cbn.
      * split; [discriminate |]. intros H.
        assert (Hn : Some k = None); [| discriminate].
        apply IH. intros y Hy. apply H. apply list_elem_of_further, Hy.
      * split; [| reflexivity]. intros _ y Hy.
        apply elem_of_cons in Hy as [-> | Hy]; [exact Hp |].
        apply IH; [reflexivity | exact Hy].
Qed.

Lemma same_id_true (p b : Booking.t) :
  same_id p b = true <-> Booking._id b = Booking._id p.
Proof. unfold same_id. apply bool_decide_eq_true. Qed.

Lemma same_id_false (p b : Booking.t) :
  same_id p b = false <-> Booking._id b <> Booking._id p.
Proof. unfold same_id. apply bool_decide_eq_false. Qed.

Lemma is_active_true (p : Booking.t) :
  is_active p = true <-> Booking.status p = BookingStatus.active.
Proof. unfold is_active. apply bool_decide_eq_true. Qed.

Lemma is_active_false (p : Booking.t) :
  is_active p = false <-> Booking.status p <> BookingStatus.active.
Proof. unfold is_active. apply bool_decide_eq_false. Qed.

(** [findIndex] finds the first match, and finds one when there is one. *)
Lemma findIndex_first_match (p : Booking.t) (l : list Booking.t) (i : nat) :
  findIndex (same_id p) l = Some i <-> first_match p l i.
Proof.
  split.
  - intros H. apply findIndex_Some in H as [(x & Hx & Hp) Hlt]. split.
    + exists x. split; [exact Hx | apply same_id_true, Hp].
    + intros j b Hj Hb. apply same_id_false. apply (Hlt j); assumption.
  - intros [(x & Hx & Hid) Hlt].
    destruct (findIndex (same_id p) l) as [k |] eqn:Hk.
    + apply findIndex_Some in Hk as [(y & Hy & Hp) Hlt'].
      destruct (Nat.lt_trichotomy k i) as [Hki | [-> | Hik]]; [| reflexivity |].
      * exfalso. apply (Hlt k y Hki Hy). apply same_id_true, Hp.
      * exfalso. specialize (Hlt' i x Hik Hx).
        apply same_id_false in Hlt'. contradiction.
    + exfalso. rewrite findIndex_None in Hk.
      specialize (Hk x (list_elem_of_lookup_2 _ _ _ Hx)).
      apply same_id_false in Hk. contradiction.
Qed.

Lemma findIndex_not_present (p : Booking.t) (l : list Booking.t) :
  findIndex (same_id p) l = None <-> ~ present p l.
Proof.
  rewrite findIndex_None. unfold present. split.
  - intros H (b & Hb & Hid). specialize (H b Hb).
    apply same_id_false in H. contradiction.
  - intros H b Hb. apply same_id_false. intros Hid. apply H. exists b. tauto.
Qed.

Lemma assign_replaced_at {A : Type} (i : nat) (x : A) (l : list A) :
  (i < length l)%nat -> replaced_at i x l (assign i x l).
Proof.
  intros Hi. unfold replaced_at, assign. split; [apply length_insert |].
  split; [apply list_lookup_insert_eq, Hi |].
  intros j Hj. apply list_lookup_insert_ne. congruence.
Qed.

(** With unique ids, removing the first match removes the id. *)
Lemma splice_first_match_unique (p : Booking.t) (l : list Booking.t) (i : nat) :
  unique_ids l -> findIndex (same_id p) l = Some i -> ~ present p (splice1 i l).
Proof.
  unfold unique_ids, splice1, present. revert i.
  induction l as [| x l IH]; intros i Hu Hf; cbn in Hf; [discriminate |].
  rewrite fmap_cons in Hu. apply NoDup_cons in Hu as [Hx Hu].
  destruct (same_id p x) eqn:Hp.
  - injection Hf as <-. cbn. intros (b & Hb & Hid). apply Hx.
    apply same_id_true in Hp. rewrite Hp, <- Hid.
    apply list_elem_of_fmap_2, Hb.
  - destruct (findIndex (same_id p) l) as [k |] eqn:Hk; [| discriminate].
    injection Hf as <-. cbn. intros (b & Hb & Hid).
    apply elem_of_cons in Hb as [-> | Hb].
    + apply same_id_false in Hp. contradiction.
    + apply (IH k Hu eq_refl). exists b. tauto.
Qed.

(** Case analysis on everything a list-merging reducer branches on. *)
Ltac reducer_cases :=
  unfold replace_selected, remove_from_active, replace_in_bookings,
    set_error, set_isLoading, set_activeBookings, set_bookings, set_selectedBooking;
  repeat (cbn [bookings activeBookings selectedBooking isLoading error];
          match goal with
          | |- context [findIndex ?f ?l] => destruct (findIndex f l) eqn:?
          | |- context [is_active ?p] => destruct (is_active p) eqn:?
          | |- context [match ?o with Some _ => _ | None => _ end] => destruct o eqn:?
          | |- context [same_id ?p ?b] => destruct (same_id p b) eqn:?
          end);
  cbn [bookings activeBookings selectedBooking isLoading error] in *;
  try reflexivity; try congruence.

Lemma update_bookings (p : Booking.t) (s : BookingState) :
  bookings (reducer s (updateBookingStatus_fulfilled p))
  = match findIndex (same_id p) (bookings s) with
    | Some index => assign index p (bookings s)
    | None => bookings s
    end.
Proof. destruct s. cbn [reducer]. reducer_cases. Qed.

Lemma cancel_bookings (p : Booking.t) (s : BookingState) :
  bookings (reducer s (cancelBooking_fulfilled p))
  = match findIndex (same_id p) (bookings s) with
    | Some index => assign index p (bookings s)
    | None => bookings s
    end.
Proof. destruct s. cbn [reducer]. reducer_cases. Qed.

(** The active list after a status update, case by case as in the code. *)
Lemma update_active (p : Booking.t) (s : BookingState) :
  activeBookings (reducer s (updateBookingStatus_fulfilled p))
  = match is_active p, findIndex (same_id p) (activeBookings s) with
    | true, None => push p (activeBookings s)
    | false, Some activeIndex => splice1 activeIndex (activeBookings s)
    | true, Some activeIndex => assign activeIndex p (activeBookings s)
    | false, None => activeBookings s
    end.
Proof. destruct s. cbn [reducer]. reducer_cases. Qed.

(** The active list after a cancellation: the first match is removed,
    whatever the status of the payload. *)
Lemma cancel_active (p : Booking.t) (s : BookingState) :
  activeBookings (reducer s (cancelBooking_fulfilled p))
  = match findIndex (same_id p) (activeBookings s) with
    | Some activeIndex => splice1 activeIndex (activeBookings s)
    | None => activeBookings s
    end.
Proof. destruct s. cbn [reducer]. reducer_cases. Qed.

Lemma create_lists (p : Booking.t) (s : BookingState) :
  bookings (reducer s (createBooking_fulfilled p)) = unshift p (bookings s) /\
  activeBookings (reducer s (createBooking_fulfilled p))
  = if is_active p then unshift p (activeBookings s) else activeBookings s.
Proof. cbn [reducer]. destruct (is_active p); split; reflexivity. Qed.

Lemma first_match_bound (p : Booking.t) (l : list Booking.t) (i : nat) :
  first_match p l i -> (i < length l)%nat.
Proof. intros [(b & Hb & _) _]. apply lookup_lt_Some in Hb. exact Hb. Qed.

(** The bookings list after a status update or a cancellation: the
    first booking with the id of the payload is replaced in place, and
    the list is unchanged when there is none. *)
Lemma merged_bookings (p : Booking.t) (l l' : list Booking.t) :
  l' = match findIndex (same_id p) l with
       | Some index => assign index p l
       | None => l
       end ->
  (forall i, first_match p l i -> replaced_at i p l l') /\
  (~ present p l -> l' = l).
Proof.
  intros ->. split.
  - intros i Hi. pose proof (first_match_bound _ _ _ Hi) as Hlt.
    apply findIndex_first_match in Hi. rewrite Hi.
    apply assign_replaced_at, Hlt.
  - intros Hn. apply findIndex_not_present in Hn. rewrite Hn. reflexivity.
Qed.

(** C6, refuted as stated.  The answer to a cancellation is taken out
    of the active list even when it carries the status 'active'; and
    in an active list that holds an id twice, an update to a status
    other than 'active' takes out only the first of the two. *)
Lemma C6_active_list_refute :
  let a := Sample.booking "b1" BookingStatus.active 0 in
  let c := Sample.booking "b1" BookingStatus.completed 0 in
  let s1 := mkState [a] [a] None false None in
  let s2 := mkState [a; a] [a; a] None false None in
  ~ (present a (activeBookings (reducer s1 (cancelBooking_fulfilled a)))
     <-> Booking.status a = BookingStatus.active) /\
  ~ (present c (activeBookings (reducer s2 (updateBookingStatus_fulfilled c)))
     <-> Booking.status c = BookingStatus.active).
Proof.
  cbn zeta. split.
  - intros [_ H]. destruct (H eq_refl) as (b & Hb & _).
    vm_compute in Hb. inversion Hb.
  - intros [H _]. assert (Hp : present (Sample.booking "b1" BookingStatus.completed 0)
      (activeBookings (reducer
         (mkState [Sample.booking "b1" BookingStatus.active 0;
                   Sample.booking "b1" BookingStatus.active 0]
                  [Sample.booking "b1" BookingStatus.active 0;
                   Sample.booking "b1" BookingStatus.active 0] None false None)
         (updateBookingStatus_fulfilled (Sample.booking "b1" BookingStatus.completed 0))))).
    { exists (Sample.booking "b1" BookingStatus.active 0). split; [| reflexivity].
      vm_compute. apply list_elem_of_here. }
    specialize (H Hp). discriminate.
Qed.

(** C6, amended.  A created booking is prepended to the bookings list,
    and to the active list exactly when its status is 'active'.  A
    status update and a cancellation replace, in place, the first
    booking of the bookings list that has the id of the answer, and
    leave that list alone when there is none.  After a status update
    whose new status is 'active' the answer is in the active list
    (replacing the first booking with its id, or appended when there
    was none); after an update to another status, and after a
    cancellation whatever status it answers, the first booking with
    that id is taken out of the active list, so that none remains when
    the ids of the active list were unique. *)
Theorem C6_booking_merge_rules (s : BookingState) (p : Booking.t) :
  (let s' := reducer s (createBooking_fulfilled p) in
   bookings s' = p :: bookings s /\
   (Booking.status p = BookingStatus.active ->
      activeBookings s' = p :: activeBookings s) /\
   (Booking.status p <> BookingStatus.active ->
      activeBookings s' = activeBookings s)) /\
  (forall a, a = updateBookingStatus_fulfilled p \/ a = cancelBooking_fulfilled p ->
     let s' := reducer s a in
     (forall i, first_match p (bookings s) i ->
        replaced_at i p (bookings s) (bookings s')) /\
     (~ present p (bookings s) -> bookings s' = bookings s)) /\
  (let s' := reducer s (updateBookingStatus_fulfilled p) in
   (Booking.status p = BookingStatus.active ->
      p ∈ activeBookings s' /\
      (forall i, first_match p (activeBookings s) i ->
         replaced_at i p (activeBookings s) (activeBookings s')) /\
      (~ present p (activeBookings s) ->
         activeBookings s' = activeBookings s ++ [p])) /\
   (Booking.status p <> BookingStatus.active ->
      (forall i, first_match p (activeBookings s) i ->
         activeBookings s' = delete i (activeBookings s)) /\
      (unique_ids (activeBookings s) -> ~ present p (activeBookings s')))) /\
  (let s' := reducer s (cancelBooking_fulfilled p) in
   (forall i, first_match p (activeBookings s) i ->
      activeBookings s' = delete i (activeBookings s)) /\
   (unique_ids (activeBookings s) -> ~ present p (activeBookings s'))).
Proof.
  split; [| split; [| split]].
  - cbn zeta. destruct (create_lists p s) as [Hb Ha]. rewrite Hb, Ha.
    split; [reflexivity |]. split; intros H.
    + apply is_active_true in H. rewrite H. reflexivity.
    + apply is_active_false in H. rewrite H. reflexivity.
  - intros a [-> | ->]; cbn zeta; apply merged_bookings;
      [apply update_bookings | apply cancel_bookings].
  - cbn zeta. rewrite update_active. split; intros H.
    + apply is_active_true in H. rewrite H.
      destruct (findIndex (same_id p) (activeBookings s)) as [k |] eqn:Hk.
      * pose proof (proj1 (findIndex_first_match _ _ _) Hk) as Hfm.
        pose proof (first_match_bound _ _ _ Hfm) as Hlt.
        split; [apply list_elem_of_insert, Hlt |]. split.
        -- intros i Hi. apply findIndex_first_match in Hi.
           assert (i = k) as -> by congruence.
           apply assign_replaced_at, Hlt.
        -- intros Hn. apply findIndex_not_present in Hn. congruence.
      * split; [apply elem_of_app; right; apply list_elem_of_here |]. split.
        -- intros i Hi. apply findIndex_first_match in Hi. congruence.
        -- reflexivity.
    + apply is_active_false in H. rewrite H.
      destruct (findIndex (same_id p) (activeBookings s)) as [k |] eqn:Hk; split.
      * intros i Hi. apply findIndex_first_match in Hi.
        assert (i = k) as -> by congruence. reflexivity.
      * intros Hu. apply splice_first_match_unique; assumption.
      * intros i Hi. apply findIndex_first_match in Hi. congruence.
      * intros _. apply findIndex_not_present, Hk.
  - cbn zeta. rewrite cancel_active.
    destruct (findIndex (same_id p) (activeBookings s)) as [k |] eqn:Hk; split.
    + intros i Hi. apply findIndex_first_match in Hi.
      assert (i = k) as -> by congruence. reflexivity.
    + intros Hu. apply splice_first_match_unique; assumption.
    + intros i Hi. apply findIndex_first_match in Hi. congruence.
    + intros _. apply findIndex_not_present, Hk.
Qed.

Lemma C6_booking_merge_rules_witness :
  let a := Sample.booking "b1" BookingStatus.active 0 in
  let b := Sample.booking "b2" BookingStatus.active 0 in
  let c := Sample.booking "b1" BookingStatus.completed 0 in
  let s := mkState [b; a] [b; a] None false None in
  unique_ids (activeBookings s) /\
  ~ present c (activeBookings (reducer s (updateBookingStatus_fulfilled c))) /\
  ~ present c (activeBookings (reducer s (cancelBooking_fulfilled c))).
Proof.
  cbn zeta.
  assert (Hu : unique_ids
                 (activeBookings
                    (mkState [Sample.booking "b2" BookingStatus.active 0;
                              Sample.booking "b1" BookingStatus.active 0]
                             [Sample.booking "b2" BookingStatus.active 0;
                              Sample.booking "b1" BookingStatus.active 0]
                             None false None))).
  { unfold unique_ids. cbn. apply NoDup_cons. split.
    - intros H. apply elem_of_cons in H as [H | H]; [discriminate | inversion H].
    - apply NoDup_cons. split; [intros H; inversion H | apply NoDup_nil_2]. }
  pose proof (C6_booking_merge_rules
                (mkState [Sample.booking "b2" BookingStatus.active 0;
                          Sample.booking "b1" BookingStatus.active 0]
                         [Sample.booking "b2" BookingStatus.active 0;
                          Sample.booking "b1" BookingStatus.active 0]
                         None false None)
                (Sample.booking "b1" BookingStatus.completed 0))
    as (_ & _ & Hupd & Hcan).
  cbn zeta in Hupd, Hcan.
  split; [exact Hu |]. split.
  - apply Hupd; [discriminate | exact Hu].
  - apply Hcan. exact Hu.
Defined.

(** The running example: create, activate, cancel. *)
Example merge_scenario :
  let b := Sample.booking "b1" BookingStatus.confirmed 0 in
  let s1 := reducer initialState (createBooking_fulfilled b) in
  let s2 := reducer s1 (updateBookingStatus_fulfilled (Booking.with_status BookingStatus.active b)) in
  let s3 := reducer s2 (cancelBooking_fulfilled (Booking.with_status BookingStatus.cancelled b)) in
  bookings s1 = [b] /\ activeBookings s1 = [] /\
  bookings s2 = [Booking.with_status BookingStatus.active b] /\
  activeBookings s2 = [Booking.with_status BookingStatus.active b] /\
  bookings s3 = [Booking.with_status BookingStatus.cancelled b] /\
  activeBookings s3 = [].
Proof. vm_compute. repeat split. Qed.
End MergeFacts.


(** ** Part III: further properties of the code *)

(** *** The location service: permission, position and fallback *)

Section LocationMore.
Local Open Scope float_scope.
Import BusinessMap Viewport.

(** X6.  In a development build [getCurrentLocation] never rejects:
    when the device reports an error it resolves to the fixed point
    (33.7490, -84.3880) with accuracy 100, and a map given that
    location and no business shows exactly the default region. *)
Theorem X6_development_fallback_location (outcome : Geolocation.PositionOutcome) :
  (exists l, Geolocation.getCurrentLocation true outcome = inr l) /\
  (forall code f1 f2,
      outcome = Geolocation.position_error code ->
      Geolocation.getCurrentLocation true outcome
      = inr (Location.mk 33.7490 (-84.3880) (Some 100)) /\
      region (Some (Location.toLatLng (Location.mk 33.7490 (-84.3880) (Some 100)))) [] f1 f2
      = atlantaRegion).
Proof.
  split.
  - destruct outcome; eexists; reflexivity.
  - intros code f1 f2 ->. split; reflexivity.
Qed.

Lemma X6_development_fallback_location_witness :
  Geolocation.getCurrentLocation true (Geolocation.position_error 3)
  = inr (Location.mk 33.7490 (-84.3880) (Some 100)).
Proof.
  apply (proj2 (X6_development_fallback_location (Geolocation.position_error 3))
           3%Z false false).
  reflexivity.
Defined.

(** X7.  [getLocationWithPermission] fails in exactly two cases: on
    Android when the permission request did not end in GRANTED (it
    then throws without asking the device for a position), and in a
    production build when the device reports an error (it then
    rejects with the device's error code). *)
Theorem X7_location_failures
    (dev : bool) (os : Geolocation.Platform)
    (permission : Geolocation.PermissionOutcome)
    (outcome : Geolocation.PositionOutcome) :
  let result := Geolocation.getLocationWithPermission dev os permission outcome in
  ((exists f, result = inl f) <->
     (os = Geolocation.android /\ permission <> Geolocation.GRANTED) \/
     (dev = false /\ exists code, outcome = Geolocation.position_error code)) /\
  (os = Geolocation.android -> permission <> Geolocation.GRANTED ->
     result = inl (Geolocation.thrown "Location permission denied")) /\
  (forall code, result = inl (Geolocation.rejected_with code) ->
     outcome = Geolocation.position_error (LocationError.code code)).
Proof.
  cbn zeta. split; [| split].
  - split.
    + intros [f Hf].
      destruct os, permission, dev, outcome; cbn in Hf;
        first [ discriminate
              | left; split; [reflexivity | discriminate]
              | right; split; [reflexivity | eexists; reflexivity] ].
    + intros [[-> Hp] | [-> [code ->]]].
      * destruct permission; [contradiction | | |]; eexists; reflexivity.
      * destruct os, permission; eexists; reflexivity.
  - intros -> Hp. destruct permission; [contradiction | | |]; reflexivity.
  - intros code H.
    destruct os, permission, dev, outcome; cbn in H; try discriminate;
      injection H as <-; reflexivity.
Qed.

Lemma X7_location_failures_witness :
  Geolocation.getLocationWithPermission false Geolocation.android
    Geolocation.DENIED (Geolocation.position 33.7490 (-84.3880) 5)
  = inl (Geolocation.thrown "Location permission denied").
Proof.
  apply (X7_location_failures false Geolocation.android Geolocation.DENIED
           (Geolocation.position 33.7490 (-84.3880) 5)).
  - reflexivity.
  - discriminate.
Defined.
End LocationMore.


(** *** Text helpers *)

Section HelperFacts.
Import Helpers.

Lemma length_append (a b : string) :
  String.length (a +:+ b) = (String.length a + String.length b)%nat.
Proof. induction a as [| c a IH]; simpl; [reflexivity | rewrite IH; reflexivity]. Qed.

Lemma length_substring_0 (n : nat) (s : string) :
  String.length (String.substring 0 n s) = Nat.min n (String.length s).
Proof.
  revert s. induction n as [| n IH]; intros [| c s]; simpl; try reflexivity.
  rewrite IH. reflexivity.
Qed.

Lemma substring_0_append (a b : string) :
  String.substring 0 (String.length a) (a +:+ b) = a.
Proof.
  induction a as [| c a IH]; simpl.
  - destruct b; reflexivity.
  - rewrite IH. reflexivity.
Qed.

(** A text that is cut has exactly [max maxLength 0] of its characters
    left, followed by the three dots. *)
Lemma truncateText_cut_length (text : string) (maxLength : Z) :
  (maxLength < Z.of_nat (String.length text))%Z ->
  Z.of_nat (String.length (truncateText text maxLength)) = (Z.max maxLength 0 + 3)%Z /\
  String.length (String.substring 0 (Z.to_nat maxLength) text) = Z.to_nat maxLength.
Proof.
  intros H. unfold truncateText.
  rewrite (proj2 (Z.leb_gt _ _)) by exact H.
  rewrite length_append, length_substring_0. cbn [String.length]. lia.
Qed.

(** X8.  [truncateText] returns a text that fits unchanged, and cuts a
    longer one to its first [maxLength] characters plus three dots: the
    result is then [maxLength + 3] long (3 for a negative [maxLength]),
    so the result is within [maxLength] exactly when the text already
    was.  Truncating twice is the same as truncating once. *)
Theorem X8_truncateText (text : string) (maxLength : Z) :
  ((Z.of_nat (String.length text) <= maxLength)%Z -> truncateText text maxLength = text) /\
  ((maxLength < Z.of_nat (String.length text))%Z ->
     Z.of_nat (String.length (truncateText text maxLength)) = (Z.max maxLength 0 + 3)%Z) /\
  ((Z.of_nat (String.length (truncateText text maxLength)) <= maxLength)%Z <->
     (Z.of_nat (String.length text) <= maxLength)%Z) /\
  truncateText (truncateText text maxLength) maxLength = truncateText text maxLength.
Proof.
  assert (Hfit : (Z.of_nat (String.length text) <= maxLength)%Z ->
                 truncateText text maxLength = text).
  { intros H. unfold truncateText. rewrite (proj2 (Z.leb_le _ _)) by exact H. reflexivity. }
  split; [exact Hfit |]. split; [apply truncateText_cut_length |]. split.
  - split.
    + intros H. destruct (Z_le_gt_dec (Z.of_nat (String.length text)) maxLength) as [Hle | Hgt];
        [exact Hle |].
      destruct (truncateText_cut_length text maxLength) as [Hl _]; lia.
    + intros H. rewrite Hfit by exact H. exact H.
  - destruct (Z_le_gt_dec (Z.of_nat (String.length text)) maxLength) as [Hle | Hgt].
    + rewrite !Hfit by exact Hle. reflexivity.
    + destruct (truncateText_cut_length text maxLength) as [Hl Hs]; [lia |].
      unfold truncateText at 1. rewrite (proj2 (Z.leb_gt _ _)) by lia.
      unfold truncateText. rewrite (proj2 (Z.leb_gt _ _)) by lia.
      rewrite <- Hs at 1. rewrite substring_0_append. reflexivity.
Qed.

Lemma X8_truncateText_witness :
  truncateText "Locker Stop" 6 = "Locker..." /\
  Z.of_nat (String.length (truncateText "abcd" 3)) = 6%Z /\
  truncateText "abc" 3 = "abc".
Proof.
  split; [reflexivity |]. split.
  - apply (proj1 (proj2 (X8_truncateText "abcd" 3))). cbn. lia.
  - apply (proj1 (X8_truncateText "abc" 3)). cbn. lia.
Defined.

Lemma remaining_not_Expired (s : string) : s +:+ "m remaining" <> "Expired".
Proof.
  intros H. apply (f_equal String.length) in H.
  rewrite length_append in H. cbn in H. lia.
Qed.

(** The hours and minutes that [getTimeRemaining] prints. *)
Lemma getTimeRemaining_running (now endTime : Z) :
  (now < endTime)%Z ->
  let diff := (endTime - now)%Z in
  let hours := (diff / 3600000)%Z in
  let minutes := ((diff mod 3600000) / 60000)%Z in
  getTimeRemaining now endTime
  = if (0 <? hours)%Z
    then pretty hours +:+ "h " +:+ pretty minutes +:+ "m remaining"
    else pretty minutes +:+ "m remaining".
Proof.
  intros H. cbn zeta. unfold getTimeRemaining.
  rewrite (proj2 (Z.leb_gt _ _)) by lia.
  change (1000 * 60 * 60)%Z with 3600000%Z. change (1000 * 60)%Z with 60000%Z.
  reflexivity.
Qed.

(** X9.  [getTimeRemaining] answers "Expired" exactly when the end
    time is not after [now], while [isBookingExpired] holds exactly
    when the end time is before [now]: at the very end time the first
    says "Expired" and the second says no.  Before the end the printed
    minutes are below 60 and, with the printed hours, make up the
    whole minutes that remain (seconds are dropped, so less than a
    minute prints as "0m remaining"); the hours are left out when
    they are 0. *)
Theorem X9_time_remaining (now endTime : Z) :
  (getTimeRemaining now endTime = "Expired" <-> (endTime <= now)%Z) /\
  (isBookingExpired now endTime = true <-> (endTime < now)%Z) /\
  ((now < endTime)%Z ->
     let diff := (endTime - now)%Z in
     let hours := (diff / 3600000)%Z in
     let minutes := ((diff mod 3600000) / 60000)%Z in
     (0 <= hours)%Z /\ (0 <= minutes < 60)%Z /\
     (60 * hours + minutes = diff / 60000)%Z /\
     (hours = 0%Z -> getTimeRemaining now endTime = pretty minutes +:+ "m remaining") /\
     (hours <> 0%Z -> getTimeRemaining now endTime
                      = pretty hours +:+ "h " +:+ pretty minutes +:+ "m remaining") /\
     (diff < 60000 -> getTimeRemaining now endTime = "0m remaining")%Z).
Proof.
  split; [| split].
  - split.
    + intros H. destruct (Z_le_gt_dec endTime now) as [Hle | Hgt]; [exact Hle |].
      exfalso. rewrite getTimeRemaining_running in H by lia.
      destruct (0 <? (endTime - now) / 3600000)%Z.
      * apply (f_equal String.length) in H.
        rewrite !length_append in H. cbn in H. lia.
      * apply (remaining_not_Expired _ H).
    + intros H. unfold getTimeRemaining. rewrite (proj2 (Z.leb_le _ _)) by lia. reflexivity.
  - unfold isBookingExpired. apply Z.ltb_lt.
  - intros H diff hours minutes.
    assert (Hd : (0 < diff)%Z) by (unfold diff; lia).
    assert (Hh : (0 <= hours)%Z) by (apply Z.div_pos; lia).
    assert (Hmod : (0 <= diff mod 3600000 < 3600000)%Z) by (apply Z.mod_pos_bound; lia).
    assert (Hm : (0 <= minutes < 60)%Z).
    { unfold minutes. split; [apply Z.div_pos; lia |].
      apply Z.div_lt_upper_bound; lia. }
    assert (Hsum : (60 * hours + minutes = diff / 60000)%Z).
    { unfold hours, minutes.
      rewrite (Z.div_mod diff 3600000) at 3 by lia.
      replace (3600000 * (diff / 3600000) + diff mod 3600000)%Z
        with ((60 * (diff / 3600000)) * 60000 + diff mod 3600000)%Z by ring.
      rewrite Z.div_add_l by lia. reflexivity. }
    pose proof (getTimeRemaining_running now endTime H) as Hrun. cbn zeta in Hrun.
    fold diff in Hrun. fold hours in Hrun. fold minutes in Hrun.
    split; [exact Hh |]. split; [exact Hm |]. split; [exact Hsum |].
    split; [| split].
    + intros E. rewrite Hrun, E. reflexivity.
    + intros E. rewrite Hrun, (proj2 (Z.ltb_lt 0 hours)) by lia. reflexivity.
    + intros Hlt.
      assert (E0 : (diff / 60000 = 0)%Z) by (apply Z.div_small; lia).
      assert (hours = 0 /\ minutes = 0)%Z as [E1 E2] by lia.
      rewrite Hrun, E1, E2. reflexivity.
Qed.

Lemma X9_time_remaining_witness :
  getTimeRemaining 1700000000000 1700000000000 = "Expired" /\
  isBookingExpired 1700000000000 1700000000000 = false /\
  getTimeRemaining 1700000000000 1700000059999 = "0m remaining".
Proof.
  split; [| split].
  - apply (proj1 (X9_time_remaining 1700000000000 1700000000000)). lia.
  - reflexivity.
  - apply (proj2 (proj2 (X9_time_remaining 1700000000000 1700000059999))); lia.
Defined.

(** X10.  The details screen shows a remaining time for an active
    booking only, and always with the hours: for an active booking it
    prints what [getTimeRemaining] prints exactly when the booking has
    ended or has at least a full hour left; with less than an hour
    left it prints "0h" in front. *)
Theorem X10_remaining_time_on_details (now : Z) (booking : Booking.t) :
  (Booking.status booking <> BookingStatus.active ->
     BookingDetails.getRemainingTime now (Some booking) = None) /\
  (Booking.status booking = BookingStatus.active ->
     (BookingDetails.getRemainingTime now (Some booking)
      = Some (getTimeRemaining now (Booking.endTime booking))
      <-> (Booking.endTime booking <= now \/ 3600000 <= Booking.endTime booking - now)%Z) /\
     ((0 < Booking.endTime booking - now < 3600000)%Z ->
        BookingDetails.getRemainingTime now (Some booking)
        = Some ("0h " +:+ getTimeRemaining now (Booking.endTime booking)))).
Proof.
  unfold BookingDetails.getRemainingTime. split.
  - intros H. rewrite bool_decide_eq_false_2 by exact H. reflexivity.
  - intros H. rewrite bool_decide_eq_true_2 by exact H. cbn [negb].
    change (1000 * 60 * 60)%Z with 3600000%Z. change (1000 * 60)%Z with 60000%Z.
    set (e := Booking.endTime booking).
    destruct (Z_le_gt_dec e now) as [Hle | Hgt].
    + rewrite (proj2 (Z.leb_le (e - now) 0)) by lia.
      unfold getTimeRemaining. rewrite (proj2 (Z.leb_le (e - now) 0)) by lia.
      split; [split; [left; exact Hle | reflexivity] | lia].
    + rewrite (proj2 (Z.leb_gt (e - now) 0)) by lia.
      rewrite getTimeRemaining_running by lia.
      destruct (Z_le_gt_dec 3600000 (e - now)) as [Hh | Hh].
      * assert (Hpos : (0 < (e - now) / 3600000)%Z)
          by (apply Z.div_str_pos; lia).
        rewrite (proj2 (Z.ltb_lt _ _) Hpos).
        split; [split; [right; exact Hh | reflexivity] | lia].
      * assert (E0 : ((e - now) / 3600000 = 0)%Z) by (apply Z.div_small; lia).
        rewrite E0. cbn [Z.ltb Z.compare].
        split; [| intros _; reflexivity].
        split; [| lia].
        intros Heq. exfalso. injection Heq as Heq.
        apply (f_equal String.length) in Heq.
        rewrite !length_append in Heq. cbn in Heq. lia.
Qed.

Lemma X10_remaining_time_on_details_witness :
  BookingDetails.getRemainingTime 0
    (Some (Sample.booking "b1" BookingStatus.active (-1800000)))
  = Some ("0h " +:+ getTimeRemaining 0 1800000).
Proof.
  apply (proj2 (X10_remaining_time_on_details 0
                  (Sample.booking "b1" BookingStatus.active (-1800000)))).
  - reflexivity.
  - cbn. lia.
Defined.
End HelperFacts.


(** *** Booking summaries of the screens *)

Section SummaryFacts.

Lemma filter_sublist_impl {A : Type} (p q : A -> bool) (l : list A) :
  (forall x, p x = true -> q x = true) ->
  List.filter p l `sublist_of` List.filter q l.
Proof.
  intros Himp. induction l as [| x l IH]; [constructor |]. cbn.
  destruct (p x) eqn:Hp.
  - rewrite (Himp x Hp). apply sublist_skip, IH.
  - destruct (q x); [apply sublist_cons, IH | exact IH].
Qed.

Lemma filter_sublist {A : Type} (p : A -> bool) (l : list A) :
  List.filter p l `sublist_of` l.
Proof.
  induction l as [| x l IH]; [constructor |]. cbn.
  destruct (p x); [apply sublist_skip, IH | apply sublist_cons, IH].
Qed.

(** Case analysis on the status of the booking [b] at the head. *)
Ltac status_cases b :=
  destruct b as [? ? ? ? ? ? ? ? ? st ? ? ? ? ? ? ? ? ? ?];
  cbn [Booking.status]; destruct st; cbn;
  repeat first [ rewrite bool_decide_eq_true_2 by reflexivity
               | rewrite bool_decide_eq_false_2 by discriminate ];
  cbn.

(** How many bookings are pending or expired. *)
Lemma status_counts (bookings : list Booking.t) :
  (BookingsList.count BookingsList.active bookings
   + BookingsList.count BookingsList.confirmed bookings
   + BookingsList.count BookingsList.completed bookings
   + BookingsList.count BookingsList.cancelled bookings
   + length (List.filter
               (fun b => bool_decide (Booking.status b = BookingStatus.pending)
                         || bool_decide (Booking.status b = BookingStatus.expired))
               bookings)
   = length bookings)%nat.
Proof.
  induction bookings as [| b l IH]; [reflexivity |].
  cbn [BookingsList.count List.filter length] in *.
  set (fa := List.filter (BookingsList.has_status BookingsList.active) l) in *.
  set (fc := List.filter (BookingsList.has_status BookingsList.confirmed) l) in *.
  set (fd := List.filter (BookingsList.has_status BookingsList.completed) l) in *.
  set (fx := List.filter (BookingsList.has_status BookingsList.cancelled) l) in *.
  set (fp := List.filter (fun b0 => _ || _) l) in *.
  unfold BookingsList.has_status.
  destruct b as [? ? ? ? ? ? ? ? ? st ? ? ? ? ? ? ? ? ? ?]. cbn [Booking.status].
  destruct st; cbn;
    repeat first [ rewrite bool_decide_eq_true_2 by reflexivity
                 | rewrite bool_decide_eq_false_2 by discriminate ];
    cbn; lia.
Qed.

(** X11.  The filter bar of the bookings screen: "All" shows every
    booking; each other filter shows, in their order, the bookings of
    that status and no others; a pending or expired booking is shown
    under "All" only.  The four status counts and the number of
    pending or expired bookings add up to the "All" count. *)
Theorem X11_booking_filters (bookings : list Booking.t) :
  BookingsList.getFilteredBookings BookingsList.all bookings = bookings /\
  (forall key b,
      key <> BookingsList.all ->
      (b ∈ BookingsList.getFilteredBookings key bookings <->
       b ∈ bookings /\
       match key with
       | BookingsList.all => False
       | BookingsList.active => Booking.status b = BookingStatus.active
       | BookingsList.confirmed => Booking.status b = BookingStatus.confirmed
       | BookingsList.completed => Booking.status b = BookingStatus.completed
       | BookingsList.cancelled => Booking.status b = BookingStatus.cancelled
       end)) /\
  (forall key b,
      key <> BookingsList.all ->
      Booking.status b = BookingStatus.pending \/ Booking.status b = BookingStatus.expired ->
      b ∉ BookingsList.getFilteredBookings key bookings) /\
  (forall key, BookingsList.getFilteredBookings key bookings `sublist_of` bookings) /\
  (BookingsList.count BookingsList.active bookings
   + BookingsList.count BookingsList.confirmed bookings
   + BookingsList.count BookingsList.completed bookings
   + BookingsList.count BookingsList.cancelled bookings
   + length (List.filter
               (fun b => bool_decide (Booking.status b = BookingStatus.pending)
                         || bool_decide (Booking.status b = BookingStatus.expired))
               bookings)
   = BookingsList.count BookingsList.all bookings)%nat.
Proof.
  assert (Hmem : forall key b,
             key <> BookingsList.all ->
             (b ∈ BookingsList.getFilteredBookings key bookings <->
              b ∈ bookings /\ BookingsList.has_status key b = true)).
  { intros key b Hk. rewrite !list_elem_of_In.
    destruct key; [contradiction | | | |]; cbn; rewrite filter_In; reflexivity. }
  assert (Hchar : forall key b,
             key <> BookingsList.all ->
             (b ∈ BookingsList.getFilteredBookings key bookings <->
              b ∈ bookings /\
              match key with
              | BookingsList.all => False
              | BookingsList.active => Booking.status b = BookingStatus.active
              | BookingsList.confirmed => Booking.status b = BookingStatus.confirmed
              | BookingsList.completed => Booking.status b = BookingStatus.completed
              | BookingsList.cancelled => Booking.status b = BookingStatus.cancelled
              end)).
  { intros key b Hk. rewrite (Hmem key b Hk).
    destruct b as [? ? ? ? ? ? ? ? ? st ? ? ? ? ? ? ? ? ? ?].
    unfold BookingsList.has_status. cbn [Booking.status].
    destruct key; [contradiction | | | |];
      destruct st; split; intros [H1 H2]; split;
      try assumption; try reflexivity; discriminate. }
  split; [reflexivity |]. split; [exact Hchar |]. split; [| split].
  - intros key b Hk Hs Hin. apply (Hchar key b Hk) in Hin as [_ Hin].
    destruct key; [contradiction | | | |]; destruct Hs; congruence.
  - intros key. destruct key; cbn; [reflexivity | | | |]; apply filter_sublist.
  - apply status_counts.
Qed.

Lemma X11_booking_filters_witness :
  let bookings := [Sample.booking "b1" BookingStatus.pending 0;
                   Sample.booking "b2" BookingStatus.active 0] in
  Sample.booking "b1" BookingStatus.pending 0
    ∉ BookingsList.getFilteredBookings BookingsList.active bookings.
Proof.
  cbn zeta.
  apply (proj1 (proj2 (proj2 (X11_booking_filters
           [Sample.booking "b1" BookingStatus.pending 0;
            Sample.booking "b2" BookingStatus.active 0])))).
  - discriminate.
  - left. reflexivity.
Defined.

(** X12.  The home screen counts as "active" the bookings that are
    active or confirmed, the profile screen only the active ones: the
    home count is the profile count plus the number of confirmed
    bookings.  The upcoming bookings of the home screen are at most
    three, all confirmed and starting after [now], and are among its
    "active" bookings, in the same order. *)
Theorem X12_home_and_profile_counts (now : Z) (bookings : list Booking.t) :
  length (HomeScreen.getActiveBookings bookings)
  = (ProfileScreen.activeBookings (ProfileScreen.getBookingStats bookings)
     + BookingsList.count BookingsList.confirmed bookings)%nat /\
  (ProfileScreen.activeBookings (ProfileScreen.getBookingStats bookings)
   + ProfileScreen.completedBookings (ProfileScreen.getBookingStats bookings)
   + ProfileScreen.cancelledBookings (ProfileScreen.getBookingStats bookings)
   <= ProfileScreen.totalBookings (ProfileScreen.getBookingStats bookings))%nat /\
  (length (HomeScreen.getUpcomingBookings now bookings) <= 3)%nat /\
  HomeScreen.getUpcomingBookings now bookings
    `sublist_of` HomeScreen.getActiveBookings bookings /\
  (forall b, b ∈ HomeScreen.getUpcomingBookings now bookings ->
     Booking.status b = BookingStatus.confirmed /\ (now < Booking.startTime b)%Z).
Proof.
  split; [| split; [| split; [| split]]].
  - unfold HomeScreen.getActiveBookings.
    cbn [ProfileScreen.activeBookings ProfileScreen.getBookingStats BookingsList.count].
    induction bookings as [| b l IH]; [reflexivity |].
    cbn [List.filter length].
    set (fa := List.filter (fun b0 => bool_decide (Booking.status b0 = BookingStatus.active)) l) in *.
    set (fc := List.filter (BookingsList.has_status BookingsList.confirmed) l) in *.
    set (fh := List.filter (fun b0 => _ || _) l) in *.
    unfold BookingsList.has_status. status_cases b; lia.
  - cbn [ProfileScreen.activeBookings ProfileScreen.completedBookings
         ProfileScreen.cancelledBookings ProfileScreen.totalBookings
         ProfileScreen.getBookingStats].
    induction bookings as [| b l IH]; [cbn; lia |].
    cbn [List.filter length].
    set (fa := List.filter (fun b0 => bool_decide (Booking.status b0 = BookingStatus.active)) l) in *.
    set (fd := List.filter (fun b0 => bool_decide (Booking.status b0 = BookingStatus.completed)) l) in *.
    set (fx := List.filter (fun b0 => bool_decide (Booking.status b0 = BookingStatus.cancelled)) l) in *.
    status_cases b; lia.
  - unfold HomeScreen.getUpcomingBookings. rewrite length_take. lia.
  - unfold HomeScreen.getUpcomingBookings, HomeScreen.getActiveBookings.
    etransitivity; [apply sublist_take |].
    apply filter_sublist_impl. intros x H.
    apply andb_true_iff in H as [H _]. rewrite H. apply orb_true_r.
  - intros b Hb. unfold HomeScreen.getUpcomingBookings in Hb.
    apply elem_of_take in Hb as (i & Hb & _). apply list_elem_of_lookup_2 in Hb.
    apply list_elem_of_In, filter_In in Hb as [_ Hb].
    apply andb_true_iff in Hb as [H1 H2].
    apply bool_decide_eq_true in H1. apply Z.ltb_lt in H2. tauto.
Qed.

Lemma X12_home_and_profile_counts_witness :
  let bookings := [Sample.booking "b1" BookingStatus.confirmed 7200000;
                   Sample.booking "b2" BookingStatus.active 0] in
  Booking.status (Sample.booking "b1" BookingStatus.confirmed 7200000)
  = BookingStatus.confirmed /\
  (0 < Booking.startTime (Sample.booking "b1" BookingStatus.confirmed 7200000))%Z.
Proof.
  cbn zeta.
  apply (proj2 (proj2 (proj2 (proj2 (X12_home_and_profile_counts 0
           [Sample.booking "b1" BookingStatus.confirmed 7200000;
            Sample.booking "b2" BookingStatus.active 0]))))).
  vm_compute. apply list_elem_of_here.
Defined.
End SummaryFacts.


(** *** Checking a booking window *)

Section AvailabilityFacts.
Import BusinessDetails.

(** [duration > 10] on a millisecond difference [d]. *)
Lemma ten_hour_limit (d : Z) :
  (10 < inject_Z d / inject_Z (1000 * 60 * 60))%Q <-> (36000000 < d)%Z.
Proof.
  change (1000 * 60 * 60)%Z with 3600000%Z.
  unfold Qlt, Qdiv, Qmult, Qinv, inject_Z. cbn. lia.
Qed.

Lemma elem_of_lockerNumbers (n : nat) (total : Q) :
  n ∈ lockerNumbers total <-> (1 <= n <= Z.to_nat (Qfloor total))%nat.
Proof.
  unfold lockerNumbers. rewrite list_elem_of_fmap. split.
  - intros (i & -> & Hi). apply elem_of_seq in Hi. lia.
  - intros H. exists (n - 1)%nat. split; [lia |]. apply elem_of_seq. lia.
Qed.

Lemma NoDup_lockerNumbers (total : Q) : NoDup (lockerNumbers total).
Proof.
  unfold lockerNumbers. apply NoDup_fmap_2; [| apply NoDup_seq].
  intros i j H. lia.
Qed.

(** X13.  [checkAvailability] offers lockers exactly when the window
    is not empty, not longer than ten hours (36000000 ms) and does not
    start before [now]; an empty or reversed window is reported before
    anything else.  The lockers offered are distinct numbers between 1
    and the number of lockers of the business, rounded down; for a
    business with 0 lockers that bound is 20. *)
Theorem X13_check_availability
    (business : Business.t) (now bookingStartTime bookingEndTime : Z)
    (random : nat -> Q) :
  let out := checkAvailability (Some business) now bookingStartTime bookingEndTime random in
  ((exists available, out = lockers available) <->
     (bookingStartTime < bookingEndTime /\
      bookingEndTime - bookingStartTime <= 36000000 /\
      now <= bookingStartTime)%Z) /\
  ((bookingEndTime <= bookingStartTime)%Z ->
     out = alert "Invalid Time" "End time must be after start time") /\
  (forall available, out = lockers available ->
     NoDup available /\
     (forall n, n ∈ available ->
        (1 <= n)%nat /\
        ((Business.totalLockers business == 0)%Q -> (n <= 20)%nat) /\
        (~ (Business.totalLockers business == 0)%Q ->
           (n <= Z.to_nat (Qfloor (Business.totalLockers business)))%nat))).
Proof.
  cbn zeta. unfold checkAvailability.
  destruct (Z.leb_spec bookingEndTime bookingStartTime) as [Hle | Hlt].
  { split; [| split].
    - split; [intros [l Hl]; discriminate | intros (? & ? & ?); lia].
    - reflexivity.
    - intros l Hl. discriminate. }
  destruct (Qlt_le_dec 10 _) as [Hlong | Hshort].
  { apply (proj1 (ten_hour_limit _)) in Hlong. split; [| split].
    - split; [intros [l Hl]; discriminate | intros (? & ? & ?); lia].
    - lia.
    - intros l Hl. discriminate. }
  assert (Hdur : (bookingEndTime - bookingStartTime <= 36000000)%Z).
  { destruct (Z_le_gt_dec (bookingEndTime - bookingStartTime) 36000000) as [H | H];
      [exact H |].
    exfalso. apply Z.gt_lt in H. apply (proj2 (ten_hour_limit _)) in H.
    apply (Qlt_not_le _ _ H Hshort). }
  destruct (Z.ltb_spec bookingStartTime now) as [Hpast | Hfuture].
  { split; [| split].
    - split; [intros [l Hl]; discriminate | intros (? & ? & ?); lia].
    - lia.
    - intros l Hl. discriminate. }
  split; [| split].
  - split; [intros _; lia | intros _; eexists; reflexivity].
  - lia.
  - intros available Hav. injection Hav as <-. split.
    + eapply sublist_NoDup; [apply NoDup_lockerNumbers | apply filter_sublist].
    + intros n Hn.
      apply list_elem_of_In, filter_In in Hn as [Hn _]. apply list_elem_of_In in Hn.
      apply elem_of_lockerNumbers in Hn.
      destruct (Qeq_bool (Business.totalLockers business) 0) eqn:Hz.
      * apply Qeq_bool_iff in Hz. change (Z.to_nat (Qfloor 20)) with 20%nat in Hn.
        split; [lia |]. split; [intros _; lia | intros Hnz; contradiction].
      * apply Qeq_bool_neq in Hz.
        split; [lia |]. split; [intros Hz'; contradiction | intros _; lia].
Qed.

Lemma X13_check_availability_witness :
  checkAvailability (Some Sample.downtown_business) 0 3600000 3600000 (fun _ => 0.5%Q)
  = alert "Invalid Time" "End time must be after start time" /\
  exists available,
    checkAvailability (Some Sample.downtown_business) 0 3600000 10800000 (fun _ => 0.5%Q)
    = lockers available.
Proof.
  split.
  - apply (X13_check_availability Sample.downtown_business 0 3600000 3600000). lia.
  - apply (X13_check_availability Sample.downtown_business 0 3600000 10800000). lia.
Defined.
End AvailabilityFacts.


(** *** The auth state over time, and the navigator *)

Section AuthFacts.
Import AuthSlice.

Lemma session_consistent_step (s : AuthState) (a : Action) :
  Session.consistent s -> Session.consistent (reducer s a).
Proof.
  intros [H1 H2]. destruct s as [u t l au e]. cbn in H1, H2.
  unfold Session.consistent.
  destruct a as [| p | [] | [] p | p | p | p | | p]; cbn;
    split; intros H; try (discriminate H); eauto;
    try (apply H2; apply H1; exact H);
    try (destruct H as [? H]; discriminate H).
Qed.

(** X14.  In every auth state reached from the initial state by
    actions of the slice, an authenticated state holds a token, and a
    state that holds a token holds a user. *)
Theorem X14_session_consistent (actions : list Action) :
  let s := fold_left reducer actions initialState in
  (isAuthenticated s = true -> is_Some (token s)) /\
  (is_Some (token s) -> is_Some (user s)).
Proof.
  cbn zeta. change (Session.consistent (fold_left reducer actions initialState)).
  assert (H0 : Session.consistent initialState).
  { split; cbn; [discriminate | intros [? H]; discriminate H]. }
  revert H0. generalize initialState as s.
  induction actions as [| a actions IH]; intros s Hs; [exact Hs |].
  cbn. apply IH, session_consistent_step, Hs.
Qed.

Lemma X14_session_consistent_witness :
  is_Some (user (fold_left reducer
                   [pending loginUser;
                    loginUser_fulfilled (mkAuthResponse Sample.user "tok");
                    rejected registerUser "Registration failed"]
                   initialState)).
Proof.
  apply (X14_session_consistent
           [pending loginUser;
            loginUser_fulfilled (mkAuthResponse Sample.user "tok");
            rejected registerUser "Registration failed"]).
  eexists. reflexivity.
Defined.

(** X15.  The navigator shows the signed-in screens exactly when the
    state holds a user.  Once it does, every action except a fulfilled
    logout keeps it there: in particular a rejected login or
    registration leaves the signed-in screens up although it sets
    [isAuthenticated] to false. *)
Theorem X15_navigator_follows_user (s : AuthState) (a : Action) :
  (AppNavigator.routes s
   = [AppNavigator.MainTabs; AppNavigator.BookingDetails; AppNavigator.BusinessDetails]
   <-> is_Some (user s)) /\
  (is_Some (user s) -> a <> logoutUser_fulfilled ->
     AppNavigator.routes (reducer s a) = AppNavigator.routes s) /\
  (is_Some (user s) ->
     AppNavigator.routes (reducer s logoutUser_fulfilled)
     = [AppNavigator.Login; AppNavigator.Register]) /\
  (forall t payload,
      is_Some (user s) -> t = loginUser \/ t = registerUser ->
      AppNavigator.routes (reducer s (rejected t payload)) = AppNavigator.routes s /\
      isAuthenticated (reducer s (rejected t payload)) = false).
Proof.
  unfold AppNavigator.routes. split; [| split; [| split]].
  - destruct (user s); split; intros H; try reflexivity; try discriminate.
    + eexists; reflexivity.
    + destruct H as [? H]; discriminate H.
  - intros [u Hu] Ha. destruct s as [u' t l au e]. cbn in Hu. subst u'.
    destruct a as [| p | [] | [] p | p | p | p | | p]; cbn; try reflexivity.
    contradiction.
  - intros _. reflexivity.
  - intros t payload [u Hu] [-> | ->]; destruct s as [u' tk l au e];
      cbn in Hu; subst u'; split; reflexivity.
Qed.

Lemma X15_navigator_follows_user_witness :
  let s := reducer initialState (loginUser_fulfilled (mkAuthResponse Sample.user "tok")) in
  AppNavigator.routes (reducer s (rejected loginUser "Login failed"))
  = [AppNavigator.MainTabs; AppNavigator.BookingDetails; AppNavigator.BusinessDetails].
Proof.
  cbn zeta.
  rewrite (proj1 (proj2 (X15_navigator_follows_user
             (reducer initialState (loginUser_fulfilled (mkAuthResponse Sample.user "tok")))
             (rejected loginUser "Login failed")))).
  - reflexivity.
  - eexists. reflexivity.
  - discriminate.
Defined.
End AuthFacts.


(** *** The stored session *)

Section SessionFacts.
Variable decodeAuthResponse : string -> AuthResponse.
Variable decodeUser : string -> User.t.
Variable decodeMessage : string -> option string.
Variable stringify : User.t -> string.
Variable parse : string -> option User.t.

Local Abbreviation loginUser :=
  (AuthThunks.loginUser decodeAuthResponse decodeMessage stringify).
Local Abbreviation registerUser :=
  (AuthThunks.registerUser decodeAuthResponse decodeMessage stringify).
Local Abbreviation updateProfile :=
  (AuthThunks.updateProfile decodeUser decodeMessage stringify).
Local Abbreviation loadStoredAuth := (AuthThunks.loadStoredAuth parse).

Lemma or_default_nonempty (value : option string) (fallback : string) :
  fallback <> EmptyString -> or_default value fallback <> EmptyString.
Proof.
  intros Hf. unfold or_default. destruct value as [v |]; [| exact Hf].
  destruct (bool_decide (v = EmptyString)) eqn:E; [exact Hf |].
  apply bool_decide_eq_false in E. exact E.
Qed.

Lemma truthy_true (s : string) : truthy s = true <-> s <> EmptyString.
Proof.
  unfold truthy. rewrite negb_true_iff. apply bool_decide_eq_false.
Qed.

(** What a stored token and user give on the next start. *)
Lemma loadStoredAuth_stored (store : AsyncStorage.t) (token userData : string) (user : User.t) :
  store !! "auth_token" = Some token -> store !! "user_data" = Some userData ->
  token <> EmptyString -> userData <> EmptyString -> parse userData = Some user ->
  loadStoredAuth store = AuthSlice.loadStoredAuth_fulfilled (mkAuthResponse user token).
Proof.
  intros Ht Hu Hnt Hnu Hp. unfold AuthThunks.loadStoredAuth, AsyncStorage.getItem.
  rewrite Ht, Hu, (proj2 (truthy_true token) Hnt), (proj2 (truthy_true userData) Hnu), Hp.
  reflexivity.
Qed.

Lemma loadStoredAuth_no_token (store : AsyncStorage.t) :
  store !! "auth_token" = None ->
  loadStoredAuth store = AuthSlice.rejected AuthSlice.loadStoredAuth "No stored auth data".
Proof.
  intros Ht. unfold AuthThunks.loadStoredAuth, AsyncStorage.getItem.
  rewrite Ht. reflexivity.
Qed.

(** A request that succeeds leaves the store to the thunk. *)
Lemma call_resolved (endpoint : ApiService.Endpoint) (r : ApiService.AxiosResponse)
    (store : AsyncStorage.t) :
  ApiService.validateStatus (ApiService.status r) = true ->
  ApiService.call endpoint (ApiService.HttpReply r) store = (store, inr r).
Proof. intros H. unfold ApiService.call. rewrite H. reflexivity. Qed.

(** X16.  A login or a registration that succeeds can be found again:
    provided the token and the serialised user are not empty and the
    stored text parses back to that user, [loadStoredAuth] on the
    store the thunk leaves is fulfilled with the same user and token,
    so that the restarted app ends in the same user, token and
    authenticated flag as the login did. *)
Theorem X16_login_survives_restart
    (r : ApiService.AxiosResponse) (store : AsyncStorage.t) (s : AuthSlice.AuthState) :
  let response := decodeAuthResponse (ApiService.data r) in
  ApiService.validateStatus (ApiService.status r) = true ->
  auth_token response <> EmptyString ->
  stringify (auth_user response) <> EmptyString ->
  parse (stringify (auth_user response)) = Some (auth_user response) ->
  (snd (loginUser (ApiService.HttpReply r) store) = AuthSlice.loginUser_fulfilled response /\
   snd (registerUser (ApiService.HttpReply r) store) = AuthSlice.registerUser_fulfilled response) /\
  (forall store',
      store' = fst (loginUser (ApiService.HttpReply r) store) \/
      store' = fst (registerUser (ApiService.HttpReply r) store) ->
      loadStoredAuth store'
      = AuthSlice.loadStoredAuth_fulfilled
          (mkAuthResponse (auth_user response) (auth_token response)) /\
      let restarted := AuthSlice.reducer AuthSlice.initialState (loadStoredAuth store') in
      let logged_in := AuthSlice.reducer s (AuthSlice.loginUser_fulfilled response) in
      AuthSlice.user restarted = AuthSlice.user logged_in /\
      AuthSlice.token restarted = AuthSlice.token logged_in /\
      AuthSlice.isAuthenticated restarted = AuthSlice.isAuthenticated logged_in).
Proof.
  intros response Hok Ht Hu Hp.
  unfold AuthThunks.loginUser, AuthThunks.registerUser.
  rewrite !call_resolved by exact Hok. fold response. cbn [fst snd].
  split; [split; reflexivity |].
  intros store' Hs.
  assert (Hload : loadStoredAuth store'
                  = AuthSlice.loadStoredAuth_fulfilled
                      (mkAuthResponse (auth_user response) (auth_token response))).
  { destruct Hs as [-> | ->];
      apply (loadStoredAuth_stored _ (auth_token response)
               (stringify (auth_user response)) (auth_user response));
      try assumption; unfold AsyncStorage.setItem;
      rewrite ?lookup_insert_eq; try reflexivity;
      rewrite lookup_insert_ne by discriminate; apply lookup_insert_eq. }
  split; [exact Hload |]. rewrite Hload. cbn. repeat split.
Qed.


(** X17.  After a logout, and after a reply with status 401 to any
    endpoint, no session is found on the next start: [loadStoredAuth]
    is rejected with "No stored auth data", which leaves the
    restarted app unauthenticated and without a user, and requests go
    out without an [Authorization] header. *)
Theorem X17_no_session_after_logout_or_401
    (store : AsyncStorage.t) (endpoint : ApiService.Endpoint) (r : ApiService.AxiosResponse) :
  forall store',
    store' = fst (AuthThunks.logoutUser store) \/
    (ApiService.status r = 401%Z /\
     store' = fst (ApiService.call endpoint (ApiService.HttpReply r) store)) ->
    loadStoredAuth store'
    = AuthSlice.rejected AuthSlice.loadStoredAuth "No stored auth data" /\
    AuthSlice.reducer AuthSlice.initialState (loadStoredAuth store')
    = AuthSlice.initialState /\
    ApiService.requestInterceptor store' = None.
Proof.
  intros store' Hs.
  assert (Ht : store' !! "auth_token" = None).
  { destruct Hs as [-> | [H401 ->]].
    - cbn. unfold AsyncStorage.removeItem.
      rewrite lookup_delete_ne by discriminate. apply lookup_delete_eq.
    - rewrite call_store, bool_decide_eq_true_2 by exact H401.
      rewrite lookup_delete_ne by discriminate. apply lookup_delete_eq. }
  rewrite (loadStoredAuth_no_token store' Ht).
  split; [reflexivity |]. split; [reflexivity |].
  unfold ApiService.requestInterceptor, AsyncStorage.getItem. rewrite Ht. reflexivity.
Qed.


(** X18.  A login that is refused with status 401 removes the session
    that was stored before it, while the state keeps the user and the
    token it had; a login that fails in any other way leaves the store
    as it was. *)
Theorem X18_refused_login_drops_stored_session
    (reply : ApiService.Reply) (store : AsyncStorage.t) (s : AuthSlice.AuthState) :
  let store' := fst (loginUser reply store) in
  let s' := AuthSlice.reducer s (snd (loginUser reply store)) in
  (forall r, reply = ApiService.HttpReply r -> ApiService.status r = 401%Z ->
     store' !! "auth_token" = None /\ store' !! "user_data" = None /\
     AuthSlice.user s' = AuthSlice.user s /\ AuthSlice.token s' = AuthSlice.token s /\
     AuthSlice.isAuthenticated s' = false) /\
  ((forall r, reply = ApiService.HttpReply r ->
      ApiService.status r <> 401%Z /\
      ApiService.validateStatus (ApiService.status r) = false) ->
   store' = store /\ AuthSlice.user s' = AuthSlice.user s /\
   AuthSlice.token s' = AuthSlice.token s).
Proof.
  cbn zeta. unfold AuthThunks.loginUser. split.
  - intros r -> H401. unfold ApiService.call.
    replace (ApiService.validateStatus (ApiService.status r)) with false
      by (rewrite H401; reflexivity).
    unfold ApiService.onRejected. cbn [ApiService.response].
    rewrite bool_decide_eq_true_2 by exact H401. cbn [fst snd].
    unfold AsyncStorage.removeItem.
    split; [rewrite lookup_delete_ne by discriminate; apply lookup_delete_eq |].
    split; [apply lookup_delete_eq |]. repeat split.
  - intros H. destruct reply as [r | msg].
    + destruct (H r eq_refl) as [Hn Hv]. unfold ApiService.call. rewrite Hv.
      unfold ApiService.onRejected. cbn [ApiService.response].
      rewrite bool_decide_eq_false_2 by exact Hn. cbn [fst snd]. repeat split.
    + cbn. repeat split.
Qed.

End SessionFacts.

Lemma X16_login_survives_restart_witness :
  AuthThunks.loadStoredAuth (fun _ => Some Sample.user)
    (fst (AuthThunks.loginUser (fun _ => mkAuthResponse Sample.user "tok")
            (fun _ => None) (fun _ => "{user}")
            (ApiService.HttpReply (ApiService.mkResponse 200 "{}")) ∅))
  = AuthSlice.loadStoredAuth_fulfilled (mkAuthResponse Sample.user "tok").
Proof.
  apply (proj2 (X16_login_survives_restart
                  (fun _ => mkAuthResponse Sample.user "tok") (fun _ => None)
                  (fun _ => "{user}") (fun _ => Some Sample.user)
                  (ApiService.mkResponse 200 "{}") ∅ AuthSlice.initialState
                  eq_refl ltac:(discriminate) ltac:(discriminate) eq_refl)).
  left. reflexivity.
Defined.

Lemma X17_no_session_after_logout_or_401_witness :
  AuthThunks.loadStoredAuth (fun _ => Some Sample.user)
    (fst (AuthThunks.logoutUser
            (AsyncStorage.setItem "user_data" "{user}"
               (AsyncStorage.setItem "auth_token" "tok" ∅))))
  = AuthSlice.rejected AuthSlice.loadStoredAuth "No stored auth data".
Proof.
  apply (X17_no_session_after_logout_or_401 (fun _ => Some Sample.user)
           (AsyncStorage.setItem "user_data" "{user}"
              (AsyncStorage.setItem "auth_token" "tok" ∅))
           ApiService.getProfile (ApiService.mkResponse 200 "{}")).
  left. reflexivity.
Defined.

Lemma X18_refused_login_drops_stored_session_witness :
  fst (AuthThunks.loginUser (fun _ => mkAuthResponse Sample.user "tok")
         (fun _ => None) (fun _ => "{user}")
         (ApiService.HttpReply (ApiService.mkResponse 401 "{}"))
         (AsyncStorage.setItem "auth_token" "old" ∅)) !! "auth_token" = None.
Proof.
  apply (proj1 (X18_refused_login_drops_stored_session
                  (fun _ => mkAuthResponse Sample.user "tok") (fun _ => None)
                  (fun _ => "{user}")
                  (ApiService.HttpReply (ApiService.mkResponse 401 "{}"))
                  (AsyncStorage.setItem "auth_token" "old" ∅) AuthSlice.initialState)
           (ApiService.mkResponse 401 "{}") eq_refl eq_refl).
Defined.


(** *** Error texts and the profile update *)

Section ThunkFacts.
Variable decodeAuthResponse : string -> AuthResponse.
Variable decodeUser : string -> User.t.
Variable decodeMessage : string -> option string.
Variable stringify : User.t -> string.
Variable parse : string -> option User.t.

Lemma rejectValue_nonempty (error : ApiService.AxiosError) (fallback : string) :
  fallback <> EmptyString ->
  AuthThunks.rejectValue decodeMessage error fallback <> EmptyString.
Proof. apply or_default_nonempty. Qed.

(** X19.  The error text a failed thunk hands to its slice is never
    empty: the auth thunks (login, registration, profile update) and
    every booking thunk pass the [message] of the error body when it
    is present and not empty, and their own fixed text otherwise. *)
Theorem X19_rejection_text_never_empty
    (reply : ApiService.Reply) (store : AsyncStorage.t) (auth : AuthSlice.AuthState)
    (error : ApiService.AxiosError) :
  (forall t payload,
      snd (AuthThunks.loginUser decodeAuthResponse decodeMessage stringify reply store)
        = AuthSlice.rejected t payload \/
      snd (AuthThunks.registerUser decodeAuthResponse decodeMessage stringify reply store)
        = AuthSlice.rejected t payload \/
      snd (AuthThunks.updateProfile decodeUser decodeMessage stringify auth reply store)
        = AuthSlice.rejected t payload ->
      payload <> EmptyString) /\
  (forall t, exists payload,
      BookingThunks.rejection decodeMessage t error = BookingSlice.rejected t payload /\
      payload <> EmptyString /\
      (forall r m, ApiService.response error = Some r ->
         decodeMessage (ApiService.data r) = Some m -> m <> EmptyString -> payload = m) /\
      ((forall r, ApiService.response error = Some r ->
          decodeMessage (ApiService.data r) = None) ->
       payload = BookingThunks.fallback t)).
Proof.
  split.
  - intros t payload H.
    unfold AuthThunks.loginUser, AuthThunks.registerUser, AuthThunks.updateProfile in H.
    destruct (AuthSlice.user auth);
      destruct (ApiService.call ApiService.login reply store) as [s1 [e1 | r1]];
      destruct (ApiService.call ApiService.register reply store) as [s2 [e2 | r2]];
      destruct (ApiService.call ApiService.updateUserProfile reply store) as [s3 [e3 | r3]];
      cbn in H; destruct H as [H | [H | H]]; try discriminate H;
      injection H as _ <-; try discriminate;
      apply rejectValue_nonempty; discriminate.
  - intros t. eexists. split; [reflexivity |]. split; [| split].
    + apply rejectValue_nonempty. destruct t; discriminate.
    + intros r m Hr Hm Hne. unfold AuthThunks.rejectValue, or_default.
      rewrite Hr, Hm, bool_decide_eq_false_2 by exact Hne. reflexivity.
    + intros H. unfold AuthThunks.rejectValue, or_default.
      destruct (ApiService.response error) as [r |]; [| reflexivity].
      rewrite (H r eq_refl). reflexivity.
Qed.

(** X20.  The two business thunks never reject with an empty text.  A
    reply with status 500 gives the fixed server-error text whatever
    message its body carries: always from the nearby thunk, and from the
    search thunk unless its network test applies first and gives the
    network text.  A failure without any reply
    gives the network text from the nearby thunk; from the search
    thunk it does so only when the error code is NETWORK_ERROR or the
    error message contains "Network Error", and "Search failed"
    otherwise. *)
Theorem X20_business_error_texts (code : option string) (error : ApiService.AxiosError) :
  BusinessThunks.nearbyErrorMessage decodeMessage error <> EmptyString /\
  BusinessThunks.searchErrorMessage decodeMessage code error <> EmptyString /\
  (forall r, ApiService.response error = Some r -> ApiService.status r = 500%Z ->
     BusinessThunks.nearbyErrorMessage decodeMessage error
     = "Server error occurred. Check backend logs." /\
     (BusinessThunks.searchErrorMessage decodeMessage code error
      = "Server error occurred. Check backend logs." \/
      BusinessThunks.searchErrorMessage decodeMessage code error
      = "Network connection failed. Check if backend is running.")) /\
  (ApiService.response error = None ->
     BusinessThunks.nearbyErrorMessage decodeMessage error
     = "Network connection failed. Check if backend is running." /\
     (code <> Some "NETWORK_ERROR" ->
      BusinessThunks.includes "Network Error" (ApiService.message error) = false ->
      BusinessThunks.searchErrorMessage decodeMessage code error = "Search failed")).
Proof.
  unfold BusinessThunks.nearbyErrorMessage, BusinessThunks.searchErrorMessage.
  split; [| split; [| split]].
  - destruct (ApiService.response error) as [r |]; [| discriminate].
    destruct (bool_decide (ApiService.status r = 500%Z)); [discriminate |].
    destruct (decodeMessage (ApiService.data r)) as [m |]; [| discriminate].
    destruct (truthy m) eqn:E; [apply truthy_true, E | discriminate].
  - destruct (_ || _); [discriminate |].
    destruct (ApiService.response error) as [r |]; [| discriminate].
    destruct (bool_decide (ApiService.status r = 500%Z)); [discriminate |].
    destruct (decodeMessage (ApiService.data r)) as [m |]; [| discriminate].
    destruct (truthy m) eqn:E; [apply truthy_true, E | discriminate].
  - intros r Hr H500. rewrite Hr, bool_decide_eq_true_2 by exact H500.
    split; [reflexivity |]. destruct (_ || _); [right | left]; reflexivity.
  - intros Hr. rewrite Hr. split; [reflexivity |].
    intros Hc Hi. rewrite bool_decide_eq_false_2 by exact Hc. rewrite Hi. reflexivity.
Qed.

(** X21.  Without a user in the state [updateProfile] makes no request:
    it is rejected with "User not authenticated" and the store is left
    as it was, whatever the server would have answered.  With a user, a
    successful update replaces the stored user and nothing else, so
    that the next start finds the updated user under the old token. *)
Theorem X21_profile_update
    (auth : AuthSlice.AuthState) (reply : ApiService.Reply) (store : AsyncStorage.t) :
  let result := AuthThunks.updateProfile decodeUser decodeMessage stringify auth reply store in
  (AuthSlice.user auth = None ->
     result = (store, AuthSlice.rejected AuthSlice.updateProfile "User not authenticated")) /\
  (forall r token,
     is_Some (AuthSlice.user auth) ->
     reply = ApiService.HttpReply r ->
     ApiService.validateStatus (ApiService.status r) = true ->
     let updated := decodeUser (ApiService.data r) in
     snd result = AuthSlice.updateProfile_fulfilled updated /\
     (forall key, key <> "user_data" -> fst result !! key = store !! key) /\
     (store !! "auth_token" = Some token -> token <> EmptyString ->
      stringify updated <> EmptyString -> parse (stringify updated) = Some updated ->
      AuthThunks.loadStoredAuth parse (fst result)
      = AuthSlice.loadStoredAuth_fulfilled (mkAuthResponse updated token))).
Proof.
  cbn zeta. unfold AuthThunks.updateProfile. split.
  - intros ->. reflexivity.
  - intros r token [u ->] -> Hok. rewrite call_resolved by exact Hok. cbn [fst snd].
    split; [reflexivity |]. split.
    + intros key Hk. unfold AsyncStorage.setItem. apply lookup_insert_ne. congruence.
    + intros Ht Hnt Hnu Hp.
      apply (loadStoredAuth_stored parse _ token (stringify (decodeUser (ApiService.data r))));
        try assumption; unfold AsyncStorage.setItem.
      * rewrite lookup_insert_ne by discriminate. exact Ht.
      * apply lookup_insert_eq.
Qed.
End ThunkFacts.

Lemma X19_rejection_text_never_empty_witness :
  exists payload,
    BookingThunks.rejection (fun _ => Some EmptyString) BookingSlice.cancelBooking
      (ApiService.mkError "Request failed" (Some (ApiService.mkResponse 409 "{}")))
    = BookingSlice.rejected BookingSlice.cancelBooking payload /\
    payload <> EmptyString.
Proof.
  destruct (proj2 (X19_rejection_text_never_empty
                     (fun _ => mkAuthResponse Sample.user "tok") (fun _ => Sample.user)
                     (fun _ => Some EmptyString) (fun _ => "{user}")
                     (ApiService.NoReply "timeout") ∅ AuthSlice.initialState
                     (ApiService.mkError "Request failed"
                        (Some (ApiService.mkResponse 409 "{}"))))
                  BookingSlice.cancelBooking) as (payload & H1 & H2 & _).
  exists payload. split; assumption.
Defined.

Lemma X20_business_error_texts_witness :
  BusinessThunks.nearbyErrorMessage (fun _ => Some "Database exploded")
    (ApiService.mkError "Request failed with status code 500"
       (Some (ApiService.mkResponse 500 "{}")))
  = "Server error occurred. Check backend logs." /\
  BusinessThunks.searchErrorMessage (fun _ => None) (Some "ECONNABORTED")
    (ApiService.mkError "timeout of 10000ms exceeded" None)
  = "Search failed".
Proof.
  split.
  - apply (proj1 (proj2 (proj2 (X20_business_error_texts
             (fun _ => Some "Database exploded") None
             (ApiService.mkError "Request failed with status code 500"
                (Some (ApiService.mkResponse 500 "{}"))))))
           (ApiService.mkResponse 500 "{}") eq_refl eq_refl).
  - apply (proj2 (proj2 (proj2 (X20_business_error_texts
             (fun _ => None) (Some "ECONNABORTED")
             (ApiService.mkError "timeout of 10000ms exceeded" None))))
           eq_refl); [discriminate | reflexivity].
Defined.

Lemma X21_profile_update_witness :
  AuthThunks.updateProfile (fun _ => Sample.user) (fun _ => None) (fun _ => "{user}")
    AuthSlice.initialState (ApiService.HttpReply (ApiService.mkResponse 200 "{}"))
    (AsyncStorage.setItem "auth_token" "tok" ∅)
  = (AsyncStorage.setItem "auth_token" "tok" ∅,
     AuthSlice.rejected AuthSlice.updateProfile "User not authenticated").
Proof.
  apply (proj1 (X21_profile_update (fun _ => Sample.user) (fun _ => None)
                  (fun _ => "{user}") (fun _ => None)
                  AuthSlice.initialState
                  (ApiService.HttpReply (ApiService.mkResponse 200 "{}"))
                  (AsyncStorage.setItem "auth_token" "tok" ∅))).
  reflexivity.
Defined.


(** *** Invariants of the booking state *)

Section BookingInvariants.
Import BookingSlice Merge Merged.

(** Case analysis on everything a merging reducer branches on. *)
Ltac merge_cases :=
  unfold replace_selected, remove_from_active, replace_in_bookings,
    replaced, removed, updated, reselected,
    set_error, set_isLoading, set_activeBookings, set_bookings, set_selectedBooking;
  repeat (cbn [bookings activeBookings selectedBooking isLoading error];
          match goal with
          | |- context [findIndex ?f ?l] => destruct (findIndex f l) eqn:?
          | |- context [is_active ?p] => destruct (is_active p) eqn:?
          | |- context [same_id ?p ?b] => destruct (same_id p b) eqn:?
          end);
  cbn [bookings activeBookings selectedBooking isLoading error] in *;
  try reflexivity; try congruence.

(** The four reducers that merge an answered booking, in one form each. *)
Lemma update_normal (p : Booking.t) (s : BookingState) :
  reducer s (updateBookingStatus_fulfilled p)
  = mkState (replaced p (bookings s)) (updated p (activeBookings s))
            (reselected p (selectedBooking s)) (isLoading s) (error s).
Proof.
  destruct s as [bs act [b |] l e]; cbn [reducer]; merge_cases.
Qed.

Lemma cancel_normal (p : Booking.t) (s : BookingState) :
  reducer s (cancelBooking_fulfilled p)
  = mkState (replaced p (bookings s)) (removed p (activeBookings s))
            (reselected p (selectedBooking s)) false None.
Proof.
  destruct s as [bs act [b |] l e]; cbn [reducer]; merge_cases.
Qed.

Lemma checkIn_normal (p : Booking.t) (s : BookingState) :
  reducer s (checkInToLocker_fulfilled p)
  = mkState (replaced p (bookings s)) (replaced p (activeBookings s))
            (reselected p (selectedBooking s)) (isLoading s) (error s).
Proof.
  destruct s as [bs act [b |] l e]; cbn [reducer]; merge_cases.
Qed.

Lemma checkOut_normal (p : Booking.t) (s : BookingState) :
  reducer s (checkOutFromLocker_fulfilled p)
  = mkState (replaced p (bookings s)) (removed p (activeBookings s))
            (reselected p (selectedBooking s)) (isLoading s) (error s).
Proof.
  destruct s as [bs act [b |] l e]; cbn [reducer]; merge_cases.
Qed.

Lemma findIndex_id_lookup (p : Booking.t) (l : list Booking.t) (i : nat) :
  findIndex (same_id p) l = Some i ->
  (Booking._id <$> l) !! i = Some (Booking._id p) /\ (i < length l)%nat.
Proof.
  intros H. apply findIndex_first_match in H.
  pose proof (first_match_bound _ _ _ H) as Hlt.
  destruct H as [(b & Hb & Hid) _]. split; [| exact Hlt].
  rewrite list_lookup_fmap, Hb. cbn. rewrite Hid. reflexivity.
Qed.

Lemma replaced_ids (p : Booking.t) (l : list Booking.t) :
  Booking._id <$> replaced p l = Booking._id <$> l.
Proof.
  unfold replaced, assign. destruct (findIndex (same_id p) l) as [i |] eqn:Hi; [| reflexivity].
  rewrite list_fmap_insert. apply list_insert_id.
  apply (findIndex_id_lookup p l i Hi).
Qed.

Lemma removed_unique (p : Booking.t) (l : list Booking.t) :
  unique_ids l -> unique_ids (removed p l).
Proof.
  unfold unique_ids, removed, splice1. intros H.
  destruct (findIndex (same_id p) l) as [i |]; [| exact H].
  rewrite list_fmap_delete. eapply sublist_NoDup; [exact H | apply sublist_delete].
Qed.

Lemma updated_unique (p : Booking.t) (l : list Booking.t) :
  unique_ids l -> unique_ids (updated p l).
Proof.
  intros H. unfold updated.
  destruct (is_active p), (findIndex (same_id p) l) as [i |] eqn:Hi.
  - pose proof (replaced_ids p l) as E. unfold replaced in E. rewrite Hi in E.
    unfold unique_ids. rewrite E. exact H.
  - unfold unique_ids, push. rewrite fmap_app. apply NoDup_app.
    split; [exact H |]. split; [| apply NoDup_singleton].
    intros x Hx Hin. apply list_elem_of_singleton in Hin. subst x.
    apply list_elem_of_fmap in Hx as (b & Hid & Hb).
    apply findIndex_not_present in Hi. apply Hi. exists b. split; [exact Hb | congruence].
  - pose proof (removed_unique p l H) as E. unfold removed in E. rewrite Hi in E. exact E.
  - exact H.
Qed.

(** X22.  Merging an answered booking (status update, cancellation,
    check-in, check-out) never changes the number of bookings nor the
    sequence of their ids, keeps the ids of the bookings list and of
    the active list unique when they were, and refreshes the selected
    booking exactly when it has the id of the answer.  Creating a
    booking keeps the ids unique only if the id is new: a booking
    created twice makes the list hold its id twice. *)
Theorem X22_merge_keeps_ids (s : BookingState) (p : Booking.t) :
  (forall a,
      a = updateBookingStatus_fulfilled p \/ a = cancelBooking_fulfilled p \/
      a = checkInToLocker_fulfilled p \/ a = checkOutFromLocker_fulfilled p ->
      let s' := reducer s a in
      Booking._id <$> bookings s' = Booking._id <$> bookings s /\
      length (bookings s') = length (bookings s) /\
      (unique_ids (activeBookings s) -> unique_ids (activeBookings s')) /\
      selectedBooking s' = reselected p (selectedBooking s)) /\
  (let s' := reducer s (createBooking_fulfilled p) in
   (unique_ids (bookings s) -> ~ present p (bookings s) -> unique_ids (bookings s')) /\
   (present p (bookings s) -> ~ unique_ids (bookings s'))).
Proof.
  split.
  - intros a Ha. cbn zeta.
    assert (Hl : forall l : list Booking.t,
               Booking._id <$> replaced p l = Booking._id <$> l /\
               length (replaced p l) = length l).
    { intros l. split; [apply replaced_ids |].
      rewrite <- (length_fmap Booking._id), replaced_ids. apply length_fmap. }
    destruct Ha as [-> | [-> | [-> | ->]]];
      rewrite ?update_normal, ?cancel_normal, ?checkIn_normal, ?checkOut_normal;
      cbn [bookings activeBookings selectedBooking];
      (split; [apply Hl |]); (split; [apply Hl |]); (split; [| reflexivity]).
    + apply updated_unique.
    + apply removed_unique.
    + unfold unique_ids. rewrite replaced_ids. tauto.
    + apply removed_unique.
  - cbn zeta. destruct (create_lists p s) as [Hb _]. rewrite Hb.
    unfold unique_ids, unshift, present. rewrite fmap_cons. split.
    + intros Hu Hn. apply NoDup_cons. split; [| exact Hu].
      intros Hin. apply list_elem_of_fmap in Hin as (b & Hid & Hb').
      apply Hn. exists b. split; [exact Hb' | congruence].
    + intros (b & Hb' & Hid) Hu. apply NoDup_cons in Hu as [Hn _]. apply Hn.
      rewrite <- Hid. apply list_elem_of_fmap_2, Hb'.
Qed.

Lemma X22_merge_keeps_ids_witness :
  let a := Sample.booking "b1" BookingStatus.confirmed 0 in
  let s := reducer initialState (createBooking_fulfilled a) in
  ~ unique_ids (bookings (reducer s (createBooking_fulfilled a))).
Proof.
  cbn zeta.
  apply (proj2 (proj2 (X22_merge_keeps_ids
           (reducer initialState
              (createBooking_fulfilled (Sample.booking "b1" BookingStatus.confirmed 0)))
           (Sample.booking "b1" BookingStatus.confirmed 0)))).
  exists (Sample.booking "b1" BookingStatus.confirmed 0).
  split; [apply list_elem_of_here | reflexivity].
Defined.

(** X23.  "The active list holds active bookings only" is kept by
    every action of the booking slice, with two provisos: a fetched
    active list must itself hold active bookings only, and the answer
    to a check-in must be active unless its id is not in the list. *)
Theorem X23_active_list_stays_active (s : BookingState) (a : Action) :
  only_active (activeBookings s) ->
  match a with
  | fetchActiveBookings_fulfilled payload => only_active payload
  | checkInToLocker_fulfilled payload =>
      Booking.status payload = BookingStatus.active \/ ~ present payload (activeBookings s)
  | _ => True
  end ->
  only_active (activeBookings (reducer s a)).
Proof.
  unfold only_active. intros Hs Ha.
  destruct a as [| sel | | t | t msg | p | l | l | p | p | p | p].
  - exact Hs.
  - exact Hs.
  - constructor.
  - destruct t; exact Hs.
  - destruct t; exact Hs.
  - destruct (create_lists p s) as [_ E]. rewrite E.
    destruct (is_active p) eqn:Hp; [| exact Hs].
    apply Forall_cons. split; [apply is_active_true, Hp | exact Hs].
  - exact Hs.
  - exact Ha.
  - rewrite update_normal. cbn [activeBookings]. unfold updated, push, assign, splice1.
    destruct (is_active p) eqn:Hp, (findIndex (same_id p) (activeBookings s)).
    + apply Forall_insert; [exact Hs | apply is_active_true, Hp].
    + apply Forall_app. split; [exact Hs |].
      apply Forall_cons. split; [apply is_active_true, Hp | constructor].
    + apply Forall_delete, Hs.
    + exact Hs.
  - rewrite cancel_normal. cbn [activeBookings]. unfold removed, splice1.
    destruct (findIndex (same_id p) (activeBookings s)); [apply Forall_delete |]; exact Hs.
  - rewrite checkIn_normal. cbn [activeBookings]. unfold replaced, assign.
    destruct (findIndex (same_id p) (activeBookings s)) eqn:Hi; [| exact Hs].
    destruct Ha as [Ha | Ha].
    + apply Forall_insert; assumption.
    + exfalso. apply findIndex_not_present in Ha. congruence.
  - rewrite checkOut_normal. cbn [activeBookings]. unfold removed, splice1.
    destruct (findIndex (same_id p) (activeBookings s)); [apply Forall_delete |]; exact Hs.
Qed.

Lemma X23_active_list_stays_active_witness :
  only_active
    (activeBookings
       (reducer (reducer initialState
                   (createBooking_fulfilled (Sample.booking "b1" BookingStatus.active 0)))
          (updateBookingStatus_fulfilled (Sample.booking "b2" BookingStatus.active 0)))).
Proof.
  apply X23_active_list_stays_active; [| exact I].
  apply X23_active_list_stays_active; [constructor | exact I].
Defined.

Lemma findIndex_insert {A : Type} (f : A -> bool) (l : list A) (i : nat) (x : A) :
  findIndex f l = Some i -> f x = true -> findIndex f (<[i:=x]> l) = Some i.
Proof.
  revert i. induction l as [| y l IH]; intros i H Hx; cbn in H; [discriminate |].
  destruct (f y) eqn:Hy.
  - injection H as <-. cbn. rewrite Hx. reflexivity.
  - destruct (findIndex f l) as [k |] eqn:Hk; [| discriminate].
    cbn in H. injection H as <-. cbn [findIndex].
    change (<[S k:=x]> (y :: l)) with (y :: <[k:=x]> l). cbn [findIndex].
    rewrite Hy, (IH k eq_refl Hx). reflexivity.
Qed.

Lemma findIndex_push {A : Type} (f : A -> bool) (l : list A) (x : A) :
  findIndex f l = None -> f x = true -> findIndex f (l ++ [x]) = Some (length l).
Proof.
  induction l as [| y l IH]; intros H Hx; cbn in *.
  - rewrite Hx. reflexivity.
  - destruct (f y); [discriminate |].
    destruct (findIndex f l) as [k |]; [discriminate |].
    rewrite (IH eq_refl Hx). reflexivity.
Qed.

Lemma same_id_refl (p : Booking.t) : same_id p p = true.
Proof. apply same_id_true. reflexivity. Qed.

Lemma replaced_idem (p : Booking.t) (l : list Booking.t) :
  replaced p (replaced p l) = replaced p l.
Proof.
  unfold replaced, assign.
  destruct (findIndex (same_id p) l) as [i |] eqn:Hi.
  - rewrite (findIndex_insert _ _ _ _ Hi (same_id_refl p)).
    apply list_insert_insert_eq.
  - rewrite Hi. reflexivity.
Qed.

Lemma removed_idem (p : Booking.t) (l : list Booking.t) :
  unique_ids l -> removed p (removed p l) = removed p l.
Proof.
  intros Hu. unfold removed.
  destruct (findIndex (same_id p) l) as [i |] eqn:Hi.
  - rewrite (proj2 (findIndex_not_present p (splice1 i l))); [reflexivity |].
    apply splice_first_match_unique; assumption.
  - rewrite Hi. reflexivity.
Qed.

Lemma updated_idem (p : Booking.t) (l : list Booking.t) :
  unique_ids l -> updated p (updated p l) = updated p l.
Proof.
  intros Hu. unfold updated.
  destruct (is_active p) eqn:Hp, (findIndex (same_id p) l) as [i |] eqn:Hi.
  - unfold assign. rewrite (findIndex_insert _ _ _ _ Hi (same_id_refl p)).
    apply list_insert_insert_eq.
  - unfold push. rewrite (findIndex_push _ _ _ Hi (same_id_refl p)).
    unfold assign. apply list_insert_id, list_lookup_middle. reflexivity.
  - rewrite (proj2 (findIndex_not_present p (splice1 i l))); [reflexivity |].
    apply splice_first_match_unique; assumption.
  - rewrite Hi. reflexivity.
Qed.

Lemma reselected_idem (p : Booking.t) (o : option Booking.t) :
  reselected p (reselected p o) = reselected p o.
Proof.
  unfold reselected. destruct o as [b |]; [| reflexivity].
  destruct (same_id p b) eqn:Hb; [rewrite same_id_refl | rewrite Hb]; reflexivity.
Qed.

(** X24.  An answer that is merged twice has the effect of being merged
    once: for a status update, a cancellation and a check-out when the
    ids of the active list are unique, for a check-in always. *)
Theorem X24_merge_idempotent (s : BookingState) (p : Booking.t) :
  (unique_ids (activeBookings s) ->
   forall a,
     a = updateBookingStatus_fulfilled p \/ a = cancelBooking_fulfilled p \/
     a = checkOutFromLocker_fulfilled p ->
     reducer (reducer s a) a = reducer s a) /\
  reducer (reducer s (checkInToLocker_fulfilled p)) (checkInToLocker_fulfilled p)
  = reducer s (checkInToLocker_fulfilled p).
Proof.
  split.
  - intros Hu a [-> | [-> | ->]].
    + rewrite !update_normal. cbn [bookings activeBookings selectedBooking isLoading error].
      rewrite replaced_idem, reselected_idem, updated_idem by exact Hu. reflexivity.
    + rewrite !cancel_normal. cbn [bookings activeBookings selectedBooking isLoading error].
      rewrite replaced_idem, reselected_idem, removed_idem by exact Hu. reflexivity.
    + rewrite !checkOut_normal. cbn [bookings activeBookings selectedBooking isLoading error].
      rewrite replaced_idem, reselected_idem, removed_idem by exact Hu. reflexivity.
  - rewrite !checkIn_normal. cbn [bookings activeBookings selectedBooking isLoading error].
    rewrite !replaced_idem, reselected_idem. reflexivity.
Qed.

Lemma X24_merge_idempotent_witness :
  let a := Sample.booking "b1" BookingStatus.active 0 in
  let c := Sample.booking "b1" BookingStatus.completed 0 in
  let s := mkState [a] [a] (Some a) false None in
  reducer (reducer s (updateBookingStatus_fulfilled c)) (updateBookingStatus_fulfilled c)
  = reducer s (updateBookingStatus_fulfilled c).
Proof.
  cbn zeta.
  apply (proj1 (X24_merge_idempotent
                  (mkState [Sample.booking "b1" BookingStatus.active 0]
                           [Sample.booking "b1" BookingStatus.active 0]
                           (Some (Sample.booking "b1" BookingStatus.active 0)) false None)
                  (Sample.booking "b1" BookingStatus.completed 0))).
  - unfold unique_ids. cbn. apply NoDup_singleton.
  - left. reflexivity.
Defined.
End BookingInvariants.

(** *** The search screen: queries, requests and what is shown *)

Section SearchFlowFacts.
Import SearchHandlers.

Lemma digit_not_space (c : Ascii.ascii) : isDigit c = true -> isWhiteSpace c = false.
Proof.
  destruct c as [[] [] [] [] [] [] [] []]; cbn; intros H;
    first [reflexivity | discriminate H].
Qed.

Lemma trimStart_blank (a s : string) :
  blank a = true -> trimStart (a +:+ s) = trimStart s.
Proof.
  induction a as [| c a IH]; simpl; intros H; [reflexivity |].
  apply andb_true_iff in H as [Hc Ha]. rewrite Hc. exact (IH Ha).
Qed.

Lemma trimStart_of_blank (q : string) : blank q = true -> trimStart q = EmptyString.
Proof.
  induction q as [| c q IH]; simpl; intros H; [reflexivity |].
  apply andb_true_iff in H as [Hc Hq]. rewrite Hc. exact (IH Hq).
Qed.

Lemma trimEnd_of_blank (b : string) : blank b = true -> trimEnd b = EmptyString.
Proof.
  induction b as [| c b IH]; simpl; intros H; [reflexivity |].
  apply andb_true_iff in H as [Hc Hb]. rewrite (IH Hb), Hc. reflexivity.
Qed.

Lemma trimEnd_app_blank (s b : string) :
  blank b = true -> trimEnd (s +:+ b) = trimEnd s.
Proof.
  intros Hb. induction s as [| c s IH]; simpl.
  - apply trimEnd_of_blank, Hb.
  - rewrite IH. reflexivity.
Qed.

Lemma trimEnd_digits (z : string) : all_digits z = true -> trimEnd z = z.
Proof.
  induction z as [| c z IH]; simpl; intros H; [reflexivity |].
  apply andb_true_iff in H as [Hc Hz]. rewrite (IH Hz), (digit_not_space c Hc).
  destruct z; reflexivity.
Qed.

Lemma trim_blank (q : string) : blank q = true <-> trim q = EmptyString.
Proof.
  unfold trim. split.
  - intros H. rewrite (trimStart_of_blank q H). reflexivity.
  - induction q as [| c q IH]; simpl; [reflexivity |].
    destruct (isWhiteSpace c) eqn:Hc; [exact IH |].
    simpl. rewrite Hc. destruct (trimEnd q); discriminate.
Qed.

Lemma trim_padded_digits (a z b : string) :
  blank a = true -> blank b = true -> zipRegex_test z = true ->
  trim (a +:+ z +:+ b) = z.
Proof.
  intros Ha Hb Hz. apply andb_true_iff in Hz as [Hlen Hd].
  unfold trim. rewrite (trimStart_blank a _ Ha).
  destruct z as [| c z]; [discriminate Hlen |].
  pose proof Hd as Hd'. simpl in Hd'. apply andb_true_iff in Hd' as [Hc _].
  simpl trimStart. rewrite (digit_not_space c Hc).
  change (String c (z +:+ b)) with (String c z +:+ b).
  rewrite (trimEnd_app_blank _ b Hb). apply trimEnd_digits, Hd.
Qed.

Lemma truthy_trim (q : string) : truthy (trim q) = negb (blank q).
Proof.
  unfold truthy. destruct (blank q) eqn:Hq.
  - rewrite (proj1 (trim_blank q) Hq). reflexivity.
  - rewrite bool_decide_eq_false_2; [reflexivity |].
    intros H. apply trim_blank in H. congruence.
Qed.

(** X25.  The search handler works on the trimmed query.  It answers
    with the single alert "Please enter a search term", and touches
    nothing, exactly when the query consists of white space only.  For
    a query of five digits surrounded by any white space, with the ZIP
    toggle on, it clears the results and the error and then sends one
    request for exactly the five digits: a nearby request with radius 40
    at the table's coordinates when the ZIP is in the debug table, a ZIP
    search otherwise. *)
Theorem X25_search_works_on_trimmed_query
    (q a z b : string) (t : SearchType) (zip : bool) :
  (blank q = true <-> handleSearch q t zip = [alert "Please enter a search term" None]) /\
  (blank a = true -> blank b = true -> zipRegex_test z = true ->
   handleSearch (a +:+ z +:+ b) search true
   = [dispatch BusinessSlice.clearBusinesses; dispatch BusinessSlice.clearError;
      match DebugHelper.getDebugCoordinates z with
      | Some c =>
          dispatch_fetchNearbyBusinesses (LatLng.latitude c) (LatLng.longitude c) 40
      | None => dispatch_searchBusinesses (by_zipCode z)
      end]).
Proof.
  split.
  - unfold handleSearch. rewrite truthy_trim. destruct (blank q); cbn [negb].
    + split; reflexivity.
    + split; [discriminate |]. intros H. discriminate H.
  - intros Ha Hb Hz. unfold handleSearch.
    rewrite (trim_padded_digits a z b Ha Hb Hz).
    assert (Ht : truthy z = true).
    { destruct z; [discriminate Hz | reflexivity]. }
    rewrite Ht, Hz. cbn [negb andb app].
    destruct (DebugHelper.getDebugCoordinates z); reflexivity.
Qed.

Lemma X25_search_works_on_trimmed_query_witness :
  handleSearch " 30308  " search true
  = [dispatch BusinessSlice.clearBusinesses; dispatch BusinessSlice.clearError;
     dispatch_fetchNearbyBusinesses 33.7729 (-84.3627) 40].
Proof.
  apply (proj2 (X25_search_works_on_trimmed_query EmptyString " " "30308" "  " search true));
    reflexivity.
Defined.

Lemma displayBusinesses_right (bs : list Business.t) :
  SearchScreen.displayBusinesses [] bs = bs.
Proof. destruct bs; reflexivity. Qed.

Lemma displayBusinesses_left (bs : list Business.t) :
  SearchScreen.displayBusinesses bs [] = bs.
Proof. destruct bs; reflexivity. Qed.

Lemma displayBusinesses_held (bs nb : list Business.t) :
  bs <> [] -> SearchScreen.displayBusinesses bs nb = bs.
Proof. destruct bs; [congruence | reflexivity]. Qed.

Lemma displayBusinesses_nil (bs nb : list Business.t) :
  SearchScreen.displayBusinesses bs nb = [] -> bs = [] /\ nb = [].
Proof. destruct bs, nb; cbn; intros H; try discriminate H; split; reflexivity. Qed.

(** What the answer to a request does to a state of the store. *)
Lemma fulfilled_merge (st : BusinessSlice.BusinessState) (c : Command)
    (bs : list Business.t) (a : BusinessSlice.Action) :
  fulfilled c bs = Some a ->
  BusinessSlice.isLoading (BusinessSlice.reducer st a) = false /\
  BusinessSlice.error (BusinessSlice.reducer st a) = None /\
  (displayed st = [] -> displayed (BusinessSlice.reducer st a) = bs) /\
  (forall params, c = dispatch_searchBusinesses params -> bs <> [] ->
     displayed (BusinessSlice.reducer st a) = bs).
Proof.
  intros Ha. destruct c; try discriminate Ha; injection Ha as <-;
    (split; [reflexivity |]); (split; [reflexivity |]); split.
  - intros Hd. apply displayBusinesses_nil in Hd as [Hb _].
    unfold displayed. cbn. rewrite Hb. apply displayBusinesses_right.
  - intros params H. discriminate H.
  - intros Hd. apply displayBusinesses_nil in Hd as [_ Hn].
    unfold displayed. cbn. rewrite Hn. apply displayBusinesses_left.
  - intros p _ Hbs. unfold displayed. cbn. apply displayBusinesses_held, Hbs.
Qed.

(** A non-blank search: the commands of the handler and the state
    they leave. *)
Lemma handleSearch_clears (s : BusinessSlice.BusinessState) (q : string) (zip : bool) :
  blank q = false ->
  let cs := handleSearch q search zip in
  BusinessSlice.businesses (run s cs) = [] /\
  BusinessSlice.nearbyBusinesses (run s cs) = [] /\
  BusinessSlice.error (run s cs) = None /\
  (List.filter is_request cs = [] /\
   BusinessSlice.isLoading (run s cs) = BusinessSlice.isLoading s /\
   zip = true /\ zipRegex_test (trim q) = false
   \/
   (exists c, List.filter is_request cs = [c]) /\
   BusinessSlice.isLoading (run s cs) = true /\
   (zip = true -> zipRegex_test (trim q) = true)).
Proof.
  intros Hq cs. subst cs. unfold handleSearch.
  rewrite truthy_trim, Hq. cbn [negb].
  destruct zip, (zipRegex_test (trim q)); cbn [andb negb];
    try destruct (DebugHelper.getDebugCoordinates (trim q)) as [c0 |];
    (split; [reflexivity |]); (split; [reflexivity |]); (split; [reflexivity |]);
    first [ left; repeat split; reflexivity
          | right; split; [eexists; reflexivity | split; [reflexivity | congruence]] ].
Qed.

(** X26.  A search with a non-blank query first empties the screen's
    list and removes the error, whatever was held before and also when
    the query is then refused as an invalid ZIP code, in which case no
    request is sent.  When the answer to the request arrives, after
    whatever other actions, loading ends and no error is held; the list
    on screen is then exactly the answer if nothing was on screen just
    before, in particular if no other action came in between, and a
    search answer that is not empty is shown in any case.  But an empty
    search answer that arrives after the answer of an earlier nearby
    request leaves that nearby list on screen. *)
Theorem X26_search_replaces_what_is_shown
    (s : BusinessSlice.BusinessState) (q : string) (zip : bool) :
  blank q = false ->
  let cs := handleSearch q search zip in
  displayed (run s cs) = [] /\
  BusinessSlice.error (run s cs) = None /\
  (zip = true -> zipRegex_test (trim q) = false ->
     List.filter is_request cs = [] /\
     BusinessSlice.isLoading (run s cs) = BusinessSlice.isLoading s) /\
  (forall c bs a (between : list BusinessSlice.Action),
     c ∈ cs -> fulfilled c bs = Some a ->
     let before := fold_left BusinessSlice.reducer between (run s cs) in
     let after := BusinessSlice.reducer before a in
     BusinessSlice.isLoading after = false /\
     BusinessSlice.error after = None /\
     (displayed before = [] -> displayed after = bs) /\
     (between = [] -> BusinessSlice.isLoading before = true /\ displayed after = bs) /\
     (forall params, c = dispatch_searchBusinesses params -> bs <> [] ->
        displayed after = bs)) /\
  (forall params a nb,
     dispatch_searchBusinesses params ∈ cs ->
     fulfilled (dispatch_searchBusinesses params) [] = Some a ->
     displayed
       (BusinessSlice.reducer
          (BusinessSlice.reducer (run s cs)
             (BusinessSlice.fetchNearbyBusinesses_fulfilled nb)) a) = nb).
Proof.
  intros Hq. cbn zeta.
  pose proof (handleSearch_clears s q zip Hq) as H. cbn zeta in H.
  destruct H as (Hb & Hn & He & Hreq).
  set (cs := handleSearch q search zip) in *.
  assert (Hd : displayed (run s cs) = []).
  { unfold displayed. rewrite Hb, Hn. reflexivity. }
  split; [exact Hd |]. split; [exact He |]. split; [| split].
  - intros Hz Hr. destruct Hreq as [(H1 & H2 & _) | (_ & _ & H3)]; [split; assumption |].
    rewrite (H3 Hz) in Hr. discriminate Hr.
  - intros c bs a between Hc Ha.
    set (before := fold_left BusinessSlice.reducer between (run s cs)).
    destruct (fulfilled_merge before c bs a Ha) as (H1 & H2 & H3 & H4).
    split; [exact H1 |]. split; [exact H2 |]. split; [exact H3 |]. split; [| exact H4].
    intros ->. subst before. cbn [fold_left] in *. split; [| apply H3, Hd].
    destruct Hreq as [(H5 & _) | (_ & H6 & _)]; [| exact H6].
    assert (Hin : c ∈ List.filter is_request cs).
    { apply list_elem_of_In, filter_In. split; [apply list_elem_of_In, Hc |].
      destruct c; try discriminate Ha; reflexivity. }
    rewrite H5 in Hin. apply elem_of_nil in Hin. contradiction.
  - intros params a nb _ Ha. injection Ha as <-.
    set (st := run s cs). clearbody st. unfold displayed. cbn.
    apply displayBusinesses_right.
Qed.

Lemma X26_search_replaces_what_is_shown_witness :
  displayed
    (BusinessSlice.reducer
       (run (BusinessSlice.mkState [Sample.business "old" 0 0] None [] false (Some "old error") None)
            (handleSearch "cafe" search false))
       (BusinessSlice.searchBusinesses_fulfilled [Sample.business "new" 1 1] (by_name "cafe")))
  = [Sample.business "new" 1 1].
Proof.
  refine (proj2 (proj1 (proj2 (proj2 (proj2 (proj1 (proj2 (proj2 (proj2
           (X26_search_replaces_what_is_shown
              (BusinessSlice.mkState [Sample.business "old" 0 0] None [] false
                 (Some "old error") None)
              "cafe" false eq_refl))))
           (dispatch_searchBusinesses (by_name "cafe")) [Sample.business "new" 1 1]
           _ [] _ eq_refl)))) eq_refl)).
  apply list_elem_of_In. vm_compute. right. right. left. reflexivity.
Defined.

(** X27.  Going to the Near Me tab and finding nearby lockers does not
    clear the results of an earlier search: when the store holds search
    results, the answer to the nearby request is stored but the screen
    goes on showing the old search results.  After the search has been
    cleared the same steps show the nearby answer. *)
Theorem X27_near_me_keeps_search_results
    (s : BusinessSlice.BusinessState) (l : Location.t) (nb : list Business.t) :
  BusinessSlice.businesses s <> [] ->
  let answered cs :=
    BusinessSlice.reducer (run s cs) (BusinessSlice.fetchNearbyBusinesses_fulfilled nb) in
  BusinessSlice.nearbyBusinesses (answered (pressNearMe ++ handleFindNearby (inr l))) = nb /\
  displayed (answered (pressNearMe ++ handleFindNearby (inr l))) = BusinessSlice.businesses s /\
  displayed (answered (clearSearch ++ pressNearMe ++ handleFindNearby (inr l))) = nb.
Proof.
  intros Hheld answered. subst answered. cbn beta.
  split; [reflexivity |]. split.
  - unfold displayed. cbn. apply displayBusinesses_held, Hheld.
  - unfold displayed. cbn. apply displayBusinesses_right.
Qed.

Lemma X27_near_me_keeps_search_results_witness :
  let s := BusinessSlice.mkState [Sample.business "found" 0 0] None [] false None None in
  displayed
    (BusinessSlice.reducer
       (run s (pressNearMe ++ handleFindNearby (inr (Location.mk 1 2 None))))
       (BusinessSlice.fetchNearbyBusinesses_fulfilled [Sample.business "near" 1 1]))
  = [Sample.business "found" 0 0].
Proof.
  cbn zeta.
  refine (proj1 (proj2 (X27_near_me_keeps_search_results
           (BusinessSlice.mkState [Sample.business "found" 0 0] None [] false None None)
           (Location.mk 1 2 None) [Sample.business "near" 1 1] _))).
  discriminate.
Defined.

Lemma nearbyErrorMessage_truthy (decodeMessage : string -> option string)
    (error : ApiService.AxiosError) :
  truthy (BusinessThunks.nearbyErrorMessage decodeMessage error) = true.
Proof.
  unfold BusinessThunks.nearbyErrorMessage.
  destruct (ApiService.response error) as [r |]; [| reflexivity].
  destruct (bool_decide (ApiService.status r = 500%Z)); [reflexivity |].
  destruct (decodeMessage (ApiService.data r)) as [m |]; [| reflexivity].
  destruct (truthy m) eqn:E; [exact E | reflexivity].
Qed.

Lemma searchErrorMessage_truthy (decodeMessage : string -> option string)
    (code : option string) (error : ApiService.AxiosError) :
  truthy (BusinessThunks.searchErrorMessage decodeMessage code error) = true.
Proof.
  unfold BusinessThunks.searchErrorMessage.
  destruct (_ || _); [reflexivity |].
  destruct (ApiService.response error) as [r |]; [| reflexivity].
  destruct (bool_decide (ApiService.status r = 500%Z)); [reflexivity |].
  destruct (decodeMessage (ApiService.data r)) as [m |]; [| reflexivity].
  destruct (truthy m) eqn:E; [exact E | reflexivity].
Qed.

Lemma loading_kept (st : BusinessSlice.BusinessState) (between : list BusinessSlice.Action) :
  BusinessSlice.isLoading st = true ->
  forallb (fun a => negb (is_answer a)) between = true ->
  BusinessSlice.isLoading (fold_left BusinessSlice.reducer between st) = true.
Proof.
  revert st. induction between as [| a l IH]; intros st Hl Hb; [exact Hl |].
  cbn [forallb] in Hb. apply andb_true_iff in Hb as [Ha Hb].
  cbn [fold_left]. apply IH; [| exact Hb].
  destruct a; cbn in Ha |- *; first [exact Hl | reflexivity | discriminate Ha].
Qed.

(** X28.  What the body of the search screen is during and after a
    request.  Once a handler (search, find nearby, try again) has sent
    a request, it is the loading panel, and it stays the loading panel
    while no thunk of the business slice ends.  The thunks share one
    loading flag: the answer of any of them, also of another request
    than the one just sent, takes the loading panel away.  Right after
    a failed search or nearby request the body is the error panel
    carrying the text the thunk made of the failure, also when the
    store still holds businesses to show.  Right after an answer it is
    the empty panel when the list on screen is empty and the result
    panel with that list otherwise. *)
Theorem X28_screen_body_follows_request
    (decodeMessage : string -> option string) (code : option string)
    (error : ApiService.AxiosError)
    (s : BusinessSlice.BusinessState) (q : string) (st : SearchType) (zip : bool)
    (o : LocationError.t + Location.t) (t : SearchType) (showMap : bool) :
  (forall cs between,
     cs = handleSearch q st zip \/ cs = handleFindNearby o \/ cs = pressTryAgain q st zip o ->
     List.filter is_request cs <> [] ->
     forallb (fun a => negb (is_answer a)) between = true ->
     renderContent (fold_left BusinessSlice.reducer between (run s cs)) t showMap
     = loading_panel) /\
  (forall a, is_answer a = true ->
     renderContent (BusinessSlice.reducer s a) t showMap <> loading_panel) /\
  (let text := BusinessThunks.searchErrorMessage decodeMessage code error in
   renderContent
     (BusinessSlice.reducer s (BusinessSlice.rejected BusinessSlice.searchBusinesses text))
     t showMap = error_panel text) /\
  (let text := BusinessThunks.nearbyErrorMessage decodeMessage error in
   renderContent
     (BusinessSlice.reducer s (BusinessSlice.rejected BusinessSlice.fetchNearbyBusinesses text))
     t showMap = error_panel text) /\
  (forall c bs a, fulfilled c bs = Some a ->
     let s' := BusinessSlice.reducer s a in
     (displayed s' = [] -> exists text, renderContent s' t showMap = empty_panel text) /\
     (displayed s' <> [] ->
      exists header, renderContent s' t showMap = results_panel showMap header (displayed s'))).
Proof.
  assert (Hsearch : forall s0,
    List.filter is_request (handleSearch q st zip) <> [] ->
    BusinessSlice.isLoading (run s0 (handleSearch q st zip)) = true).
  { intros s0. unfold handleSearch.
    destruct (negb (truthy (trim q))); [intros H; exact (False_ind _ (H eq_refl)) |].
    destruct st; [intros H; exact (False_ind _ (H eq_refl)) |].
    destruct zip, (zipRegex_test (trim q)); cbn [andb negb];
      try destruct (DebugHelper.getDebugCoordinates (trim q));
      first [reflexivity | intros H; exact (False_ind _ (H eq_refl))]. }
  assert (Hnear : forall s0,
    List.filter is_request (handleFindNearby o) <> [] ->
    BusinessSlice.isLoading (run s0 (handleFindNearby o)) = true).
  { intros s0. destruct o; [intros H; exact (False_ind _ (H eq_refl)) | reflexivity]. }
  split; [| split; [| split; [| split]]].
  - intros cs between Hcs Hreq Hbetween. unfold renderContent.
    rewrite loading_kept; [reflexivity | | exact Hbetween].
    destruct Hcs as [-> | [-> | ->]]; [apply Hsearch, Hreq | apply Hnear, Hreq |].
    unfold pressTryAgain in *. cbn [run fold_left] in *.
    change (fold_left store_step ?cs0 ?s0) with (run s0 cs0).
    cbn [List.filter is_request] in Hreq.
    destruct st.
    + apply Hnear, Hreq.
    + destruct (truthy (trim q)); [apply Hsearch, Hreq |].
      exact (False_ind _ (Hreq eq_refl)).
  - intros a Ha. unfold renderContent.
    assert (Hl : BusinessSlice.isLoading (BusinessSlice.reducer s a) = false).
    { destruct a; try discriminate Ha; reflexivity. }
    rewrite Hl. destruct (BusinessSlice.error _) as [e |]; [destruct (truthy e) |];
      try discriminate; destruct (_ =? _)%nat; discriminate.
  - cbn zeta. unfold renderContent. cbn.
    rewrite searchErrorMessage_truthy. reflexivity.
  - cbn zeta. unfold renderContent. cbn.
    rewrite nearbyErrorMessage_truthy. reflexivity.
  - intros c bs a Ha s'.
    assert (Hl : BusinessSlice.isLoading s' = false /\ BusinessSlice.error s' = None).
    { subst s'. destruct c; try discriminate Ha; injection Ha as <-; split; reflexivity. }
    destruct Hl as [Hl He]. unfold renderContent. rewrite Hl, He. split.
    + intros Hd. rewrite Hd. eexists. reflexivity.
    + intros Hd. destruct (displayed s') eqn:E; [congruence |]. eexists. reflexivity.
Qed.

Lemma X28_screen_body_follows_request_witness :
  renderContent
    (fold_left BusinessSlice.reducer [BusinessSlice.clearError]
       (run BusinessSlice.initialState (handleSearch "cafe" search false))) search true
  = loading_panel.
Proof.
  refine (proj1 (X28_screen_body_follows_request
            (fun _ => None) None (ApiService.mkError "Network Error" None)
            BusinessSlice.initialState "cafe" search false
            (inr (Location.mk 1 2 None)) search true)
          _ [BusinessSlice.clearError] (or_introl eq_refl) _ eq_refl).
  vm_compute. discriminate.
Defined.

(** X29.  Find Nearby in the two builds.  In a development build it
    always sends exactly one nearby request with radius 40 and raises
    no alert, whatever the device answers; when positioning fails the
    request is for downtown Atlanta (33.7490, -84.3880).  In a
    production build a positioning failure sends no request and leaves
    the store as it was; the one alert it raises has the same fixed text
    for every error code. *)
Theorem X29_find_nearby_by_build
    (s : BusinessSlice.BusinessState) (outcome : Geolocation.PositionOutcome) (code : Z) :
  (let cs := handleFindNearby (Geolocation.getCurrentLocation true outcome) in
   List.filter is_alert cs = [] /\
   BusinessSlice.isLoading (run s cs) = true /\
   exists latitude longitude,
     List.filter is_request cs = [dispatch_fetchNearbyBusinesses latitude longitude 40] /\
     match outcome with
     | Geolocation.position lat lng _ => latitude = lat /\ longitude = lng
     | Geolocation.position_error _ => latitude = 33.7490%float /\ longitude = (-84.3880)%float
     end) /\
  (let cs := handleFindNearby
               (Geolocation.getCurrentLocation false (Geolocation.position_error code)) in
   List.filter is_request cs = [] /\
   run s cs = s /\
   List.filter is_alert cs
   = [alert "Location Error" (Some "Unable to get your location for nearby search")]).
Proof.
  split.
  - destruct outcome; cbn; (split; [reflexivity |]); (split; [reflexivity |]);
      eexists _, _; (split; [reflexivity |]); split; reflexivity.
  - cbn. split; [reflexivity |]. split; reflexivity.
Qed.
End SearchFlowFacts.

(** *** The framed region and the order of its two points *)

Section RegionSymmetry.
Local Open Scope float_scope.
Import JSNumber BusinessMap.

Lemma SFadd_comm (x y : spec_float) : SF64add x y = SF64add y x.
Proof.
  destruct x as [sx | sx | | sx mx ex], y as [sy | sy | | sy my ey]; cbn;
    try reflexivity; try (destruct sx, sy; reflexivity).
  rewrite (Z.min_comm ey ex), Z.add_comm. reflexivity.
Qed.

Lemma add_comm (x y : float) : x + y = y + x.
Proof. apply Prim2SF_inj. rewrite !FloatAxioms.add_spec. apply SFadd_comm. Qed.

(** The sign of a rounded value is the sign it was given. *)
Lemma SFabs_binary_round_aux (s s' : bool) (m e : Z) (l : location) :
  SFabs (binary_round_aux prec emax s m e l) = SFabs (binary_round_aux prec emax s' m e l).
Proof.
  unfold binary_round_aux.
  destruct (shr_fexp prec emax m e l) as [mrs' e'].
  destruct (shr_fexp prec emax _ e' loc_Exact) as [mrs'' e''].
  destruct (shr_m mrs''); [reflexivity | | reflexivity].
  destruct (_ <=? _)%Z; reflexivity.
Qed.

Lemma SFabs_binary_normalize_opp (m e : Z) :
  SFabs (binary_normalize prec emax (- m) e false)
  = SFabs (binary_normalize prec emax m e false).
Proof.
  destruct m as [| p | p];
    [reflexivity
    | change (- Z.pos p)%Z with (Z.neg p)
    | change (- Z.neg p)%Z with (Z.pos p)];
    cbn [binary_normalize]; unfold binary_round; destruct (shl_align _ _ _);
    apply SFabs_binary_round_aux.
Qed.

Lemma SFabs_sub_sym (x y : spec_float) : SFabs (SF64sub x y) = SFabs (SF64sub y x).
Proof.
  destruct x as [sx | sx | | sx mx ex], y as [sy | sy | | sy my ey]; cbn;
    try reflexivity; try (destruct sx, sy; reflexivity).
  rewrite (Z.min_comm ey ex).
  rewrite <- SFabs_binary_normalize_opp. f_equal. f_equal. lia.
Qed.

Lemma abs_sub_sym (x y : float) : Math_abs (x - y) = Math_abs (y - x).
Proof.
  apply Prim2SF_inj. unfold Math_abs.
  rewrite !FloatAxioms.abs_spec, !FloatAxioms.sub_spec. apply SFabs_sub_sym.
Qed.

(** X30.  The region framed for a user location and a first business
    does not depend on which of the two points is the user's: with
    the two points exchanged the centre and both deltas are the same
    doubles, for all coordinates, NaN and the infinities included. *)
Theorem X30_region_symmetric
    (u u' : LatLng.t) (b b' : Business.t) (bs bs' : list Business.t) (f1 f2 g1 g2 : bool) :
  LatLng.latitude u' = Business.coordinates1 b ->
  LatLng.longitude u' = Business.coordinates0 b ->
  Business.coordinates1 b' = LatLng.latitude u ->
  Business.coordinates0 b' = LatLng.longitude u ->
  region (Some u') (b' :: bs') g1 g2 = region (Some u) (b :: bs) f1 f2.
Proof.
  intros H1 H2 H3 H4.
  cbn [region regionEffect setRegion]. unfold calculateOptimalRegion. cbn zeta.
  rewrite H1, H2, H3, H4.
  rewrite (add_comm (Business.coordinates1 b)), (add_comm (Business.coordinates0 b)).
  rewrite (abs_sub_sym (Business.coordinates1 b)), (abs_sub_sym (Business.coordinates0 b)).
  reflexivity.
Qed.

Lemma X30_region_symmetric_witness :
  region (Some (LatLng.mk 33.7729 (-84.3627)))
         [Sample.business "b2" (-84.4407) 33.9427] true true
  = region (Some (LatLng.mk 33.9427 (-84.4407)))
           [Sample.business "b1" (-84.3627) 33.7729] false false.
Proof.
  apply (X30_region_symmetric
           (LatLng.mk 33.9427 (-84.4407)) (LatLng.mk 33.7729 (-84.3627))
           (Sample.business "b1" (-84.3627) 33.7729)
           (Sample.business "b2" (-84.4407) 33.9427) [] [] false false true true);
    reflexivity.
Defined.
End RegionSymmetry.
